(** * ticktask: the token life cycle and the task query engine

    A shallow embedding of the parts of the ticktask command-line client
    that carry its correctness concerns:

    - [ticktask/api/auth.py]: [TokenStorage] and [OAuth2Handler], from the
      key file to [login];
    - [ticktask/api/tasks.py]: [TaskManager._parse_date],
      [TaskManager._filter_by_due_date], [TaskManager.list_tasks], and the
      creation, update and completion of tasks;
    - [ticktask/api/client.py]: [connect] and the task payloads;
    - [src/commands/workflow.py]: the tasks and the sort of the daily
      plan;
    - [ticktask/integrations/obsidian.py]: the groups of the daily log.

    Python values are modelled as follows.  An [int] is a [Z].  A [str] is a
    [string] (the text handled here is ASCII).  A [dict] with string keys is
    a [gmap string _].  A call that may raise returns a [result].  The
    [datetime] module is modelled after CPython's [_pydatetime.py]; a
    [datetime] record is a naive value, as [datetime.now()] produces them,
    and the due date of a task, which may be aware, has its UTC offset
    beside it.
    Collaborators outside the repository (Fernet, [json], [dateutil], the
    token endpoint, the file system, the clock) are parameters; [Standin]
    gives small executable doubles of them.

    The definitions come first: the model of Python and of the source,
    then the vocabulary of the specification and of the further
    properties.  The facts follow, one section per operation. *)

From Stdlib Require Import ZArith Lia List String Ascii Bool.
From Stdlib Require Import Sorting.Permutation Sorting.Sorted.
From stdpp Require Import gmap strings.
Import ListNotations.

#[local] Set Warnings "-register-all".
#[local] Open Scope string_scope.
#[local] Open Scope Z_scope.

(** ** Exceptions and fallible computations *)

Module Py.

(** The exception classes the modelled code raises or meets.  [LibError] is
    an [Exception] subclass raised by a library ([InvalidToken],
    [JSONDecodeError], [HTTPStatusError], [OSError], ...); [BaseExn] is a
    [BaseException] that does not derive from [Exception]
    ([KeyboardInterrupt], [SystemExit], [asyncio.CancelledError]). *)
Inductive exn : Type :=
| ValueError (msg : string)
| OverflowError (msg : string)
| TypeError (msg : string)
| AttributeError (msg : string)
| TimeoutError (msg : string)
| KeyError (key : string)
| Exception (msg : string)
| LibError (cls msg : string)
| BaseExn (cls : string).

(** [isinstance(e, Exception)]: what [except Exception] catches. *)
Definition is_Exception (e : exn) : bool :=
  match e with
  | BaseExn _ => false
  | _ => true
  end.

Inductive result (A : Type) : Type :=
| Return (a : A)
| Raise (e : exn).
Arguments Return {A} a.
Arguments Raise {A} e.

Definition bind {A B : Type} (m : result A) (k : A -> result B) : result B :=
  match m with
  | Return a => k a
  | Raise e => Raise e
  end.

Definition raises {A : Type} (m : result A) : bool :=
  match m with
  | Return _ => false
  | Raise _ => true
  end.

End Py.
Import Py.

Notation "'let*' x ':=' m 'in' k" := (Py.bind m (fun x => k))
  (at level 10, x name, m at level 100, k at level 200).

(** ** The proleptic Gregorian calendar of [datetime] *)

Module Calendar.

Definition _MAXORDINAL : Z := 3652059.
Definition MINYEAR : Z := 1.
Definition MAXYEAR : Z := 9999.

Definition _DAYS_IN_MONTH : list Z :=
  [-1; 31; 28; 31; 30; 31; 30; 31; 31; 30; 31; 30; 31].

Definition _DAYS_BEFORE_MONTH : list Z :=
  [-1; 0; 31; 59; 90; 120; 151; 181; 212; 243; 273; 304; 334].

(** [table[i]] for an index within the table. *)
Definition index (table : list Z) (i : Z) : Z := nth (Z.to_nat i) table 0.

Definition _is_leap (year : Z) : bool :=
  (year mod 4 =? 0) && (negb (year mod 100 =? 0) || (year mod 400 =? 0)).

Definition _days_before_year (year : Z) : Z :=
  let y := year - 1 in
  y * 365 + y / 4 - y / 100 + y / 400.

Definition _days_in_month (year month : Z) : Z :=
  if (month =? 2) && _is_leap year then 29 else index _DAYS_IN_MONTH month.

Definition _days_before_month (year month : Z) : Z :=
  index _DAYS_BEFORE_MONTH month
  + (if (2 <? month) && _is_leap year then 1 else 0).

Definition _ymd2ord (year month day : Z) : Z :=
  _days_before_year year + _days_before_month year month + day.

Definition _DI400Y : Z := 146097.
Definition _DI100Y : Z := 36524.
Definition _DI4Y : Z := 1461.

(** [_ord2ymd]: ordinal to (year, month, day), 01-Jan-0001 being day 1. *)
Definition _ord2ymd (n : Z) : Z * Z * Z :=
  let n := n - 1 in
  let n400 := n / _DI400Y in
  let n := n mod _DI400Y in
  let year := n400 * 400 + 1 in
  let n100 := n / _DI100Y in
  let n := n mod _DI100Y in
  let n4 := n / _DI4Y in
  let n := n mod _DI4Y in
  let n1 := n / 365 in
  let n := n mod 365 in
  let year := year + n100 * 100 + n4 * 4 + n1 in
  if (n1 =? 4) || (n100 =? 4) then (year - 1, 12, 31)
  else
    let leapyear := (n1 =? 3) && (negb (n4 =? 24) || (n100 =? 3)) in
    let month := Z.shiftr (n + 50) 5 in
    let preceding :=
      index _DAYS_BEFORE_MONTH month
      + (if (2 <? month) && leapyear then 1 else 0) in
    let '(month, preceding) :=
      if n <? preceding
      then (month - 1,
            preceding - (index _DAYS_IN_MONTH (month - 1)
                         + (if (month - 1 =? 2) && leapyear then 1 else 0)))
      else (month, preceding) in
    (year, month, n - preceding + 1).

End Calendar.
Import Calendar.

(** ** [date], [datetime] and [timedelta] *)

Module Datetime.

Record date : Type := mk_date { year : Z; month : Z; day : Z }.

(** A naive [datetime]: a [date] and a time of day. [dt_date] is [.date()]. *)
Record datetime : Type := mk_datetime {
  dt_date : date;
  hour : Z;
  minute : Z;
  second : Z;
  microsecond : Z
}.

(** A normalized [timedelta]: [0 <= seconds < 86400],
    [0 <= microseconds < 1000000]. *)
Record timedelta : Type := mk_timedelta {
  days : Z;
  seconds : Z;
  microseconds : Z
}.

Definition between (lo x hi : Z) : bool := (lo <=? x) && (x <=? hi).

(** The checks of the constructors, with the messages of CPython (the
    year message without the number). *)
Definition _check_date_fields (y m d : Z) : result date :=
  if negb (between MINYEAR y MAXYEAR) then
    Raise (ValueError "year is out of range")
  else if negb (between 1 m 12) then
    Raise (ValueError "month must be in 1..12")
  else if negb (between 1 d (_days_in_month y m)) then
    Raise (ValueError "day is out of range for month")
  else Return (mk_date y m d).

Definition _check_time_fields (h mi s us : Z) : result unit :=
  if negb (between 0 h 23) then
    Raise (ValueError "hour must be in 0..23")
  else if negb (between 0 mi 59) then
    Raise (ValueError "minute must be in 0..59")
  else if negb (between 0 s 59) then
    Raise (ValueError "second must be in 0..59")
  else if negb (between 0 us 999999) then
    Raise (ValueError "microsecond must be in 0..999999")
  else Return tt.

(** The constructor [datetime(y, m, d, h, mi, s, us)]. *)
Definition datetime_new (y m d h mi s us : Z) : result datetime :=
  let* dd := _check_date_fields y m d in
  let* _ := _check_time_fields h mi s us in
  Return (mk_datetime dd h mi s us).

(** The keyword arguments of [datetime.replace]; [None] keeps the field. *)
Record replace_args : Type := mk_replace {
  r_year : option Z;
  r_month : option Z;
  r_day : option Z;
  r_hour : option Z;
  r_minute : option Z;
  r_second : option Z;
  r_microsecond : option Z
}.

Definition no_change : replace_args :=
  mk_replace None None None None None None None.

Definition replace (self : datetime) (a : replace_args) : result datetime :=
  datetime_new
    (default (year (dt_date self)) (r_year a))
    (default (month (dt_date self)) (r_month a))
    (default (day (dt_date self)) (r_day a))
    (default (hour self) (r_hour a))
    (default (minute self) (r_minute a))
    (default (second self) (r_second a))
    (default (microsecond self) (r_microsecond a)).

Definition toordinal (d : date) : Z := _ymd2ord (year d) (month d) (day d).

Definition fromordinal (n : Z) : date :=
  let '(y, m, d) := _ord2ymd n in mk_date y m d.

(** [weekday()]: Monday is 0, Sunday is 6. *)
Definition weekday (d : date) : Z := (toordinal d + 6) mod 7.

(** [timedelta(weeks=, days=, hours=)] on integers. *)
Definition timedelta_new (weeks days hours : Z) : result timedelta :=
  let s := hours * 3600 in
  let d := days + weeks * 7 + s / 86400 in
  let s := s mod 86400 in
  if 999999999 <? Z.abs d then
    Raise (OverflowError "days must have magnitude <= 999999999")
  else Return (mk_timedelta d s 0).

(** [date + timedelta]: only the days of the delta count. *)
Definition date_add (self : date) (other : timedelta) : result date :=
  let o := toordinal self + days other in
  if (0 <? o) && (o <=? _MAXORDINAL) then Return (fromordinal o)
  else Raise (OverflowError "date value out of range").

(** [datetime + timedelta]. *)
Definition datetime_add (self : datetime) (other : timedelta)
  : result datetime :=
  let us := microsecond self + microseconds other in
  let s := hour self * 3600 + minute self * 60 + second self
           + seconds other + us / 1000000 in
  let us := us mod 1000000 in
  let d := toordinal (dt_date self) + days other + s / 86400 in
  let s := s mod 86400 in
  if (0 <? d) && (d <=? _MAXORDINAL) then
    Return (mk_datetime (fromordinal d)
              (s / 3600) ((s mod 3600) / 60) ((s mod 3600) mod 60) us)
  else Raise (OverflowError "date value out of range").

(** [datetime - datetime] on naive values. *)
Definition datetime_sub (self other : datetime) : timedelta :=
  let secs (t : datetime) := second t + minute t * 60 + hour t * 3600 in
  let us := microsecond self - microsecond other in
  let s := secs self - secs other + us / 1000000 in
  let d := toordinal (dt_date self) - toordinal (dt_date other) + s / 86400 in
  mk_timedelta d (s mod 86400) (us mod 1000000).

(** Python's comparison of tuples of integers. *)
Fixpoint _cmp (x y : list Z) : comparison :=
  match x, y with
  | [], [] => Eq
  | [], _ :: _ => Lt
  | _ :: _, [] => Gt
  | a :: x', b :: y' =>
      match a ?= b with
      | Eq => _cmp x' y'
      | c => c
      end
  end.

Definition is_lt (c : comparison) : bool :=
  match c with Lt => true | _ => false end.
Definition is_eq (c : comparison) : bool :=
  match c with Eq => true | _ => false end.
Definition is_le (c : comparison) : bool :=
  match c with Gt => false | _ => true end.
Definition is_gt (c : comparison) : bool :=
  match c with Gt => true | _ => false end.

Definition date_fields (d : date) : list Z := [year d; month d; day d].

Definition datetime_fields (t : datetime) : list Z :=
  date_fields (dt_date t) ++ [hour t; minute t; second t; microsecond t].

Definition timedelta_fields (t : timedelta) : list Z :=
  [days t; seconds t; microseconds t].

Definition date_eqb (a b : date) : bool :=
  is_eq (_cmp (date_fields a) (date_fields b)).
Definition date_ltb (a b : date) : bool :=
  is_lt (_cmp (date_fields a) (date_fields b)).
Definition date_leb (a b : date) : bool :=
  is_le (_cmp (date_fields a) (date_fields b)).

Definition datetime_eqb (a b : datetime) : bool :=
  is_eq (_cmp (datetime_fields a) (datetime_fields b)).
Definition datetime_ltb (a b : datetime) : bool :=
  is_lt (_cmp (datetime_fields a) (datetime_fields b)).

Definition timedelta_gtb (a b : timedelta) : bool :=
  is_gt (_cmp (timedelta_fields a) (timedelta_fields b)).

(** [datetime.max]. *)
Definition datetime_max : datetime :=
  mk_datetime (mk_date 9999 12 31) 23 59 59 999999.

(** Well-formed values, as the constructors guarantee them. *)
Definition valid_date (d : date) : Prop :=
  MINYEAR <= year d <= MAXYEAR /\ 1 <= month d <= 12 /\
  1 <= day d <= _days_in_month (year d) (month d).

Definition valid_datetime (t : datetime) : Prop :=
  valid_date (dt_date t) /\ 0 <= hour t <= 23 /\ 0 <= minute t <= 59 /\
  0 <= second t <= 59 /\ 0 <= microsecond t <= 999999.

(** The microseconds a [timedelta] stands for. *)
Definition total_microseconds (t : timedelta) : Z :=
  (days t * 86400 + seconds t) * 1000000 + microseconds t.

(** A [datetime] as comparisons see it: its fields and the UTC offset of
    its [tzinfo] in seconds, [None] for a naive value. *)
Definition zoned : Type := (datetime * option Z)%type.

(** [datetime._cmp(other)]: values that are both naive, or aware with
    equal offsets, compare by their fields; aware values with different
    offsets compare by the sign of [self - other]; a naive and an aware
    value do not compare ([None]). *)
Definition datetime_cmp (a b : zoned) : option comparison :=
  match snd a, snd b with
  | None, None =>
      Some (_cmp (datetime_fields (fst a)) (datetime_fields (fst b)))
  | Some myoff, Some otoff =>
      if myoff =? otoff then
        Some (_cmp (datetime_fields (fst a)) (datetime_fields (fst b)))
      else
        Some (total_microseconds (datetime_sub (fst a) (fst b))
              + (otoff - myoff) * 1000000 ?= 0)
  | _, _ => None
  end.

(** [a == b]: a naive and an aware value are unequal, without an error. *)
Definition zoned_eqb (a b : zoned) : bool :=
  match datetime_cmp a b with
  | Some c => is_eq c
  | None => false
  end.

(** [a < b]: a naive and an aware value raise [TypeError]. *)
Definition zoned_ltb (a b : zoned) : result bool :=
  match datetime_cmp a b with
  | Some c => Return (is_lt c)
  | None =>
      Raise (TypeError "can't compare offset-naive and offset-aware datetimes")
  end.

(** Decimal digits and zero-padded fields, as [%02d] and [%04d] write them
    for numbers that fit. *)
Definition digit (n : Z) : ascii := ascii_of_nat (48 + Z.to_nat (n mod 10)).

Definition pad2 (n : Z) : string :=
  String (digit (n / 10)) (String (digit n) EmptyString).

Definition pad4 (n : Z) : string :=
  String (digit (n / 1000)) (String (digit (n / 100)) (pad2 n)).

Definition pad6 (n : Z) : string :=
  String (digit (n / 100000)) (String (digit (n / 10000)) (pad4 n)).

(** [date.isoformat()]: YYYY-MM-DD, an explicit date string. *)
Definition date_isoformat (d : date) : string :=
  pad4 (year d) ++ "-" ++ pad2 (month d) ++ "-" ++ pad2 (day d).

End Datetime.
Import Datetime.

(** ** [str] methods and the two regular expressions of the date parser *)

Module Str.

Definition code (c : ascii) : nat := nat_of_ascii c.

Definition lower_char (c : ascii) : ascii :=
  if (Nat.leb 65 (code c) && Nat.leb (code c) 90)%bool
  then ascii_of_nat (code c + 32) else c.

(** [s.lower()] *)
Fixpoint lower (s : string) : string :=
  match s with
  | EmptyString => EmptyString
  | String c s' => String (lower_char c) (lower s')
  end.

(** The ASCII characters [str.isspace] accepts. *)
Definition is_space (c : ascii) : bool :=
  (Nat.leb 9 (code c) && Nat.leb (code c) 13)
  || (Nat.leb 28 (code c) && Nat.leb (code c) 32).

Fixpoint lstrip (s : string) : string :=
  match s with
  | EmptyString => EmptyString
  | String c s' => if is_space c then lstrip s' else s
  end.

Fixpoint rstrip (s : string) : string :=
  match s with
  | EmptyString => EmptyString
  | String c s' =>
      match rstrip s' with
      | EmptyString => if is_space c then EmptyString else String c EmptyString
      | r => String c r
      end
  end.

(** [s.strip()] *)
Definition strip (s : string) : string := rstrip (lstrip s).

(** [sub in s] *)
Fixpoint contains (sub s : string) : bool :=
  String.prefix sub s
  || match s with
     | EmptyString => false
     | String _ s' => contains sub s'
     end.

(** What is left of [s] after the literal [p], when [s] starts with it. *)
Fixpoint drop_prefix (p s : string) : option string :=
  match p, s with
  | EmptyString, _ => Some s
  | String a p', String b s' =>
      if Ascii.eqb a b then drop_prefix p' s' else None
  | String _ _, EmptyString => None
  end.

Definition is_digit (c : ascii) : bool :=
  Nat.leb 48 (code c) && Nat.leb (code c) 57.

(** The longest prefix of digits, and the rest: the greedy [\d+]. *)
Fixpoint span_digits (s : string) : string * string :=
  match s with
  | String c s' =>
      if is_digit c
      then let '(ds, r) := span_digits s' in (String c ds, r)
      else (EmptyString, s)
  | EmptyString => (EmptyString, EmptyString)
  end.

(** An alternation [(a1|a2|...)] matched at the start of [s]: the first
    alternative that matches wins, and nothing after it is looked at. *)
Definition first_alternative (alts : list string) (s : string)
  : option string :=
  List.find (fun a => String.prefix a s) alts.

(** [int(ds)] on a string of decimal digits. *)
Fixpoint int_digits (acc : Z) (ds : string) : Z :=
  match ds with
  | EmptyString => acc
  | String c ds' => int_digits (acc * 10 + Z.of_nat (code c - 48)) ds'
  end.

Definition int (ds : string) : Z := int_digits 0 ds.

(** [re.match(r"in (\d+) (day|days|week|weeks|month|months)", s)]:
    groups 1 and 2 of the match, which is anchored at the start only. *)
Definition in_pattern (s : string) : option (string * string) :=
  match drop_prefix "in " s with
  | None => None
  | Some r =>
      let '(ds, r) := span_digits r in
      match ds with
      | EmptyString => None
      | _ =>
          match drop_prefix " " r with
          | None => None
          | Some r =>
              match first_alternative
                      ["day"; "days"; "week"; "weeks"; "month"; "months"] r
              with
              | Some u => Some (ds, u)
              | None => None
              end
          end
      end
  end.

(** [re.match(r"next (monday|...|sunday)", s)]: group 1 of the match. *)
Definition weekday_pattern (s : string) : option string :=
  match drop_prefix "next " s with
  | None => None
  | Some r =>
      first_alternative
        ["monday"; "tuesday"; "wednesday"; "thursday"; "friday";
         "saturday"; "sunday"] r
  end.

End Str.

(** ** [ticktask/api/models.py] *)

Module Models.

(** [TaskStatus] and [TaskPriority] are [IntEnum]s stored by value. *)
Module TaskStatus.
Definition NORMAL : Z := 0.
Definition COMPLETED : Z := 2.
End TaskStatus.

Module TaskPriority.
Definition NONE : Z := 0.
Definition LOW : Z := 1.
Definition MEDIUM : Z := 3.
Definition HIGH : Z := 5.
End TaskPriority.

(** The fields of [Task] the query engine reads.  The value of
    [due_date] is held in two fields: [due_date] has its date and time,
    [due_utcoffset] the UTC offset of its [tzinfo] in seconds, [None] when
    it is naive or absent.  A due date that the API writes with [+0000]
    is read as an aware value of offset 0. *)
Record Task : Type := mk_Task {
  id : option string;
  project_id : string;
  title : string;
  due_date : option datetime;
  due_utcoffset : option Z;
  priority : Z;
  status : Z
}.

Record Project : Type := mk_Project {
  p_id : option string;
  name : string;
  closed : bool
}.

Record ProjectData : Type := mk_ProjectData {
  project : Project;
  tasks : list Task
}.

End Models.
Import Models.

(** ** [ticktask/api/tasks.py]: [TaskManager] *)

Module TaskManager.

(** The calls of [TickTickClient] that [list_tasks] makes. *)
Record TickTickClient : Type := mk_client {
  get_projects : result (list Project);
  get_project_data : option string -> result ProjectData
}.

(** [.replace(hour=23, minute=59, second=59)] *)
Definition end_of_day : replace_args :=
  mk_replace None None None (Some 23) (Some 59) (Some 59) None.

(** [(now + timedelta(days=n)).replace(hour=23, minute=59, second=59)] *)
Definition shifted_end_of_day (now : datetime) (weeks days : Z)
  : result datetime :=
  let* delta := timedelta_new weeks days 0 in
  let* t := datetime_add now delta in
  replace t end_of_day.

Definition target_weekdays : gmap string Z :=
  list_to_map
    [("monday", 0); ("tuesday", 1); ("wednesday", 2); ("thursday", 3);
     ("friday", 4); ("saturday", 5); ("sunday", 6)].

(** A [try] whose bare [except:] turns every exception into [e]. *)
Definition try_except_all {A : Type} (body : result A) (e : exn) : result A :=
  match body with
  | Return a => Return a
  | Raise _ => Raise e
  end.

(** [_parse_date(date_str)], with [datetime.now()] read as [now] and
    [dateutil.parser.parse] as [date_parser_parse]. *)
Definition _parse_date (date_parser_parse : string -> result datetime)
    (now : datetime) (date_str : string) : result datetime :=
  let date_str := Str.strip (Str.lower date_str) in
  if String.eqb date_str "today" then replace now end_of_day
  else if String.eqb date_str "tomorrow" then shifted_end_of_day now 0 1
  else if String.eqb date_str "yesterday" then shifted_end_of_day now 0 (-1)
  else if String.eqb date_str "next week" then shifted_end_of_day now 1 0
  else if String.eqb date_str "next month" then
    if month (dt_date now) =? 12 then
      replace now
        (mk_replace (Some (year (dt_date now) + 1)) (Some 1) None
           (Some 23) (Some 59) (Some 59) None)
    else
      replace now
        (mk_replace None (Some (month (dt_date now) + 1)) None
           (Some 23) (Some 59) (Some 59) None)
  else
    let weekday_or_standard : result datetime :=
      match Str.weekday_pattern date_str with
      | Some group1 =>
          let* target_weekday :=
            match target_weekdays !! group1 with
            | Some n => Return n
            | None => Raise (KeyError group1)
            end in
          let days_ahead := target_weekday - weekday (dt_date now) in
          let days_ahead :=
            if days_ahead <=? 0 then days_ahead + 7 else days_ahead in
          shifted_end_of_day now 0 days_ahead
      | None =>
          try_except_all
            (let* parsed := date_parser_parse date_str in
             if (hour parsed =? 0) && (minute parsed =? 0)
             then replace parsed end_of_day
             else Return parsed)
            (ValueError ("Could not parse date: " ++ date_str))
      end in
    match Str.in_pattern date_str with
    | Some (group1, unit_) =>
        let amount := Str.int group1 in
        if Str.contains "day" unit_ then shifted_end_of_day now 0 amount
        else if Str.contains "week" unit_ then shifted_end_of_day now amount 0
        else if Str.contains "month" unit_ then
          shifted_end_of_day now 0 (amount * 30)
        else weekday_or_standard
    | None => weekday_or_standard
    end.

(** The condition chain of one loop iteration of [_filter_by_due_date]:
    does the task dated [task_date] go into [filtered]?  The sums
    [today + timedelta(days=n)] are only evaluated in the branch of their
    own bucket, as [and] short-circuits. *)
Definition due_date_selects (due_filter : string) (today task_date : date)
  : result bool :=
  if String.eqb due_filter "today" && date_eqb task_date today then
    Return true
  else
    let* is_tomorrow :=
      if String.eqb due_filter "tomorrow" then
        let* delta := timedelta_new 0 1 0 in
        let* d := date_add today delta in
        Return (date_eqb task_date d)
      else Return false in
    if is_tomorrow then Return true
    else
      let* in_week :=
        if String.eqb due_filter "week" then
          let* delta := timedelta_new 0 7 0 in
          let* d := date_add today delta in
          Return (date_leb task_date d)
        else Return false in
      if in_week then Return true
      else Return (String.eqb due_filter "overdue" && date_ltb task_date today).

(** The [for task in tasks] loop, [filtered] being the list built so far. *)
Fixpoint _filter_loop (due_filter : string) (today : date)
    (tasks : list Task) (filtered : list Task) : result (list Task) :=
  match tasks with
  | [] => Return filtered
  | task :: rest =>
      match due_date task with
      | None => _filter_loop due_filter today rest filtered
      | Some due =>
          let* selected := due_date_selects due_filter today (dt_date due) in
          _filter_loop due_filter today rest
            (if selected then filtered ++ [task] else filtered)
      end
  end.

Definition _filter_by_due_date (now : datetime) (tasks : list Task)
    (due_filter : string) : result (list Task) :=
  let today := dt_date now in
  _filter_loop due_filter today tasks [].

(** Truth value of an optional string: [None] and [""] are false. *)
Definition truthy_str (s : option string) : bool :=
  match s with
  | None => false
  | Some s => negb (String.eqb s "")
  end.

(** The [for project in projects] loop of [list_tasks]. *)
Fixpoint fetch_all (client : TickTickClient) (projects : list Project)
    (all_tasks : list Task) : result (list Task) :=
  match projects with
  | [] => Return all_tasks
  | p :: rest =>
      if negb (closed p) then
        let* project_data := get_project_data client (p_id p) in
        fetch_all client rest (all_tasks ++ tasks project_data)
      else fetch_all client rest all_tasks
  end.

Definition list_tasks (client : TickTickClient) (now : datetime)
    (project_id due_filter : option string) (priority_ : option Z)
    (status_ : option string) : result (list Task) :=
  let* all_tasks :=
    if truthy_str project_id then
      let* project_data := get_project_data client project_id in
      Return (tasks project_data)
    else
      let* projects := get_projects client in
      fetch_all client projects [] in
  let filtered_tasks := all_tasks in
  let* filtered_tasks :=
    if truthy_str due_filter
    then _filter_by_due_date now filtered_tasks (default "" due_filter)
    else Return filtered_tasks in
  let filtered_tasks :=
    match priority_ with
    | Some p => List.filter (fun t => priority t =? p) filtered_tasks
    | None => filtered_tasks
    end in
  let filtered_tasks :=
    if truthy_str status_ then
      if String.eqb (Str.lower (default "" status_)) "completed" then
        List.filter (fun t => status t =? TaskStatus.COMPLETED) filtered_tasks
      else if String.eqb (Str.lower (default "" status_)) "open" then
        List.filter (fun t => status t =? TaskStatus.NORMAL) filtered_tasks
      else filtered_tasks
    else filtered_tasks in
  Return filtered_tasks.

End TaskManager.

(** ** [src/commands/workflow.py]: the daily plan *)

Module Workflow.

(** The sort key [(-(t.priority or 0), t.due_date or datetime.max)];
    [datetime.max] is naive. *)
Definition sort_key (t : Task) : Z * zoned :=
  (- (if priority t =? 0 then 0 else priority t),
   match due_date t with
   | Some due => (due, due_utcoffset t)
   | None => (datetime_max, None)
   end).

(** [a < b] on the key tuples: the first components that are not [==]
    decide by [<], and equal tuples are not less. *)
Definition key_ltb (a b : Z * zoned) : result bool :=
  if fst a =? fst b then
    if zoned_eqb (snd a) (snd b) then Return false
    else zoned_ltb (snd a) (snd b)
  else Return (fst a <? fst b).

(** [list.sort(key=...)] is a stable sort that compares keys with [<] only,
    and an error of a comparison ends it.  It is modelled by insertion
    from the right: an element moves past the elements with a strictly
    smaller key and stops at the first other. *)
Fixpoint insert (x : Task) (sorted : list Task) : result (list Task) :=
  match sorted with
  | [] => Return [x]
  | y :: rest =>
      let* smaller := key_ltb (sort_key y) (sort_key x) in
      if smaller then
        let* rest := insert x rest in
        Return (y :: rest)
      else Return (x :: y :: rest)
  end.

Fixpoint sort (l : list Task) : result (list Task) :=
  match l with
  | [] => Return []
  | x :: rest =>
      let* sorted := sort rest in
      insert x sorted
  end.

(** The duplicate removal before the sort: first occurrence of an id wins. *)
Fixpoint unique (seen_ids : gset (option string)) (all_tasks : list Task)
  : list Task :=
  match all_tasks with
  | [] => []
  | task :: rest =>
      if bool_decide (elem_of (id task) seen_ids) then unique seen_ids rest
      else task :: unique (union (singleton (id task)) seen_ids) rest
  end.

(** [all_tasks] of [generate_plan]: the projects are listed for the
    display, then the buckets that the configuration includes are fetched
    in turn, each with its own reading of the clock. *)
Definition all_tasks (client : TaskManager.TickTickClient)
    (now_overdue now_today now_tomorrow : datetime)
    (include_overdue include_today include_tomorrow : bool)
  : result (list Task) :=
  let* _projects := TaskManager.get_projects client in
  let all_tasks : list Task := [] in
  let* all_tasks :=
    if include_overdue then
      let* overdue_tasks :=
        TaskManager.list_tasks client now_overdue None (Some "overdue")
          None None in
      Return (all_tasks ++ overdue_tasks)%list
    else Return all_tasks in
  let* all_tasks :=
    if include_today then
      let* today_tasks :=
        TaskManager.list_tasks client now_today None (Some "today")
          None None in
      Return (all_tasks ++ today_tasks)%list
    else Return all_tasks in
  if include_tomorrow then
    let* tomorrow_tasks :=
      TaskManager.list_tasks client now_tomorrow None (Some "tomorrow")
        None None in
    Return (all_tasks ++ tomorrow_tasks)%list
  else Return all_tasks.

(** [generate_plan] up to the display: [unique_tasks] after the sort. *)
Definition generate_plan (client : TaskManager.TickTickClient)
    (now_overdue now_today now_tomorrow : datetime)
    (include_overdue include_today include_tomorrow : bool)
  : result (list Task) :=
  let* all_tasks :=
    all_tasks client now_overdue now_today now_tomorrow
      include_overdue include_today include_tomorrow in
  sort (unique empty all_tasks).

End Workflow.

(** ** [ticktask/api/auth.py] *)

Module Auth.

(** What [json.loads] can return (numbers are integers here). *)
Inductive pyval : Type :=
| PNone
| PBool (b : bool)
| PInt (z : Z)
| PStr (s : string)
| PList (l : list pyval)
| PDict (d : gmap string pyval).

(** [bool(v)] *)
Definition truthy (v : pyval) : bool :=
  match v with
  | PNone => false
  | PBool b => b
  | PInt z => negb (z =? 0)
  | PStr s => negb (String.eqb s "")
  | PList l => match l with [] => false | _ => true end
  | PDict d => negb (Nat.eqb (size d) 0)
  end.

Definition bytes : Type := list Byte.byte.

(** The libraries and the services the module calls. *)
Record Lib : Type := mk_Lib {
  fernet_encrypt : bytes -> bytes -> bytes;
  fernet_decrypt : bytes -> bytes -> result bytes;
  encode : string -> bytes;
  decode : bytes -> result string;
  json_dumps : pyval -> result string;
  json_loads : string -> result pyval;
  isoformat : datetime -> string;
  fromisoformat : string -> result datetime;
  (** the [k]-th reading of [datetime.now()] *)
  clock : nat -> datetime;
  (** the token endpoint on a refresh request: the JSON body of a 2xx
      answer, or the error [raise_for_status] or the transport raises *)
  token_endpoint : pyval -> result pyval
}.

(** The mutable world: the token file ([None] when it does not exist,
    otherwise what reading it gives), the key held by [self._fernet], the
    number of clock readings made, and the refresh requests sent. *)
Record World : Type := mk_World {
  token_file : option (result bytes);
  fernet_key : bytes;
  clock_reads : nat;
  refresh_requests : list pyval
}.

Definition M (A : Type) : Type := World -> result A * World.

Definition bindM {A B : Type} (m : M A) (k : A -> M B) : M B :=
  fun w =>
    match m w with
    | (Return a, w') => k a w'
    | (Raise e, w') => (Raise e, w')
    end.

Definition ret {A : Type} (a : A) : M A := fun w => (Return a, w).
Definition raise {A : Type} (e : exn) : M A := fun w => (Raise e, w).
Definition lift {A : Type} (r : result A) : M A := fun w => (r, w).

(** [try: body except Exception as e: handler] *)
Definition try_except_Exception {A : Type} (body : M A) (handler : exn -> M A)
  : M A :=
  fun w =>
    match body w with
    | (Raise e, w') => if is_Exception e then handler e w' else (Raise e, w')
    | r => r
    end.

End Auth.

Notation "'do*' x ':=' m 'in' k" := (Auth.bindM m (fun x => k))
  (at level 10, x name, m at level 100, k at level 200).

Module TokenStorage.
Import Auth.

(** [datetime.now()] *)
Definition now (L : Lib) : M datetime :=
  fun w =>
    (Return (clock L (clock_reads w)),
     mk_World (token_file w) (fernet_key w) (S (clock_reads w))
       (refresh_requests w)).

Definition write_token_file (content : bytes) : M unit :=
  fun w =>
    (Return tt,
     mk_World (Some (Return content)) (fernet_key w) (clock_reads w)
       (refresh_requests w)).

(** [save_tokens(tokens)].  The dictionary is updated in place, so the
    caller's [tokens] is the returned value afterwards. *)
Definition save_tokens (L : Lib) (tokens : pyval) : M pyval :=
  do* stamp := now L in
  match tokens with
  | PDict d =>
      let tokens := PDict (<["saved_at" := PStr (isoformat L stamp)]> d) in
      do* text := lift (json_dumps L tokens) in
      fun w =>
        let encrypted := fernet_encrypt L (fernet_key w) (encode L text) in
        bindM (write_token_file encrypted) (fun _ => ret tokens) w
  | _ => raise (TypeError "object does not support item assignment")
  end.

(** [load_tokens()]; Python's [None] is [PNone]. *)
Definition load_tokens (L : Lib) : M pyval :=
  fun w =>
    match token_file w with
    | None => (Return PNone, w)
    | Some content =>
        try_except_Exception
          (do* encrypted := lift content in
           do* decrypted := lift (fernet_decrypt L (fernet_key w) encrypted) in
           do* text := lift (decode L decrypted) in
           lift (json_loads L text))
          (fun e => ret PNone) w
    end.

(** [clear_tokens()] *)
Definition clear_tokens : M unit :=
  fun w =>
    (Return tt,
     mk_World None (fernet_key w) (clock_reads w) (refresh_requests w)).

End TokenStorage.

Module OAuth2Handler.
Import Auth.

(** [refresh_token(refresh_token)]: one POST to the token endpoint, then
    [save_tokens] on the answer. *)
Definition refresh_token (L : Lib) (refresh_token : pyval) : M pyval :=
  do* tokens :=
    (fun w =>
       (token_endpoint L refresh_token,
        mk_World (token_file w) (fernet_key w) (clock_reads w)
          (refresh_requests w ++ [refresh_token]))) in
  TokenStorage.save_tokens L tokens.

(** [d.get(key)] *)
Definition dict_get (d : gmap string pyval) (key : string) : pyval :=
  default PNone (d !! key).

Definition one_hour : timedelta := mk_timedelta 0 3600 0.

(** [get_access_token()] *)
Definition get_access_token (L : Lib) : M pyval :=
  do* tokens := TokenStorage.load_tokens L in
  if negb (truthy tokens) then ret PNone
  else
    match tokens with
    | PDict d =>
        do* stamp := TokenStorage.now L in
        do* saved_at :=
          match default (PStr (isoformat L stamp)) (d !! "saved_at") with
          | PStr s => lift (fromisoformat L s)
          | _ => raise (TypeError "fromisoformat: argument must be str")
          end in
        do* current := TokenStorage.now L in
        if timedelta_gtb (datetime_sub current saved_at) one_hour then
          match d !! "refresh_token" with
          | Some rt =>
              do* tokens :=
                try_except_Exception
                  (do* t := refresh_token L rt in ret (Some t))
                  (fun e => ret None) in
              match tokens with
              | None => ret PNone
              | Some (PDict d') => ret (dict_get d' "access_token")
              | Some _ => raise (AttributeError "object has no attribute get")
              end
          | None => ret PNone
          end
        else ret (dict_get d "access_token")
    | _ => raise (AttributeError "object has no attribute get")
    end.

(** *** The wait for the browser redirect *)

(** The query of a request to [/callback]. *)
Record Request : Type := mk_Request {
  q_code : option string;
  q_error : option string
}.

(** The handler object and the socket of its listener.  [_server] tells
    whether [self._server] holds a runner, [port_bound] whether the
    redirect port is held by a listener of this process. *)
Record State : Type := mk_State {
  _server : bool;
  _auth_code : option string;
  _auth_error : option string;
  port_bound : bool;
  time_reads : nat;
  sleeps : nat;
  browser_opened : nat
}.

(** The event loop as the operation sees it: [loop_time k] is the [k]-th
    reading of [loop.time()], in milliseconds; [arrivals k] are the
    requests served during the [k]-th [asyncio.sleep(0.1)]. *)
Record Loop : Type := mk_Loop {
  loop_time : nat -> Z;
  arrivals : nat -> list Request
}.

Definition nonempty (s : option string) : bool :=
  match s with
  | Some s => negb (String.eqb s "")
  | None => false
  end.

(** [_handle_callback(request)]: the new state and the HTTP status. *)
Definition _handle_callback (request : Request) (st : State) : State * Z :=
  if nonempty (q_error request) then
    (mk_State (_server st) (_auth_code st) (q_error request) (port_bound st)
       (time_reads st) (sleeps st) (browser_opened st), 400)
  else if nonempty (q_code request) then
    (mk_State (_server st) (q_code request) (_auth_error st) (port_bound st)
       (time_reads st) (sleeps st) (browser_opened st), 200)
  else (st, 400).

(** [_run_server(app, port)]: binding fails when the port is taken. *)
Definition _run_server (st : State) : result unit * State :=
  if port_bound st then
    (Raise (LibError "OSError" "address already in use"), st)
  else
    (Return tt,
     mk_State true (_auth_code st) (_auth_error st) true
       (time_reads st) (sleeps st) (browser_opened st)).

(** [self._server.cleanup()]: the listener's socket is released. *)
Definition cleanup (st : State) : State :=
  mk_State (_server st) (_auth_code st) (_auth_error st) false
    (time_reads st) (sleeps st) (browser_opened st).

Definition read_time (E : Loop) (st : State) : Z * State :=
  (loop_time E (time_reads st),
   mk_State (_server st) (_auth_code st) (_auth_error st) (port_bound st)
     (S (time_reads st)) (sleeps st) (browser_opened st)).

(** [await asyncio.sleep(0.1)]: the requests that arrive are handled. *)
Definition sleep (E : Loop) (st : State) : State :=
  let st' :=
    fold_left (fun s r => fst (_handle_callback r s))
      (arrivals E (sleeps st)) st in
  mk_State (_server st') (_auth_code st') (_auth_error st') (port_bound st')
    (time_reads st') (S (sleeps st')) (browser_opened st').

Definition open_browser (st : State) : State :=
  mk_State (_server st) (_auth_code st) (_auth_error st) (port_bound st)
    (time_reads st) (sleeps st) (S (browser_opened st)).

Definition is_None (s : option string) : bool :=
  match s with None => true | Some _ => false end.

(** The polling loop; [None] when [fuel] iterations did not end it. *)
Fixpoint wait_loop (E : Loop) (timeout start_time : Z) (fuel : nat)
    (st : State) : option (result unit * State) :=
  if is_None (_auth_code st) && is_None (_auth_error st) then
    match fuel with
    | O => None
    | S fuel' =>
        let '(t, st) := read_time E st in
        if timeout <? t - start_time then
          Some (Raise (TimeoutError "Authorization timeout"), st)
        else wait_loop E timeout start_time fuel' (sleep E st)
    end
  else Some (Return tt, st).

(** [wait_for_authorization(timeout)], [timeout] in milliseconds. *)
Definition wait_for_authorization (E : Loop) (timeout : Z) (fuel : nat)
    (st : State) : option (result (option string) * State) :=
  match _run_server st with
  | (Raise e, st) => Some (Raise e, st)
  | (Return _, st) =>
      let st := open_browser st in
      let '(start_time, st) := read_time E st in
      match wait_loop E timeout start_time fuel st with
      | None => None
      | Some (Raise e, st) => Some (Raise e, st)
      | Some (Return _, st) =>
          let st := if _server st then cleanup st else st in
          if nonempty (_auth_error st) then
            Some (Raise (Exception ("Authorization error: "
                                    ++ default "" (_auth_error st))), st)
          else Some (Return (_auth_code st), st)
      end
  end.

End OAuth2Handler.

(** ** Vocabulary of the specification *)

Module Spec.
Import Auth.

(** *** Due-date buckets *)

(** The bucket test on the number of days from today to the due date. *)
Definition bucket_test (due_filter : string) (offset : Z) : bool :=
  if String.eqb due_filter "today" then offset =? 0
  else if String.eqb due_filter "tomorrow" then offset =? 1
  else if String.eqb due_filter "week" then offset <=? 7
  else if String.eqb due_filter "overdue" then offset <? 0
  else false.

(** The tasks the specification puts in a bucket. *)
Definition in_bucket (due_filter : string) (today : date) (t : Task) : bool :=
  match due_date t with
  | None => false
  | Some due =>
      bucket_test due_filter (toordinal (dt_date due) - toordinal today)
  end.

Definition due_dates_valid (tasks : list Task) : Prop :=
  Forall
    (fun t => forall due, due_date t = Some due -> valid_date (dt_date due))
    tasks.

(** *** Date phrases *)

(** The seven weekday names, with the number [date.weekday()] gives the
    day: Monday is 0 and Sunday is 6. *)
Definition weekday_names : list (string * Z) :=
  [("monday", 0); ("tuesday", 1); ("wednesday", 2); ("thursday", 3);
   ("friday", 4); ("saturday", 5); ("sunday", 6)].

(** The days from today to the next occurrence of a weekday. *)
Definition days_ahead (target_weekday : Z) (now : datetime) : Z :=
  let days_ahead := target_weekday - weekday (dt_date now) in
  if days_ahead <=? 0 then days_ahead + 7 else days_ahead.

(** What matters of a character of an explicit date: [lower] keeps it, it
    is not white space, and it starts none of the phrases. *)
Definition plain (c : ascii) : Prop :=
  Str.lower_char c = c /\ Str.is_space c = false
  /\ Ascii.eqb c "t" = false /\ Ascii.eqb c "y" = false
  /\ Ascii.eqb c "n" = false /\ Ascii.eqb "i" c = false
  /\ Ascii.eqb "n" c = false.

Fixpoint all_plain (s : string) : Prop :=
  match s with
  | EmptyString => True
  | String c s' => plain c /\ all_plain s'
  end.

(** *** Calendar *)

(** Month and day inside a year from the 0-based day number: the last
    step of [_ord2ymd]. *)
Definition month_day (leapyear : bool) (n : Z) : Z * Z :=
  let month := Z.shiftr (n + 50) 5 in
  let preceding :=
    index _DAYS_BEFORE_MONTH month
    + (if (2 <? month) && leapyear then 1 else 0) in
  let '(month, preceding) :=
    if n <? preceding
    then (month - 1,
          preceding - (index _DAYS_IN_MONTH (month - 1)
                       + (if (month - 1 =? 2) && leapyear then 1 else 0)))
    else (month, preceding) in
  (month, n - preceding + 1).

Definition month_day_ok (leapyear : bool) (n : Z) : bool :=
  let '(m, d) := month_day leapyear n in
  (1 <=? m) && (m <=? 12) && (1 <=? d)
  && (d <=? (if (m =? 2) && leapyear then 29 else index _DAYS_IN_MONTH m))
  && (index _DAYS_BEFORE_MONTH m + (if (2 <? m) && leapyear then 1 else 0) + d
      =? n + 1).

(** *** Token age *)

(** Microseconds since the start of day 0 of the calendar. *)
Definition timestamp (t : datetime) : Z :=
  (toordinal (dt_date t) * 86400 + hour t * 3600 + minute t * 60 + second t)
  * 1000000 + microsecond t.

(** One hour, in microseconds. *)
Definition hour_us : Z := 3600000000.

(** The world after the two clock readings of [get_access_token]. *)
Definition after_two_reads (w : World) : World :=
  mk_World (token_file w) (fernet_key w) (S (S (clock_reads w)))
    (refresh_requests w).

(** *** Order of the daily plan *)

(** A task with a due date. *)
Definition dated (t : Task) : Prop := due_date t <> None.

(** The instant a task is due, in microseconds since the start of day 0
    of the calendar; in UTC when the due date is aware. *)
Definition due_instant (t : Task) : option Z :=
  match due_date t with
  | Some due => Some (timestamp due - 1000000 * default 0 (due_utcoffset t))
  | None => None
  end.

(** The due dates are well-formed values. *)
Definition due_times_valid (tasks : list Task) : Prop :=
  Forall (fun t => forall due, due_date t = Some due -> valid_datetime due)
    tasks.

(** Due dates as one source writes them: all with a UTC offset, or all
    without. *)
Definition same_awareness (tasks : list Task) : Prop :=
  Forall (fun t => due_utcoffset t <> None) tasks
  \/ Forall (fun t => due_utcoffset t = None) tasks.

(** [a] has to stand before [b]: it has the higher priority, or the same
    priority and the earlier due instant. *)
Definition precedes (a b : Task) : bool :=
  if priority a =? priority b
  then default 0 (due_instant a) <? default 0 (due_instant b)
  else priority b <? priority a.

(** *** Token file *)

(** A call that raises nothing but [Exception]s. *)
Definition only_Exception {A : Type} (r : result A) : Prop :=
  forall e, r = Raise e -> is_Exception e = true.

(** What the [try] block of [load_tokens] computes from the file. *)
Definition read_and_parse (L : Lib) (key : bytes) (content : result bytes)
  : result pyval :=
  let* encrypted := content in
  let* decrypted := fernet_decrypt L key encrypted in
  let* text := decode L decrypted in
  json_loads L text.

End Spec.
Import Spec.

(** ** Stand-ins for the collaborators

    Small executable doubles of the libraries and services, on which the
    assumptions of the theorems below are met and the model can be run. *)

Module Standin.
Import Auth OAuth2Handler.

Definition all_digits (s : string) : bool :=
  forallb Str.is_digit (list_ascii_of_string s).

Definition field (s : string) (start len : nat) : string :=
  substring start len s.

Definition sep (s : string) (pos : nat) (c : string) : bool :=
  String.eqb (substring pos 1 s) c.

(** [dateutil.parser.parse] on the explicit dates YYYY-MM-DD only. *)
Definition date_parser_parse (s : string) : result datetime :=
  if Nat.eqb (String.length s) 10 && sep s 4 "-" && sep s 7 "-"
     && all_digits (field s 0 4 ++ field s 5 2 ++ field s 8 2)
  then datetime_new (Str.int (field s 0 4)) (Str.int (field s 5 2))
         (Str.int (field s 8 2)) 0 0 0 0
  else Raise (LibError "ParserError" s).

(** [isoformat()] of a naive datetime. *)
Definition isoformat (t : datetime) : string :=
  date_isoformat (dt_date t) ++ "T" ++ pad2 (hour t) ++ ":" ++ pad2 (minute t)
  ++ ":" ++ pad2 (second t)
  ++ (if microsecond t =? 0 then "" else "." ++ pad6 (microsecond t)).

(** [fromisoformat] on the strings [isoformat] writes. *)
Definition fromisoformat (s : string) : result datetime :=
  let len := String.length s in
  if (Nat.eqb len 19 || (Nat.eqb len 26 && sep s 19 "."))
     && sep s 4 "-" && sep s 7 "-" && sep s 10 "T" && sep s 13 ":"
     && sep s 16 ":"
     && all_digits (field s 0 4 ++ field s 5 2 ++ field s 8 2 ++ field s 11 2
                    ++ field s 14 2 ++ field s 17 2 ++ field s 20 6)
  then datetime_new (Str.int (field s 0 4)) (Str.int (field s 5 2))
         (Str.int (field s 8 2)) (Str.int (field s 11 2))
         (Str.int (field s 14 2)) (Str.int (field s 17 2))
         (Str.int (field s 20 6))
  else Raise (ValueError ("Invalid isoformat string: " ++ s)).

(** A keyed cipher that only tags: a token is the key followed by the
    plain text, and decryption rejects a token with another tag. *)
Definition encrypt (key data : bytes) : bytes := List.app key data.

Fixpoint strip_tag (key token : bytes) : option bytes :=
  match key, token with
  | [], _ => Some token
  | k :: key', t :: token' =>
      if Byte.eqb k t then strip_tag key' token' else None
  | _ :: _, [] => None
  end.

Definition decrypt (key token : bytes) : result bytes :=
  match strip_tag key token with
  | Some data => Return data
  | None => Raise (LibError "InvalidToken" "")
  end.

(** A codec for flat records of strings, written [key=value;...]. *)
Fixpoint loads_from (s key cur : string) (in_value : bool)
    (acc : gmap string pyval) : result pyval :=
  match s with
  | EmptyString =>
      if in_value || negb (String.eqb cur "")
      then Raise (LibError "JSONDecodeError" "unterminated entry")
      else Return (PDict acc)
  | String c s' =>
      if Ascii.eqb c "=" && negb in_value then loads_from s' cur "" true acc
      else if Ascii.eqb c ";" then
        if in_value then loads_from s' "" "" false (<[key := PStr cur]> acc)
        else Raise (LibError "JSONDecodeError" "entry without value")
      else loads_from s' key (cur ++ String c EmptyString) in_value acc
  end.

Definition loads (s : string) : result pyval := loads_from s "" "" false empty.

Fixpoint dumps_entries (l : list (string * pyval)) : result string :=
  match l with
  | [] => Return ""
  | (k, PStr v) :: l' =>
      let* rest := dumps_entries l' in
      Return (k ++ "=" ++ v ++ ";" ++ rest)
  | _ => Raise (TypeError "value is not serializable")
  end.

Definition dumps (v : pyval) : result string :=
  match v with
  | PDict d => dumps_entries (map_to_list d)
  | _ => Raise (TypeError "record is not a dictionary")
  end.

(** A clock that reads the given instants in turn, then stays. *)
Definition clock_of (readings : list datetime) (k : nat) : datetime :=
  nth k readings (List.last readings datetime_max).

Definition lib (readings : list datetime) (endpoint : pyval -> result pyval)
  : Lib :=
  mk_Lib encrypt decrypt list_byte_of_string
    (fun b => Return (string_of_list_byte b))
    dumps loads isoformat fromisoformat (clock_of readings) endpoint.

(** The token file that holds [text] under [key]. *)
Definition stored (key : bytes) (text : string) : option (result bytes) :=
  Some (Return (encrypt key (list_byte_of_string text))).

(** A token endpoint that always answers with a new access token. *)
Definition endpoint (rt : pyval) : result pyval :=
  Return (PDict (<["access_token" := PStr "A2"]> empty)).

(** A fresh handler: no runner, nothing received, the port free. *)
Definition idle : State := mk_State false None None false 0 0 0.

(** An event loop whose clock advances 100 ms per reading and on which the
    given requests arrive during the given sleeps. *)
Definition loop_with (requests : list (nat * Request)) : Loop :=
  mk_Loop (fun k => 100 * Z.of_nat k)
    (fun k => map snd (List.filter (fun p => Nat.eqb (fst p) k) requests)).

Definition silent : Loop := loop_with [].

(** Sample instants. *)
Definition at_ (h mi s us : Z) : datetime :=
  mk_datetime (mk_date 2024 1 31) h mi s us.

Definition sample_now : datetime := at_ 10 30 5 7.

Definition sample_key : bytes := [Byte.x01].

(** A world whose token file holds a record saved at 10:00:00. *)
Definition sample_world : World :=
  mk_World
    (stored sample_key
       "access_token=A1;refresh_token=R1;saved_at=2024-01-31T10:00:00;")
    sample_key 0 [].

Definition sample_record : gmap string pyval :=
  list_to_map
    [("access_token", PStr "A1"); ("refresh_token", PStr "R1");
     ("saved_at", PStr "2024-01-31T10:00:00")].

(** A world whose record carries no [saved_at]. *)
Definition undated_world : World :=
  mk_World (stored sample_key "access_token=A1;refresh_token=R1;")
    sample_key 0 [].

Definition undated_record : gmap string pyval :=
  list_to_map [("access_token", PStr "A1"); ("refresh_token", PStr "R1")].

(** Sample tasks; a due date is aware, with offset 0, as the API gives
    it. *)
Definition task (name : string) (p : Z) (due : option datetime) : Task :=
  mk_Task (Some name) "inbox" name due
    (match due with Some _ => Some 0 | None => None end) p
    TaskStatus.NORMAL.

Definition on_day (d : Z) : option datetime :=
  Some (mk_datetime (mk_date 2024 1 d) 9 0 0 0).

Definition sample_tasks : list Task :=
  [task "yesterday" 1 (on_day 30); task "today" 5 (on_day 31);
   task "undated" 3 None;
   task "tomorrow" 0 (Some (mk_datetime (mk_date 2024 2 1) 9 0 0 0));
   task "in a week" 1 (Some (mk_datetime (mk_date 2024 2 7) 9 0 0 0));
   task "later" 1 (Some (mk_datetime (mk_date 2024 2 8) 9 0 0 0))].

(** The tasks A, B and C of the specification, and an undated task of
    the top priority. *)
Definition plan_tasks : list Task :=
  [task "C" 1 (on_day 31);
   task "A" 5 (Some (mk_datetime (mk_date 2024 2 1) 9 0 0 0));
   task "U" 5 None;
   task "B" 5 (on_day 31)].

(** An account whose only project holds them. *)
Definition plan_client : TaskManager.TickTickClient :=
  TaskManager.mk_client
    (Return [mk_Project (Some "p1") "Inbox" false])
    (fun _ => Return (mk_ProjectData (mk_Project (Some "p1") "Inbox" false)
                        plan_tasks)).

Definition sample_client : TaskManager.TickTickClient :=
  TaskManager.mk_client
    (Return [mk_Project (Some "p1") "Inbox" false])
    (fun _ => Return (mk_ProjectData (mk_Project (Some "p1") "Inbox" false)
                        sample_tasks)).

End Standin.

(** ** Statements of the specification that fail on the code *)

Module AsStated.
Import Auth.

(** The token threshold with both bounds inclusive: a record of age at most
    one hour is served from the cache without a refresh request, and a
    record of age at least one hour triggers one. *)
Definition token_threshold : Prop :=
  forall (L : Lib) (w : World) (d : gmap string pyval) (s : string)
         (saved_at : datetime) (rt : pyval),
    fst (TokenStorage.load_tokens L w) = Return (PDict d) ->
    d !! "saved_at" = Some (PStr s) ->
    fromisoformat L s = Return saved_at ->
    d !! "refresh_token" = Some rt ->
    let age := timestamp (clock L (S (clock_reads w))) - timestamp saved_at in
    (age <= hour_us ->
       exists w',
         OAuth2Handler.get_access_token L w
           = (Return (OAuth2Handler.dict_get d "access_token"), w')
         /\ refresh_requests w' = refresh_requests w)
    /\ (hour_us <= age ->
        exists r w',
          OAuth2Handler.get_access_token L w = (r, w')
          /\ refresh_requests w' = (refresh_requests w ++ [rt])%list).

(** "in 3 days" and the explicit date three days ahead parse to exactly
    the same value. *)
Definition relative_is_explicit : Prop :=
  forall (P : string -> result datetime) (now : datetime),
    valid_datetime now ->
    toordinal (dt_date now) + 3 <= _MAXORDINAL ->
    let target := fromordinal (toordinal (dt_date now) + 3) in
    P (date_isoformat target) = Return (mk_datetime target 0 0 0 0) ->
    TaskManager._parse_date P now "in 3 days"
    = TaskManager._parse_date P now (date_isoformat target).

End AsStated.

(** ** [ticktask/api/auth.py]: key file, code exchange, login *)

Module TokenStorageInit.
Import Auth.

(** [_get_or_create_key()], up to [Fernet(key)]: the key in use and the
    key file afterwards.  [generate_key] is what [Fernet.generate_key()]
    would return. *)
Definition _get_or_create_key (generate_key : bytes)
    (key_file : option bytes) : bytes * option bytes :=
  match key_file with
  | Some key => (key, key_file)
  | None => (generate_key, Some generate_key)
  end.

(** [TokenStorage.__init__]: the instance holds the key of the key file;
    [fernet_new] is the check [Fernet(key)] makes of the key. *)
Definition init (fernet_new : bytes -> result unit) (generate_key : bytes)
    (key_file : option bytes) (w : World) : result World * option bytes :=
  let '(key, key_file) := _get_or_create_key generate_key key_file in
  match fernet_new key with
  | Return _ =>
      (Return (mk_World (token_file w) key (clock_reads w)
                 (refresh_requests w)), key_file)
  | Raise e => (Raise e, key_file)
  end.

End TokenStorageInit.

Module OAuth2Login.
Import Auth OAuth2Handler.

(** The handler, the token store and the codes posted to the token
    endpoint for exchange. *)
Record Session : Type := mk_Session {
  handler : State;
  store : World;
  exchanges : list (option string)
}.

(** [exchange_code_for_token(code)]: one POST, then [save_tokens] on the
    answer; [endpoint] is the token endpoint on an exchange request. *)
Definition exchange_code_for_token (L : Lib)
    (endpoint : option string -> result pyval) (code : option string)
    (s : Session) : result pyval * Session :=
  let posted := (exchanges s ++ [code])%list in
  match endpoint code with
  | Raise e => (Raise e, mk_Session (handler s) (store s) posted)
  | Return tokens =>
      let '(r, w) := TokenStorage.save_tokens L tokens (store s) in
      (r, mk_Session (handler s) w posted)
  end.

(** [tokens["access_token"]] *)
Definition subscript_access_token (tokens : pyval) : result pyval :=
  match tokens with
  | PDict d =>
      match d !! "access_token" with
      | Some a => Return a
      | None => Raise (KeyError "access_token")
      end
  | _ => Raise (TypeError "indices must be integers")
  end.

(** [login()]: the wait with its default timeout of 300 s, the exchange,
    and the access token of the answer. *)
Definition login (E : Loop) (fuel : nat) (L : Lib)
    (endpoint : option string -> result pyval) (s : Session)
  : option (result pyval * Session) :=
  match wait_for_authorization E 300000 fuel (handler s) with
  | None => None
  | Some (Raise e, st) =>
      Some (Raise e, mk_Session st (store s) (exchanges s))
  | Some (Return code, st) =>
      let '(r, s') :=
        exchange_code_for_token L endpoint code
          (mk_Session st (store s) (exchanges s)) in
      match r with
      | Raise e => Some (Raise e, s')
      | Return tokens => Some (subscript_access_token tokens, s')
      end
  end.

(** [logout()] *)
Definition logout (s : Session) : Session :=
  mk_Session (handler s) (snd (TokenStorage.clear_tokens (store s)))
    (exchanges s).

(** [TickTickClient.connect()], up to the creation of the HTTP client:
    the access token the client ends with.  [access_token] is
    [self.access_token], [has_handler] tells whether [self.auth_handler]
    is set. *)
Definition connect (E : Loop) (fuel : nat) (L : Lib)
    (endpoint : option string -> result pyval) (access_token : pyval)
    (has_handler : bool) (s : Session) : option (result pyval * Session) :=
  let finish (access_token : pyval) (s : Session) :=
    if negb (truthy access_token)
    then Some (Raise (ValueError "No access token available"), s)
    else Some (Return access_token, s) in
  if negb (truthy access_token) && has_handler then
    match get_access_token L (store s) with
    | (Raise e, w) => Some (Raise e, mk_Session (handler s) w (exchanges s))
    | (Return token, w) =>
        let s := mk_Session (handler s) w (exchanges s) in
        if negb (truthy token) then
          match login E fuel L endpoint s with
          | None => None
          | Some (Raise e, s) => Some (Raise e, s)
          | Some (Return token, s) => finish token s
          end
        else finish token s
    end
  else finish access_token s.

End OAuth2Login.

(** ** [ticktask/api/client.py]: the task payloads *)

Module Client.

(** [ChecklistItem] of [models.py]. *)
Record ChecklistItem : Type := mk_ChecklistItem {
  c_id : option string;
  c_title : string;
  c_status : Z;
  c_completed_time : option datetime;
  c_is_all_day : bool;
  c_sort_order : Z;
  c_start_date : option datetime;
  c_time_zone : string
}.

(** The Python values that travel as keyword arguments and in payloads. *)
Inductive pyobj : Type :=
| ONone
| OBool (b : bool)
| OInt (z : Z)
| OStr (s : string)
| ODatetime (t : datetime)
| OList (l : list pyobj)
| ODict (d : gmap string pyobj)
| OChecklistItem (c : ChecklistItem).

(** [date.strftime("%Y-%m-%dT%H:%M:%S+0000")], for the years from 1000 on
    (before, the width of [%Y] depends on the platform). *)
Definition strftime (t : datetime) : string :=
  date_isoformat (dt_date t) ++ "T" ++ pad2 (hour t) ++ ":"
  ++ pad2 (minute t) ++ ":" ++ pad2 (second t) ++ "+0000".

(** A date argument: a [datetime] is formatted, anything else goes as it
    is. *)
Definition date_value (date : pyobj) : pyobj :=
  match date with
  | ODatetime t => OStr (strftime t)
  | _ => date
  end.

Definition option_to_obj {A : Type} (f : A -> pyobj) (o : option A) : pyobj :=
  match o with
  | Some a => f a
  | None => ONone
  end.

(** [item.model_dump(by_alias=True, exclude_none=True)] *)
Definition model_dump (c : ChecklistItem) : gmap string pyobj :=
  let d : gmap string pyobj :=
    list_to_map
      [("title", OStr (c_title c)); ("status", OInt (c_status c));
       ("isAllDay", OBool (c_is_all_day c));
       ("sortOrder", OInt (c_sort_order c));
       ("timeZone", OStr (c_time_zone c))] in
  let d := match c_id c with Some i => <["id" := OStr i]> d | None => d end in
  let d :=
    match c_completed_time c with
    | Some t => <["completedTime" := ODatetime t]> d
    | None => d
    end in
  match c_start_date c with
  | Some t => <["startDate" := ODatetime t]> d
  | None => d
  end.

(** The loop over [kwargs["items"]]: dictionaries go as they are,
    checklist items are dumped, anything else is left out. *)
Fixpoint collect_items (l : list pyobj) : list pyobj :=
  match l with
  | [] => []
  | ODict d :: rest => ODict d :: collect_items rest
  | OChecklistItem c :: rest => ODict (model_dump c) :: collect_items rest
  | _ :: rest => collect_items rest
  end.

(** [items] from [kwargs["items"]]: what iterating the value gives.  The
    elements of a string, of a dictionary and of a model are neither
    dictionaries nor checklist items. *)
Definition items_value (v : pyobj) : result pyobj :=
  match v with
  | OList l => Return (OList (collect_items l))
  | OStr _ | ODict _ | OChecklistItem _ => Return (OList [])
  | _ => Raise (TypeError "object is not iterable")
  end.

(** [if key in kwargs: data[name] = f(kwargs[key])] *)
Definition copy_field (kwargs : gmap string pyobj) (key name : string)
    (f : pyobj -> pyobj) (data : gmap string pyobj) : gmap string pyobj :=
  match kwargs !! key with
  | Some v => <[name := f v]> data
  | None => data
  end.

(** The optional fields of [create_task] after [content] and [desc], which
    [update_task] handles in the same way. *)
Definition optional_fields (kwargs : gmap string pyobj)
    (data : gmap string pyobj) : result (gmap string pyobj) :=
  let data := copy_field kwargs "content" "content" Datatypes.id data in
  let data := copy_field kwargs "desc" "desc" Datatypes.id data in
  let data := copy_field kwargs "is_all_day" "isAllDay" Datatypes.id data in
  let data := copy_field kwargs "start_date" "startDate" date_value data in
  let data := copy_field kwargs "due_date" "dueDate" date_value data in
  let data := copy_field kwargs "time_zone" "timeZone" Datatypes.id data in
  let data := copy_field kwargs "reminders" "reminders" Datatypes.id data in
  let data := copy_field kwargs "repeat_flag" "repeatFlag" Datatypes.id data in
  let data := copy_field kwargs "priority" "priority" Datatypes.id data in
  let data := copy_field kwargs "sort_order" "sortOrder" Datatypes.id data in
  match kwargs !! "items" with
  | Some v =>
      let* items := items_value v in
      Return (<["items" := items]> data)
  | None => Return data
  end.

(** The dictionary [data] that [create_task(title, project_id, **kwargs)]
    posts to [task]. *)
Definition create_task_data (title : string) (project_id : pyobj)
    (kwargs : gmap string pyobj) : result (gmap string pyobj) :=
  let data : gmap string pyobj :=
    <["projectId" := project_id]> (<["title" := OStr title]> empty) in
  optional_fields kwargs data.

(** The dictionary [data] that [update_task(task_id, project_id, **kwargs)]
    posts to [task/<task_id>]. *)
Definition update_task_data (task_id : string) (project_id : pyobj)
    (kwargs : gmap string pyobj) : result (gmap string pyobj) :=
  let data : gmap string pyobj :=
    <["projectId" := project_id]> (<["id" := OStr task_id]> empty) in
  let data := copy_field kwargs "title" "title" Datatypes.id data in
  optional_fields kwargs data.

(** The requests of a client that concern tasks: [post(endpoint, data)]
    followed by the reading of the answer. *)
Record TaskClient : Type := mk_TaskClient {
  projects_api : TaskManager.TickTickClient;
  post : string -> gmap string pyobj -> result Task
}.

Definition create_task (client : TaskClient) (title : string)
    (project_id : pyobj) (kwargs : gmap string pyobj) : result Task :=
  let* data := create_task_data title project_id kwargs in
  post client "task" data.

Definition update_task (client : TaskClient) (task_id : string)
    (project_id : pyobj) (kwargs : gmap string pyobj) : result Task :=
  let* data := update_task_data task_id project_id kwargs in
  post client ("task/" ++ task_id) data.

End Client.

(** ** [ticktask/api/tasks.py]: creating, updating and completing tasks *)

Module TaskOps.
Import Client.

(** [_parse_reminder(reminder_str)] *)
Definition _parse_reminder (reminder_str : string) : string :=
  if String.eqb reminder_str "9:00" || String.eqb reminder_str "9am" then
    "TRIGGER:P0DT9H0M0S"
  else if String.eqb reminder_str "0" || String.eqb reminder_str "now" then
    "TRIGGER:PT0S"
  else "TRIGGER:P0DT9H0M0S".

(** The default project of [create_task]: the first project named Inbox in
    any letter case, else the first project. *)
Definition default_project (projects : list Project) : result pyobj :=
  match
    List.find (fun p => String.eqb (Str.lower (name p)) "inbox") projects
  with
  | Some inbox => Return (option_to_obj OStr (p_id inbox))
  | None =>
      match projects with
      | p :: _ => Return (option_to_obj OStr (p_id p))
      | [] => Raise (ValueError "No projects found")
      end
  end.

(** The dictionary [task_data] that [create_task] builds, with the
    keyword arguments merged in.  [projects] is the answer of
    [client.get_projects()], which is asked for only when no project is
    given. *)
Definition task_data (date_parser_parse : string -> result datetime)
    (now : datetime) (projects : result (list Project))
    (project_id due : option string) (priority_ : option Z)
    (content : option string) (subtasks : option (list string))
    (reminder : option string) (kwargs : gmap string pyobj)
  : result (gmap string pyobj) :=
  let* project_id :=
    if TaskManager.truthy_str project_id
    then Return (option_to_obj OStr project_id)
    else
      let* projects := projects in
      default_project projects in
  let* due_date :=
    if TaskManager.truthy_str due then
      let* t :=
        TaskManager._parse_date date_parser_parse now (default "" due) in
      Return (Some t)
    else Return None in
  let data : gmap string pyobj :=
    <["priority" :=
        OInt (match priority_ with
              | Some p => if p =? 0 then TaskPriority.NONE else p
              | None => TaskPriority.NONE
              end)]>
      (<["project_id" := project_id]> empty) in
  let data :=
    if TaskManager.truthy_str content
    then <["content" := OStr (default "" content)]> data else data in
  let data :=
    match due_date with
    | Some t => <["due_date" := ODatetime t]> data
    | None => data
    end in
  let data :=
    match subtasks with
    | Some (s :: l) =>
        <["items" :=
            OList (map (fun s => ODict (<["title" := OStr s]> empty))
                     (s :: l))]> data
    | _ => data
    end in
  let data :=
    if TaskManager.truthy_str reminder
    then <["reminders" :=
             OList [OStr (_parse_reminder (default "" reminder))]]> data
    else data in
  Return (union kwargs data).

(** [TaskManager.create_task]: [client.create_task(title, **task_data)],
    where [task_data["project_id"]] is the project argument. *)
Definition create_task (client : TaskClient)
    (date_parser_parse : string -> result datetime) (now : datetime)
    (title : string) (project_id due : option string) (priority_ : option Z)
    (content : option string) (subtasks : option (list string))
    (reminder : option string) (kwargs : gmap string pyobj) : result Task :=
  let* data :=
    task_data date_parser_parse now
      (TaskManager.get_projects (projects_api client))
      project_id due priority_ content subtasks reminder kwargs in
  Client.create_task client title (default ONone (data !! "project_id"))
    (delete "project_id" data).

(** [TaskManager.update_task]: a [due] argument is parsed into
    [due_date]. *)
Definition update_task (client : TaskClient)
    (date_parser_parse : string -> result datetime) (now : datetime)
    (task_id : string) (project_id : pyobj) (kwargs : gmap string pyobj)
  : result Task :=
  let* kwargs :=
    match kwargs !! "due" with
    | Some (OStr due) =>
        let* t := TaskManager._parse_date date_parser_parse now due in
        Return (<["due_date" := ODatetime t]> (delete "due" kwargs))
    | Some _ => Raise (AttributeError "object has no attribute lower")
    | None => Return kwargs
    end in
  Client.update_task client task_id project_id kwargs.

(** The server as the completion requests see it: the requests made so
    far, as (project, task) pairs. *)
Definition Calls : Type := list (string * string).

(** [complete_task(task_id, project_id)]: one POST to
    [project/<project_id>/task/<task_id>/complete]; [respond] is the
    answer of the server, which may depend on the earlier requests. *)
Definition complete_task (respond : Calls -> string -> string -> result unit)
    (task_id project_id : string) (calls : Calls) : result unit * Calls :=
  (respond calls project_id task_id, (calls ++ [(project_id, task_id)])%list).

(** [batch_complete(task_ids)]: the count of the completions that did
    not fail. *)
Fixpoint batch_complete_from
    (respond : Calls -> string -> string -> result unit)
    (task_ids : list (string * string)) (completed : Z) (calls : Calls)
  : result Z * Calls :=
  match task_ids with
  | [] => (Return completed, calls)
  | (project_id, task_id) :: rest =>
      match complete_task respond task_id project_id calls with
      | (Return _, calls) =>
          batch_complete_from respond rest (completed + 1) calls
      | (Raise e, calls) =>
          if is_Exception e
          then batch_complete_from respond rest completed calls
          else (Raise e, calls)
      end
  end.

Definition batch_complete
    (respond : Calls -> string -> string -> result unit)
    (task_ids : list (string * string)) (calls : Calls)
  : result Z * Calls :=
  batch_complete_from respond task_ids 0 calls.

End TaskOps.

(** ** [ticktask/integrations/obsidian.py]: the groups of the daily log *)

Module Obsidian.

(** The loop of [export_daily_log] that sorts the pending tasks into the
    overdue, today and future groups. *)
Fixpoint group_pending (today : date) (pending_tasks : list Task)
    (overdue_tasks today_tasks future_tasks : list Task)
  : list Task * list Task * list Task :=
  match pending_tasks with
  | [] => (overdue_tasks, today_tasks, future_tasks)
  | task :: rest =>
      match due_date task with
      | Some due =>
          if date_ltb (dt_date due) today then
            group_pending today rest (overdue_tasks ++ [task])%list
              today_tasks future_tasks
          else if date_eqb (dt_date due) today then
            group_pending today rest overdue_tasks
              (today_tasks ++ [task])%list future_tasks
          else
            group_pending today rest overdue_tasks today_tasks
              (future_tasks ++ [task])%list
      | None =>
          group_pending today rest overdue_tasks today_tasks future_tasks
      end
  end.

(** The four groups of [export_daily_log]: completed, overdue, today and
    future. *)
Definition groups (now : datetime) (tasks : list Task)
  : list Task * list Task * list Task * list Task :=
  let completed_tasks :=
    List.filter (fun t => status t =? TaskStatus.COMPLETED) tasks in
  let pending_tasks :=
    List.filter (fun t => status t =? TaskStatus.NORMAL) tasks in
  let '(overdue_tasks, today_tasks, future_tasks) :=
    group_pending (dt_date now) pending_tasks [] [] [] in
  (completed_tasks, overdue_tasks, today_tasks, future_tasks).

End Obsidian.

(** ** Vocabulary of the further properties *)

Module Props.
Import Auth OAuth2Handler.

(** A string of decimal digits. *)
Fixpoint digits (s : string) : bool :=
  match s with
  | EmptyString => true
  | String c s' => Str.is_digit c && digits s'
  end.

(** A normalized phrase that no rule of [_parse_date] matches, so that it
    goes to the date library. *)
Definition unmatched (s : string) : Prop :=
  String.eqb s "today" = false /\ String.eqb s "tomorrow" = false
  /\ String.eqb s "yesterday" = false /\ String.eqb s "next week" = false
  /\ String.eqb s "next month" = false
  /\ Str.in_pattern s = None /\ Str.weekday_pattern s = None.

(** The end of the day [k] days from the date of [now], with the
    microsecond of [now]. *)
Definition end_of_day_after (now : datetime) (k : Z) : datetime :=
  mk_datetime (fromordinal (toordinal (dt_date now) + k)) 23 59 59
    (microsecond now).

(** The record [save_tokens] writes in world [w]: [saved_at] is set to
    the reading of the clock, over any value it had. *)
Definition stamped (L : Lib) (w : World) (d : gmap string pyval)
  : gmap string pyval :=
  <["saved_at" := PStr (isoformat L (clock L (clock_reads w)))]> d.

(** The libraries give [text] back under [key]: decryption inverts
    encryption and decoding inverts encoding. *)
Definition restores (L : Lib) (key : bytes) (text : string) : Prop :=
  fernet_decrypt L key (fernet_encrypt L key (encode L text))
    = Return (encode L text)
  /\ decode L (encode L text) = Return text.

(** The token file that holds [text] under the key of [w]. *)
Definition file_of (L : Lib) (w : World) (text : string)
  : option (result bytes) :=
  Some (Return (fernet_encrypt L (fernet_key w) (encode L text))).

(** A handler that has received nothing and holds no port. *)
Definition nothing_received (st : State) : Prop :=
  _auth_code st = None /\ _auth_error st = None /\ port_bound st = false.

(** A redirect served during one of the sleeps [lo], ..., [hi - 1]. *)
Definition redirect (E : Loop) (lo hi : nat) (q : Request) : Prop :=
  exists k : nat, (lo <= k < hi)%nat /\ In q (arrivals E k).

(** What the handler holds came with a redirect: a code with a request
    that carried no error, an error with a request. *)
Definition from_redirects (E : Loop) (lo hi : nat) (st : State) : Prop :=
  match _auth_code st with
  | Some code =>
      code <> ""
      /\ exists q, redirect E lo hi q /\ q_code q = Some code
                   /\ nonempty (q_error q) = false
  | None => True
  end
  /\ match _auth_error st with
     | Some e => e <> "" /\ exists q, redirect E lo hi q /\ q_error q = Some e
     | None => True
     end.

(** The keys a task payload may hold. *)
Definition payload_keys : list string :=
  ["id"; "title"; "projectId"; "content"; "desc"; "isAllDay"; "startDate";
   "dueDate"; "timeZone"; "reminders"; "repeatFlag"; "priority";
   "sortOrder"; "items"].

(** The keys of a payload that come from optional keyword arguments. *)
Definition optional_keys : list string :=
  ["content"; "desc"; "isAllDay"; "startDate"; "dueDate"; "timeZone";
   "reminders"; "repeatFlag"; "priority"; "sortOrder"; "items"].

(** The keyword arguments that [TickTickClient.create_task] and
    [update_task] read, and the names of their own parameters. *)
Definition read_kwargs : list string :=
  ["title"; "content"; "desc"; "is_all_day"; "start_date"; "due_date";
   "time_zone"; "reminders"; "repeat_flag"; "priority"; "sort_order";
   "items"; "self"; "project_id"; "task_id"].

(** Keyword arguments that can reach [**kwargs] of
    [TaskManager.create_task]: none bears the name of a parameter. *)
Definition extra_kwargs (kwargs : gmap string Client.pyobj) : Prop :=
  Forall (fun k => kwargs !! k = None)
    ["self"; "title"; "project_id"; "due"; "priority"; "content";
     "subtasks"; "reminder"].

(** Two instants that agree to the second. *)
Definition same_second (t1 t2 : datetime) : Prop :=
  dt_date t1 = dt_date t2 /\ hour t1 = hour t2 /\ minute t1 = minute t2
  /\ second t1 = second t2.

(** A project named Inbox in any letter case. *)
Definition is_inbox (p : Project) : bool :=
  String.eqb (Str.lower (name p)) "inbox".

(** Did the completion request succeed? *)
Definition completes (answer : string -> string -> result unit)
    (ids : string * string) : bool :=
  match answer (fst ids) (snd ids) with
  | Return _ => true
  | Raise _ => false
  end.

(** The day offset of a dated task from today. *)
Definition due_offset (today : date) (t : Task) : option Z :=
  match due_date t with
  | Some due => Some (toordinal (dt_date due) - toordinal today)
  | None => None
  end.

(** A dated task whose day offset passes [test]. *)
Definition due_in (test : Z -> bool) (today : date) (t : Task) : bool :=
  match due_offset today t with
  | Some offset => test offset
  | None => false
  end.

(** A pending task whose day offset passes [test]. *)
Definition in_group (test : Z -> bool) (today : date) (t : Task) : bool :=
  (status t =? TaskStatus.NORMAL) && due_in test today t.

(** The tasks of the daily log that no group receives: pending tasks
    without a due date, and tasks that are neither pending nor
    completed. *)
Definition ungrouped (t : Task) : bool :=
  negb (status t =? TaskStatus.COMPLETED)
  && (negb (status t =? TaskStatus.NORMAL)
      || match due_date t with None => true | Some _ => false end).

End Props.

(** ** Sample data for the further properties *)

Module Sample.
Import Auth Client TaskOps.

(** A server that answers every post with a task of the posted title. *)
Definition task_client : TaskClient :=
  mk_TaskClient Standin.sample_client
    (fun endpoint data =>
       Return (mk_Task (Some "t1") "p1"
                 (match data !! "title" with
                  | Some (OStr s) => s
                  | _ => ""
                  end)
                 None None 0 TaskStatus.NORMAL)).

(** An account with one open project and two closed ones, whose data the
    server refuses. *)
Definition projects : list Project :=
  [mk_Project (Some "w") "Work" false; mk_Project (Some "o") "Old" true;
   mk_Project (Some "i") "INBOX" true].

Definition account : TaskManager.TickTickClient :=
  TaskManager.mk_client (Return projects)
    (fun project_id =>
       match project_id with
       | Some "w" =>
           Return (mk_ProjectData (mk_Project (Some "w") "Work" false)
                     Standin.sample_tasks)
       | _ => Raise (LibError "HTTPStatusError" "500")
       end).

(** A server that completes every task but the one called "gone". *)
Definition answer (project_id task_id : string) : result unit :=
  if String.eqb task_id "gone"
  then Raise (LibError "HTTPStatusError" "404")
  else Return tt.

Definition session : OAuth2Login.Session :=
  OAuth2Login.mk_Session Standin.idle
    (mk_World None Standin.sample_key 0 []) [].

End Sample.

(** ** Tactics *)

(** Evaluate the look-ups in the month tables at known months. *)
Ltac eval_index :=
  repeat match goal with
         | |- context [index ?t ?m] =>
             let v := eval vm_compute in (index t m) in
             change (index t m) with v
         end.

(** One goal per month of the year. *)
Ltac month_cases m :=
  let H := fresh "H" in
  assert (H : m = 1 \/ m = 2 \/ m = 3 \/ m = 4 \/ m = 5 \/ m = 6 \/ m = 7
              \/ m = 8 \/ m = 9 \/ m = 10 \/ m = 11 \/ m = 12) by lia;
  repeat destruct H as [H|H]; subst m.

(** * Facts *)

Import Auth.

(** ** The calendar *)

Section CalendarFacts.

Lemma forallb_range (p : Z -> bool) (k : nat) :
  forallb (fun i => p (Z.of_nat i)) (seq 0 k) = true ->
  forall n, 0 <= n < Z.of_nat k -> p n = true.
Proof.
  intros H n Hn.
  rewrite forallb_forall in H.
  specialize (H (Z.to_nat n)).
  rewrite Z2Nat.id in H by lia.
  apply H, in_seq. lia.
Qed.

Lemma month_day_ok_all (leapyear : bool) (n : Z) :
  0 <= n < (if leapyear then 366 else 365) -> month_day_ok leapyear n = true.
Proof.
  destruct leapyear; intros Hn.
  - apply (forallb_range (month_day_ok true) 366); [vm_compute; reflexivity | lia].
  - apply (forallb_range (month_day_ok false) 365); [vm_compute; reflexivity | lia].
Qed.

Lemma _ord2ymd_unfold (n : Z) :
  _ord2ymd n =
  let n0 := n - 1 in
  let n400 := n0 / 146097 in
  let r400 := n0 mod 146097 in
  let n100 := r400 / 36524 in
  let r100 := r400 mod 36524 in
  let n4 := r100 / 1461 in
  let r4 := r100 mod 1461 in
  let n1 := r4 / 365 in
  let r1 := r4 mod 365 in
  let year := n400 * 400 + 1 + n100 * 100 + n4 * 4 + n1 in
  if (n1 =? 4) || (n100 =? 4) then (year - 1, 12, 31)
  else
    let leapyear := (n1 =? 3) && (negb (n4 =? 24) || (n100 =? 3)) in
    let '(m, d) := month_day leapyear r1 in (year, m, d).
Proof.
  unfold _ord2ymd, month_day, _DI400Y, _DI100Y, _DI4Y. cbv zeta.
  destruct (_ || _); [reflexivity|].
  destruct (_ <? _); reflexivity.
Qed.

Lemma _is_leap_decomposed (n400 n100 n4 n1 : Z) :
  0 <= n400 -> 0 <= n100 < 4 -> 0 <= n4 <= 24 -> 0 <= n1 < 4 ->
  _is_leap (n400 * 400 + 1 + n100 * 100 + n4 * 4 + n1)
  = (n1 =? 3) && (negb (n4 =? 24) || (n100 =? 3)).
Proof.
  intros. unfold _is_leap.
  repeat match goal with
         | |- context [?a =? ?b] => destruct (Z.eqb_spec a b)
         end; cbn; try reflexivity; exfalso;
    Z.div_mod_to_equations; lia.
Qed.

Lemma _days_before_year_decomposed (n400 n100 n4 n1 : Z) :
  0 <= n400 -> 0 <= n100 < 4 -> 0 <= n4 <= 24 -> 0 <= n1 < 4 ->
  _days_before_year (n400 * 400 + 1 + n100 * 100 + n4 * 4 + n1)
  = n400 * 146097 + n100 * 36524 + n4 * 1461 + n1 * 365.
Proof.
  intros. unfold _days_before_year. cbv zeta.
  Z.div_mod_to_equations. lia.
Qed.

Lemma _days_in_month_dec31 (y : Z) : _days_in_month y 12 = 31.
Proof. reflexivity. Qed.

Lemma _ord2ymd_spec (n : Z) :
  1 <= n <= _MAXORDINAL ->
  let '(y, m, d) := _ord2ymd n in
  (MINYEAR <= y <= MAXYEAR /\ 1 <= m <= 12 /\ 1 <= d <= _days_in_month y m)
  /\ _ymd2ord y m d = n.
Proof.
  unfold _MAXORDINAL, MINYEAR, MAXYEAR. intros Hn.
  rewrite _ord2ymd_unfold. cbv zeta.
  pose proof (Z.div_mod (n - 1) 146097 ltac:(lia)) as E400.
  pose proof (Z.mod_pos_bound (n - 1) 146097 ltac:(lia)) as B400.
  set (n400 := (n - 1) / 146097) in *.
  set (r400 := (n - 1) mod 146097) in *.
  pose proof (Z.div_mod r400 36524 ltac:(lia)) as E100.
  pose proof (Z.mod_pos_bound r400 36524 ltac:(lia)) as B100.
  set (n100 := r400 / 36524) in *.
  set (r100 := r400 mod 36524) in *.
  pose proof (Z.div_mod r100 1461 ltac:(lia)) as E4.
  pose proof (Z.mod_pos_bound r100 1461 ltac:(lia)) as B4.
  set (n4 := r100 / 1461) in *.
  set (r4 := r100 mod 1461) in *.
  pose proof (Z.div_mod r4 365 ltac:(lia)) as E1.
  pose proof (Z.mod_pos_bound r4 365 ltac:(lia)) as B1.
  set (n1 := r4 / 365) in *.
  set (r1 := r4 mod 365) in *.
  clearbody n400 r400 n100 r100 n4 r4 n1 r1.
  assert (0 <= n400 <= 24) by lia.
  assert (0 <= n100 <= 4) by lia.
  assert (0 <= n4 <= 24) by lia.
  assert (0 <= n1 <= 4) by lia.
  destruct (Z.eqb_spec n1 4) as [Hn1|Hn1]; cbn [orb].
  - (* the last day of a leap year that ends a 4-year cycle *)
    replace (n400 * 400 + 1 + n100 * 100 + n4 * 4 + n1 - 1)
      with (n400 * 400 + 1 + n100 * 100 + n4 * 4 + 3) by lia.
    assert (n100 < 4) by lia.
    unfold _ymd2ord, _days_before_month.
    change (index _DAYS_BEFORE_MONTH 12) with 334.
    change (2 <? 12) with true.
    rewrite _days_in_month_dec31, _days_before_year_decomposed by lia.
    rewrite _is_leap_decomposed by lia.
    assert (n4 <> 24) by lia.
    destruct (Z.eqb_spec n4 24); [lia|]. cbn. lia.
  - destruct (Z.eqb_spec n100 4) as [Hn100|Hn100]; cbn [orb].
    + replace (n400 * 400 + 1 + n100 * 100 + n4 * 4 + n1 - 1)
        with (n400 * 400 + 1 + 3 * 100 + 24 * 4 + 3) by lia.
      unfold _ymd2ord, _days_before_month.
      change (index _DAYS_BEFORE_MONTH 12) with 334.
      change (2 <? 12) with true.
      rewrite _days_in_month_dec31, _days_before_year_decomposed by lia.
      rewrite _is_leap_decomposed by lia. cbn. lia.
    + set (leapyear := (n1 =? 3) && (negb (n4 =? 24) || (n100 =? 3))).
      pose proof (month_day_ok_all leapyear r1) as Hmd.
      unfold month_day_ok in Hmd.
      destruct (month_day leapyear r1) as [m d].
      assert (Hr : 0 <= r1 < (if leapyear then 366 else 365))
        by (destruct leapyear; lia).
      specialize (Hmd Hr).
      rewrite !andb_true_iff in Hmd.
      destruct Hmd as [[[[Hm1 Hm2] Hd1] Hd2] Hsum].
      unfold _ymd2ord, _days_before_month, _days_in_month.
      rewrite _days_before_year_decomposed by lia.
      rewrite _is_leap_decomposed by lia.
      fold leapyear. lia.
Qed.

End CalendarFacts.

(** ** Dates and times *)

Lemma fromordinal_valid (n : Z) :
  1 <= n <= _MAXORDINAL -> valid_date (fromordinal n).
Proof.
  intros Hn. pose proof (_ord2ymd_spec n Hn) as H.
  unfold fromordinal. destruct (_ord2ymd n) as [[y m] d]. apply H.
Qed.

Lemma toordinal_fromordinal (n : Z) :
  1 <= n <= _MAXORDINAL -> toordinal (fromordinal n) = n.
Proof.
  intros Hn. pose proof (_ord2ymd_spec n Hn) as H.
  unfold fromordinal, toordinal. destruct (_ord2ymd n) as [[y m] d]. apply H.
Qed.

Lemma day_of_year_bound (y m d : Z) :
  1 <= m <= 12 -> 1 <= d <= _days_in_month y m ->
  1 <= _days_before_month y m + d <= (if _is_leap y then 366 else 365).
Proof.
  intros Hm. unfold _days_before_month, _days_in_month.
  month_cases m; destruct (_is_leap y); eval_index; cbn; lia.
Qed.

Lemma _days_before_year_succ (y : Z) :
  _days_before_year (y + 1)
  = _days_before_year y + (if _is_leap y then 366 else 365).
Proof.
  unfold _days_before_year, _is_leap. cbv zeta.
  replace (y + 1 - 1) with (y - 1 + 1) by lia.
  repeat match goal with
         | |- context [?a =? ?b] => destruct (Z.eqb_spec a b)
         end; cbn [andb orb negb]; Z.div_mod_to_equations; lia.
Qed.

Lemma _days_before_year_mono (y1 y2 : Z) :
  y1 <= y2 -> _days_before_year y1 <= _days_before_year y2.
Proof.
  unfold _days_before_year. cbv zeta. intros. Z.div_mod_to_equations. lia.
Qed.

Lemma toordinal_bounds (d : date) :
  valid_date d -> 1 <= toordinal d <= _MAXORDINAL.
Proof.
  intros (Hy & Hm & Hd). unfold MINYEAR, MAXYEAR in Hy.
  pose proof (day_of_year_bound _ _ _ Hm Hd) as Hb.
  pose proof (_days_before_year_succ (year d)) as Hs.
  pose proof (_days_before_year_mono 1 (year d) ltac:(lia)) as H1.
  pose proof (_days_before_year_mono (year d + 1) 10000 ltac:(lia)) as H2.
  change (_days_before_year 1) with 0 in H1.
  change (_days_before_year 10000) with 3652059 in H2.
  unfold toordinal, _ymd2ord, _MAXORDINAL.
  destruct (_is_leap (year d)); lia.
Qed.

Lemma between_true (lo x hi : Z) : lo <= x <= hi -> between lo x hi = true.
Proof. unfold between. intros. apply andb_true_iff. split; apply Z.leb_le; lia. Qed.

Lemma _check_date_fields_valid (d : date) :
  valid_date d -> _check_date_fields (year d) (month d) (day d) = Return d.
Proof.
  intros (Hy & Hm & Hd). unfold _check_date_fields.
  rewrite !between_true by assumption. cbn. destruct d; reflexivity.
Qed.

Lemma replace_end_of_day (t : datetime) :
  valid_date (dt_date t) -> 0 <= microsecond t <= 999999 ->
  replace t TaskManager.end_of_day
  = Return (mk_datetime (dt_date t) 23 59 59 (microsecond t)).
Proof.
  intros Hd Hus. unfold replace, datetime_new, TaskManager.end_of_day. cbn [default r_year r_month r_day r_hour r_minute r_second r_microsecond from_option Datatypes.id].
  rewrite _check_date_fields_valid by assumption. cbn [bind].
  unfold _check_time_fields.
  rewrite !between_true by lia. reflexivity.
Qed.

Lemma datetime_add_days (t : datetime) (k : Z) :
  valid_datetime t ->
  1 <= toordinal (dt_date t) + k <= _MAXORDINAL ->
  datetime_add t (mk_timedelta k 0 0)
  = Return (mk_datetime (fromordinal (toordinal (dt_date t) + k))
              (hour t) (minute t) (second t) (microsecond t)).
Proof.
  intros (Hd & Hh & Hm & Hs & Hus) Hk. unfold datetime_add.
  cbn [days seconds microseconds].
  replace (microsecond t + 0) with (microsecond t) by lia.
  rewrite (Z.div_small (microsecond t)), (Z.mod_small (microsecond t)) by lia.
  set (s := hour t * 3600 + minute t * 60 + second t + 0 + 0).
  assert (Hs' : 0 <= s < 86400) by (unfold s; lia).
  rewrite (Z.div_small s), (Z.mod_small s) by lia.
  replace (toordinal (dt_date t) + k + 0) with (toordinal (dt_date t) + k) by lia.
  destruct (Z.ltb_spec 0 (toordinal (dt_date t) + k)); [|lia].
  destruct (Z.leb_spec (toordinal (dt_date t) + k) _MAXORDINAL); [|lia].
  cbn [andb]. do 2 f_equal; unfold s; Z.div_mod_to_equations; lia.
Qed.

Lemma timedelta_new_days (w d : Z) :
  Z.abs (d + w * 7) <= 999999999 ->
  timedelta_new w d 0 = Return (mk_timedelta (d + w * 7) 0 0).
Proof.
  intros H. unfold timedelta_new. cbv zeta.
  change ((0 * 3600) / 86400) with 0. change ((0 * 3600) mod 86400) with 0.
  replace (d + w * 7 + 0) with (d + w * 7) by lia.
  destruct (Z.ltb_spec 999999999 (Z.abs (d + w * 7))); [lia | reflexivity].
Qed.

Lemma shifted_end_of_day_ok (now : datetime) (w d : Z) :
  valid_datetime now ->
  1 <= toordinal (dt_date now) + (d + w * 7) <= _MAXORDINAL ->
  TaskManager.shifted_end_of_day now w d
  = Return (mk_datetime (fromordinal (toordinal (dt_date now) + (d + w * 7)))
              23 59 59 (microsecond now)).
Proof.
  intros Hv Hk. unfold TaskManager.shifted_end_of_day.
  pose proof (toordinal_bounds _ (proj1 Hv)).
  rewrite timedelta_new_days by (unfold _MAXORDINAL in *; lia).
  cbn [bind]. rewrite datetime_add_days by assumption. cbn [bind].
  rewrite replace_end_of_day; cbn [dt_date microsecond].
  - reflexivity.
  - apply fromordinal_valid; assumption.
  - apply Hv.
Qed.

(** ** Comparison of dates *)

Section DateOrder.

Lemma month_end_le (y m m' : Z) :
  1 <= m -> m < m' -> m' <= 12 ->
  _days_before_month y m + _days_in_month y m <= _days_before_month y m'.
Proof.
  intros H1 H2 H3. unfold _days_before_month, _days_in_month.
  assert (Hm : 1 <= m <= 12) by lia.
  assert (Hm' : 1 <= m' <= 12) by lia.
  month_cases m; month_cases m'; try lia;
    destruct (_is_leap y); eval_index; cbn; lia.
Qed.

Lemma toordinal_lt_year (a b : date) :
  valid_date a -> valid_date b -> year a < year b ->
  toordinal a < toordinal b.
Proof.
  intros (Hya & Hma & Hda) (Hyb & Hmb & Hdb) Hlt.
  pose proof (day_of_year_bound _ _ _ Hma Hda).
  pose proof (day_of_year_bound _ _ _ Hmb Hdb).
  pose proof (_days_before_year_succ (year a)).
  pose proof (_days_before_year_mono (year a + 1) (year b) ltac:(lia)).
  unfold toordinal, _ymd2ord. destruct (_is_leap (year a)); lia.
Qed.

Lemma toordinal_lt_month (a b : date) :
  valid_date a -> valid_date b -> year a = year b -> month a < month b ->
  toordinal a < toordinal b.
Proof.
  intros (Hya & Hma & Hda) (Hyb & Hmb & Hdb) Hy Hlt.
  pose proof (month_end_le (year a) (month a) (month b) ltac:(lia) Hlt ltac:(lia)).
  unfold toordinal, _ymd2ord. rewrite <- Hy. lia.
Qed.

(** Python's comparison of dates is the comparison of their day numbers. *)
Lemma date_cmp_toordinal (a b : date) :
  valid_date a -> valid_date b ->
  _cmp (date_fields a) (date_fields b) = (toordinal a ?= toordinal b).
Proof.
  intros Ha Hb. unfold date_fields. cbn [_cmp].
  destruct (Z.compare_spec (year a) (year b)) as [Hy|Hy|Hy].
  - destruct (Z.compare_spec (month a) (month b)) as [Hm|Hm|Hm].
    + unfold toordinal, _ymd2ord. rewrite Hy, Hm.
      destruct (Z.compare_spec (day a) (day b)); symmetry;
        [apply Z.compare_eq_iff | apply Z.compare_lt_iff
        | apply Z.compare_gt_iff]; lia.
    + symmetry. apply Z.compare_lt_iff. now apply toordinal_lt_month.
    + symmetry. apply Z.compare_gt_iff. now apply toordinal_lt_month.
  - symmetry. apply Z.compare_lt_iff. now apply toordinal_lt_year.
  - symmetry. apply Z.compare_gt_iff. now apply toordinal_lt_year.
Qed.

Lemma date_eqb_toordinal (a b : date) :
  valid_date a -> valid_date b ->
  date_eqb a b = (toordinal a =? toordinal b).
Proof.
  intros Ha Hb. unfold date_eqb. rewrite date_cmp_toordinal by assumption.
  destruct (Z.compare_spec (toordinal a) (toordinal b)); cbn;
    symmetry; [apply Z.eqb_eq | apply Z.eqb_neq | apply Z.eqb_neq]; lia.
Qed.

Lemma date_ltb_toordinal (a b : date) :
  valid_date a -> valid_date b ->
  date_ltb a b = (toordinal a <? toordinal b).
Proof.
  intros Ha Hb. unfold date_ltb. rewrite date_cmp_toordinal by assumption.
  unfold Z.ltb. destruct (_ ?= _); reflexivity.
Qed.

Lemma date_leb_toordinal (a b : date) :
  valid_date a -> valid_date b ->
  date_leb a b = (toordinal a <=? toordinal b).
Proof.
  intros Ha Hb. unfold date_leb. rewrite date_cmp_toordinal by assumption.
  unfold Z.leb. destruct (_ ?= _); reflexivity.
Qed.

End DateOrder.

(** ** The due-date filter *)

Section DueFilter.

Lemma date_add_days (d : date) (k : Z) :
  1 <= toordinal d + k <= _MAXORDINAL ->
  date_add d (mk_timedelta k 0 0) = Return (fromordinal (toordinal d + k)).
Proof.
  intros H. unfold date_add. cbn [days].
  destruct (Z.ltb_spec 0 (toordinal d + k)); [|lia].
  destruct (Z.leb_spec (toordinal d + k) _MAXORDINAL); [|lia].
  reflexivity.
Qed.

Lemma due_date_selects_spec (due_filter : string) (today task_date : date) :
  valid_date today -> valid_date task_date ->
  toordinal today + 7 <= _MAXORDINAL ->
  TaskManager.due_date_selects due_filter today task_date
  = Return (bucket_test due_filter (toordinal task_date - toordinal today)).
Proof.
  intros Ht Hd Hmax.
  pose proof (toordinal_bounds _ Ht) as Hb.
  unfold TaskManager.due_date_selects, bucket_test.
  rewrite (date_eqb_toordinal task_date today),
    (date_ltb_toordinal task_date today) by assumption.
  destruct (String.eqb_spec due_filter "today") as [->|Hne1].
  - cbn [andb String.eqb Ascii.eqb Bool.eqb bind].
    destruct (Z.eqb_spec (toordinal task_date) (toordinal today)) as [E|E].
    + f_equal. symmetry. apply Z.eqb_eq. lia.
    + f_equal. symmetry. apply Z.eqb_neq. lia.
  - cbn [andb].
    destruct (String.eqb_spec due_filter "tomorrow") as [->|Hne2].
    + rewrite (timedelta_new_days 0 1) by (cbn; lia).
      change (1 + 0 * 7) with 1. cbn [bind].
      rewrite date_add_days by lia. cbn [bind].
      rewrite date_eqb_toordinal, toordinal_fromordinal
        by (try apply fromordinal_valid; (assumption || lia)).
      destruct (Z.eqb_spec (toordinal task_date) (toordinal today + 1))
        as [E|E].
      * f_equal. symmetry. apply Z.eqb_eq. lia.
      * cbn [String.eqb Ascii.eqb Bool.eqb bind andb]. f_equal. symmetry.
        apply Z.eqb_neq. lia.
    + cbn [bind].
      destruct (String.eqb_spec due_filter "week") as [->|Hne3].
      * rewrite (timedelta_new_days 0 7) by (cbn; lia).
        change (7 + 0 * 7) with 7. cbn [bind].
        rewrite date_add_days by lia. cbn [bind].
        rewrite date_leb_toordinal, toordinal_fromordinal
          by (try apply fromordinal_valid; (assumption || lia)).
        destruct (Z.leb_spec (toordinal task_date) (toordinal today + 7))
          as [E|E].
        -- f_equal. symmetry. apply Z.leb_le. lia.
        -- cbn [String.eqb Ascii.eqb Bool.eqb bind andb]. f_equal. symmetry.
           apply Z.leb_gt. lia.
      * cbn [bind].
        destruct (String.eqb_spec due_filter "overdue") as [->|Hne4];
          cbn [andb]; f_equal.
        destruct (Z.ltb_spec (toordinal task_date) (toordinal today));
          symmetry; [apply Z.ltb_lt | apply Z.ltb_ge]; lia.
Qed.

Lemma _filter_loop_spec (due_filter : string) (today : date)
    (tasks filtered : list Task) :
  valid_date today -> toordinal today + 7 <= _MAXORDINAL ->
  due_dates_valid tasks ->
  TaskManager._filter_loop due_filter today tasks filtered
  = Return (filtered ++ List.filter (in_bucket due_filter today) tasks)%list.
Proof.
  intros Ht Hmax Hv. revert filtered.
  induction Hv as [|t tasks Hd Hv IH]; intros filtered;
    cbn [TaskManager._filter_loop List.filter].
  - now rewrite app_nil_r.
  - unfold in_bucket at 1. destruct (due_date t) as [due|] eqn:Edue.
    + rewrite due_date_selects_spec by auto. cbn [bind].
      destruct (bucket_test _ _); rewrite IH.
      * now rewrite <- app_assoc.
      * reflexivity.
    + apply IH.
Qed.

(** C3.  For every task list and every bucket name the due-date filter
    returns, in their order, exactly the tasks whose due date is today
    ([today]), one day after today ([tomorrow]), at most seven days after
    today with no lower bound ([week]), or before today ([overdue]); any
    other name selects nothing, and no selected task lacks a due date.
    The current date is at least seven days before [date.max]. *)
Theorem due_filter_selects_exactly
    (now : datetime) (tasks : list Task) (due_filter : string) :
  valid_date (dt_date now) ->
  toordinal (dt_date now) + 7 <= _MAXORDINAL ->
  due_dates_valid tasks ->
  TaskManager._filter_by_due_date now tasks due_filter
  = Return (List.filter (in_bucket due_filter (dt_date now)) tasks)
  /\ Forall (fun t => due_date t <> None)
       (List.filter (in_bucket due_filter (dt_date now)) tasks).
Proof.
  intros Ht Hmax Hv. split.
  - unfold TaskManager._filter_by_due_date. now rewrite _filter_loop_spec.
  - apply List.Forall_forall. intros t Hin. apply filter_In in Hin as [_ Hb].
    unfold in_bucket in Hb. destruct (due_date t); discriminate.
Qed.

Lemma sample_now_valid : valid_datetime Standin.sample_now.
Proof. repeat split; vm_compute; discriminate. Qed.

Lemma sample_tasks_valid : due_dates_valid Standin.sample_tasks.
Proof.
  unfold due_dates_valid, Standin.sample_tasks.
  repeat (apply List.Forall_cons;
          [intros due Hd; cbn in Hd; try discriminate Hd;
           injection Hd as <-; repeat split; vm_compute; discriminate |]).
  apply List.Forall_nil.
Qed.

Lemma due_filter_selects_exactly_witness :
  TaskManager._filter_by_due_date Standin.sample_now Standin.sample_tasks
    "week"
  = Return
      (List.filter (in_bucket "week" (dt_date Standin.sample_now))
         Standin.sample_tasks)
  /\ Forall (fun t => due_date t <> None)
       (List.filter (in_bucket "week" (dt_date Standin.sample_now))
          Standin.sample_tasks).
Proof.
  apply (due_filter_selects_exactly Standin.sample_now Standin.sample_tasks
           "week").
  - apply sample_now_valid.
  - vm_compute; discriminate.
  - apply sample_tasks_valid.
Defined.

(** The buckets on the sample tasks, today being 2024-01-31. *)
Example due_filter_buckets :
  let names l := map title l in
  let run f :=
    match TaskManager._filter_by_due_date Standin.sample_now
            Standin.sample_tasks f with
    | Return l => names l
    | Raise _ => []
    end in
  run "today" = ["today"]
  /\ run "tomorrow" = ["tomorrow"]
  /\ run "week" = ["yesterday"; "today"; "tomorrow"; "in a week"]
  /\ run "overdue" = ["yesterday"]
  /\ run "Today" = [].
Proof. vm_compute. repeat split. Qed.

End DueFilter.

(** ** [list_tasks] *)

Section ListTasks.

(** C10.  A status string that is neither "completed" nor "open" in any
    letter case filters nothing and raises nothing of its own: [list_tasks]
    gives what it gives with no status at all. *)
Theorem list_tasks_ignores_unknown_status
    (client : TaskManager.TickTickClient) (now : datetime)
    (project_id due_filter : option string) (priority_ : option Z)
    (s : string) :
  Str.lower s <> "completed" -> Str.lower s <> "open" ->
  TaskManager.list_tasks client now project_id due_filter priority_ (Some s)
  = TaskManager.list_tasks client now project_id due_filter priority_ None.
Proof.
  intros Hc Ho. unfold TaskManager.list_tasks.
  cbn [TaskManager.truthy_str default from_option Datatypes.id].
  destruct (String.eqb_spec (Str.lower s) "completed"); [contradiction|].
  destruct (String.eqb_spec (Str.lower s) "open"); [contradiction|].
  destruct (negb (String.eqb s "")); reflexivity.
Qed.

Lemma list_tasks_ignores_unknown_status_witness :
  TaskManager.list_tasks Standin.sample_client Standin.sample_now None
    (Some "week") (Some 1) (Some "Done")
  = TaskManager.list_tasks Standin.sample_client Standin.sample_now None
      (Some "week") (Some 1) None.
Proof.
  apply (list_tasks_ignores_unknown_status Standin.sample_client
           Standin.sample_now None (Some "week") (Some 1) "Done").
  - vm_compute; discriminate.
  - vm_compute; discriminate.
Defined.

(** What the sample call returns, and that a known status does filter. *)
Example list_tasks_sample :
  TaskManager.list_tasks Standin.sample_client Standin.sample_now None
    (Some "week") (Some 1) (Some "Done")
  = Return [Standin.task "yesterday" 1 (Standin.on_day 30);
            Standin.task "in a week" 1
              (Some (mk_datetime (mk_date 2024 2 7) 9 0 0 0))]
  /\ TaskManager.list_tasks Standin.sample_client Standin.sample_now None
       (Some "week") (Some 1) (Some "Completed")
     = Return [].
Proof. vm_compute. split; reflexivity. Qed.

End ListTasks.

(** ** The date phrases *)

Section ParseDate.

Variable P : string -> result datetime.

Lemma _parse_date_next_month (now : datetime) :
  TaskManager._parse_date P now "next month"
  = if month (dt_date now) =? 12 then
      replace now
        (mk_replace (Some (year (dt_date now) + 1)) (Some 1) None
           (Some 23) (Some 59) (Some 59) None)
    else
      replace now
        (mk_replace None (Some (month (dt_date now) + 1)) None
           (Some 23) (Some 59) (Some 59) None).
Proof. reflexivity. Qed.

Lemma _parse_date_next_weekday (now : datetime) (name : string) (n : Z) :
  In (name, n) weekday_names ->
  TaskManager._parse_date P now ("next " ++ name)
  = TaskManager.shifted_end_of_day now 0 (days_ahead n now).
Proof.
  intros H. unfold weekday_names in H. cbn [In] in H.
  repeat destruct H as [H|H]; try contradiction; inversion H; subst;
    reflexivity.
Qed.

Lemma _parse_date_in_3_days (now : datetime) :
  TaskManager._parse_date P now "in 3 days"
  = TaskManager.shifted_end_of_day now 0 3.
Proof. reflexivity. Qed.

Lemma _check_date_fields_day_out_of_range (y m d : Z) :
  MINYEAR <= y <= MAXYEAR -> 1 <= m <= 12 -> _days_in_month y m < d ->
  _check_date_fields y m d
  = Raise (ValueError "day is out of range for month").
Proof.
  intros Hy Hm Hd. unfold _check_date_fields.
  rewrite !between_true by assumption. cbn [negb].
  unfold between. destruct (Z.leb_spec d (_days_in_month y m)); [lia|].
  now rewrite andb_false_r.
Qed.

Lemma _days_in_month_bounds (y m : Z) :
  1 <= m <= 12 -> 28 <= _days_in_month y m <= 31.
Proof.
  intros Hm. unfold _days_in_month.
  month_cases m; destruct (_is_leap y); eval_index; cbn; lia.
Qed.

(** C8.  When the day of the month does not exist in the following month,
    "next month" raises the [ValueError] of [datetime.replace]: no date
    comes back, and the error is not the parser's own "Could not parse
    date".  This happens on days 29, 30 and 31 only. *)
Theorem next_month_raises_on_short_month (now : datetime) :
  valid_datetime now ->
  month (dt_date now) <> 12 ->
  _days_in_month (year (dt_date now)) (month (dt_date now) + 1)
    < day (dt_date now) ->
  TaskManager._parse_date P now "next month"
    = Raise (ValueError "day is out of range for month")
  /\ TaskManager._parse_date P now "next month"
     <> Raise (ValueError "Could not parse date: next month")
  /\ 29 <= day (dt_date now) <= 31.
Proof.
  intros ((Hy & Hm & Hd) & _) H12 Hshort.
  rewrite _parse_date_next_month.
  destruct (Z.eqb_spec (month (dt_date now)) 12); [contradiction|].
  pose proof (_days_in_month_bounds (year (dt_date now))
                (month (dt_date now) + 1) ltac:(lia)).
  pose proof (_days_in_month_bounds (year (dt_date now))
                (month (dt_date now)) ltac:(lia)).
  unfold replace, datetime_new.
  cbn [default from_option Datatypes.id r_year r_month r_day r_hour r_minute
       r_second r_microsecond].
  rewrite _check_date_fields_day_out_of_range by (assumption || lia).
  cbn [bind]. split; [reflexivity | split; [discriminate | lia]].
Qed.

(** Otherwise, outside December, the same day of the next month comes
    back, at 23:59:59. *)
Lemma next_month_returns_otherwise (now : datetime) :
  valid_datetime now ->
  month (dt_date now) <> 12 ->
  day (dt_date now)
    <= _days_in_month (year (dt_date now)) (month (dt_date now) + 1) ->
  TaskManager._parse_date P now "next month"
  = Return (mk_datetime
              (mk_date (year (dt_date now)) (month (dt_date now) + 1)
                 (day (dt_date now)))
              23 59 59 (microsecond now)).
Proof.
  intros ((Hy & Hm & Hd) & Hh & Hmi & Hs & Hus) H12 Hok.
  rewrite _parse_date_next_month.
  destruct (Z.eqb_spec (month (dt_date now)) 12); [contradiction|].
  unfold replace, datetime_new.
  cbn [default from_option Datatypes.id r_year r_month r_day r_hour r_minute
       r_second r_microsecond].
  unfold _check_date_fields, _check_time_fields.
  rewrite !between_true by lia. reflexivity.
Qed.

(** C6.  For each of the seven weekday names, Monday to Sunday, "next
    <name>" gives the end of the nearest day after today that falls on
    that weekday: it lies 1 to 7 days ahead, it is that day of the week (0
    for Monday to 6 for Sunday, as [date.weekday()] counts), no day between
    today and it is, and it is 7 days ahead when today is.  The names and
    their numbers are those of [weekday_names], not read from the table of
    the code.  The current date is at least seven days before
    [date.max]. *)
Theorem next_weekday_is_nearest_future
    (now : datetime) (name : string) (n : Z) :
  valid_datetime now ->
  toordinal (dt_date now) + 7 <= _MAXORDINAL ->
  In (name, n) weekday_names ->
  exists k : Z,
    1 <= k <= 7
    /\ TaskManager._parse_date P now ("next " ++ name)
       = Return (mk_datetime (fromordinal (toordinal (dt_date now) + k))
                   23 59 59 (microsecond now))
    /\ weekday (fromordinal (toordinal (dt_date now) + k)) = n
    /\ (forall j, 1 <= j < k ->
          weekday (fromordinal (toordinal (dt_date now) + j)) <> n)
    /\ (weekday (dt_date now) = n -> k = 7).
Proof.
  intros Hv Hmax Hname.
  pose proof (toordinal_bounds _ (proj1 Hv)) as Hb.
  unfold weekday_names in Hname.
  assert (Hn : 0 <= n <= 6).
  { cbn [In] in Hname.
    repeat destruct Hname as [Hname|Hname]; try contradiction;
      inversion Hname; lia. }
  exists (days_ahead n now).
  assert (Hw : 0 <= weekday (dt_date now) < 7)
    by (unfold weekday; apply Z.mod_pos_bound; lia).
  assert (Hk : 1 <= days_ahead n now <= 7).
  { unfold days_ahead. cbv zeta.
    destruct (Z.leb_spec (n - weekday (dt_date now)) 0); lia. }
  assert (Hwd : forall j, 1 <= j <= 7 ->
            weekday (fromordinal (toordinal (dt_date now) + j))
            = (weekday (dt_date now) + j) mod 7).
  { intros j Hj. unfold weekday. rewrite toordinal_fromordinal by lia.
    Z.div_mod_to_equations. lia. }
  split; [exact Hk|]. split; [|split; [|split]].
  - rewrite (_parse_date_next_weekday now name n Hname).
    rewrite shifted_end_of_day_ok by (assumption || lia).
    do 3 f_equal. lia.
  - rewrite Hwd by exact Hk. unfold days_ahead in *. cbv zeta in *.
    destruct (Z.leb_spec (n - weekday (dt_date now)) 0);
      Z.div_mod_to_equations; lia.
  - intros j Hj. rewrite Hwd by lia. unfold days_ahead in *. cbv zeta in *.
    destruct (Z.leb_spec (n - weekday (dt_date now)) 0);
      Z.div_mod_to_equations; lia.
  - intros Heq. unfold days_ahead. cbv zeta.
    destruct (Z.leb_spec (n - weekday (dt_date now)) 0); lia.
Qed.

End ParseDate.

Lemma next_month_raises_on_short_month_witness :
  valid_datetime Standin.sample_now
  /\ TaskManager._parse_date Standin.date_parser_parse Standin.sample_now
       "next month"
     = Raise (ValueError "day is out of range for month").
Proof.
  split; [apply sample_now_valid|].
  apply (next_month_raises_on_short_month Standin.date_parser_parse
           Standin.sample_now).
  - apply sample_now_valid.
  - vm_compute; discriminate.
  - vm_compute; reflexivity.
Defined.

(** Days 29 and 30 fail as well, and a day that exists does not. *)
Example next_month_samples :
  let parse y m d :=
    TaskManager._parse_date Standin.date_parser_parse
      (mk_datetime (mk_date y m d) 8 0 0 0) "next month" in
  parse 2023 1 29 = Raise (ValueError "day is out of range for month")
  /\ parse 2024 1 30 = Raise (ValueError "day is out of range for month")
  /\ parse 2024 3 31 = Raise (ValueError "day is out of range for month")
  /\ parse 2024 1 29
     = Return (mk_datetime (mk_date 2024 2 29) 23 59 59 0)
  /\ parse 2024 12 31
     = Return (mk_datetime (mk_date 2025 1 31) 23 59 59 0).
Proof. vm_compute. repeat split. Qed.

(** 2024-01-31 is a Wednesday: "next wednesday" is 2024-02-07. *)
Lemma next_weekday_is_nearest_future_witness :
  exists k : Z,
    1 <= k <= 7
    /\ TaskManager._parse_date Standin.date_parser_parse Standin.sample_now
         "next wednesday"
       = Return (mk_datetime
                   (fromordinal (toordinal (dt_date Standin.sample_now) + k))
                   23 59 59 (microsecond Standin.sample_now))
    /\ weekday (fromordinal (toordinal (dt_date Standin.sample_now) + k)) = 2
    /\ (forall j, 1 <= j < k ->
          weekday (fromordinal (toordinal (dt_date Standin.sample_now) + j))
          <> 2)
    /\ (weekday (dt_date Standin.sample_now) = 2 -> k = 7).
Proof.
  apply (next_weekday_is_nearest_future Standin.date_parser_parse
           Standin.sample_now "wednesday" 2).
  - apply sample_now_valid.
  - vm_compute; discriminate.
  - do 2 right. left. reflexivity.
Defined.

Example next_weekday_samples :
  let parse s :=
    TaskManager._parse_date Standin.date_parser_parse Standin.sample_now s in
  weekday (dt_date Standin.sample_now) = 2
  /\ parse "next wednesday"
     = Return (mk_datetime (mk_date 2024 2 7) 23 59 59 7)
  /\ parse "next thursday"
     = Return (mk_datetime (mk_date 2024 2 1) 23 59 59 7)
  /\ parse "Next Tuesday "
     = Return (mk_datetime (mk_date 2024 2 6) 23 59 59 7).
Proof. vm_compute. repeat split. Qed.

(** ** Relative phrases and explicit dates *)

Section ExplicitDates.

Lemma digit_cases (n : Z) :
  In (digit n) ["0"; "1"; "2"; "3"; "4"; "5"; "6"; "7"; "8"; "9"]%char.
Proof.
  unfold digit. pose proof (Z.mod_pos_bound n 10 ltac:(lia)) as H.
  assert (E : n mod 10 = 0 \/ n mod 10 = 1 \/ n mod 10 = 2 \/ n mod 10 = 3
              \/ n mod 10 = 4 \/ n mod 10 = 5 \/ n mod 10 = 6 \/ n mod 10 = 7
              \/ n mod 10 = 8 \/ n mod 10 = 9) by lia.
  repeat destruct E as [E|E]; rewrite E; cbn; tauto.
Qed.

Lemma plain_digit (n : Z) : plain (digit n).
Proof.
  pose proof (digit_cases n) as H. cbn [In] in H.
  repeat destruct H as [H|H]; try contradiction; rewrite <- H;
    repeat split; reflexivity.
Qed.

Lemma lower_plain (s : string) : all_plain s -> Str.lower s = s.
Proof.
  induction s as [|c s IH]; cbn; [reflexivity|].
  intros [Hc Hs]. rewrite IH by assumption. f_equal. apply Hc.
Qed.

Lemma rstrip_plain (s : string) : all_plain s -> Str.rstrip s = s.
Proof.
  induction s as [|c s IH]; cbn; [reflexivity|].
  intros [Hc Hs]. rewrite IH by assumption.
  destruct s; [|reflexivity].
  destruct Hc as (_ & -> & _). reflexivity.
Qed.

Lemma strip_plain (s : string) : all_plain s -> Str.strip s = s.
Proof.
  intros H. unfold Str.strip.
  destruct s as [|c s]; [reflexivity|].
  cbn [Str.lstrip]. destruct H as [Hc Hs].
  pose proof Hc as (_ & -> & _). apply rstrip_plain. now split.
Qed.

Lemma all_plain_date_isoformat (d : date) : all_plain (date_isoformat d).
Proof.
  unfold date_isoformat, pad4, pad2. cbn.
  repeat split; try apply plain_digit; reflexivity.
Qed.

(** A string of plain characters is handed to the date library. *)
Lemma _parse_date_plain (P : string -> result datetime) (now : datetime)
    (c : ascii) (s : string) :
  all_plain (String c s) ->
  TaskManager._parse_date P now (String c s)
  = TaskManager.try_except_all
      (let* parsed := P (String c s) in
       if (hour parsed =? 0) && (minute parsed =? 0)
       then replace parsed TaskManager.end_of_day
       else Return parsed)
      (ValueError ("Could not parse date: " ++ String c s)).
Proof.
  intros H. unfold TaskManager._parse_date.
  rewrite (lower_plain _ H), (strip_plain _ H).
  destruct H as [(_ & _ & Ht & Hy & Hn & Hi & Hn') _].
  cbn [String.eqb]. rewrite Ht, Hy, Hn.
  unfold Str.in_pattern, Str.weekday_pattern.
  cbn [Str.drop_prefix]. rewrite Hi, Hn'. reflexivity.
Qed.

(** C5, amended.  "in 3 days" and the explicit date three days ahead both
    parse to that date at 23:59:59 and agree in every field but the
    microsecond: the phrase keeps the microsecond of the current time, the
    explicit date has none.  The date library reads the explicit date as
    that day at midnight, and the day is representable. *)
Theorem in_3_days_matches_explicit_date_up_to_microsecond
    (P : string -> result datetime) (now : datetime) :
  valid_datetime now ->
  toordinal (dt_date now) + 3 <= _MAXORDINAL ->
  let target := fromordinal (toordinal (dt_date now) + 3) in
  P (date_isoformat target) = Return (mk_datetime target 0 0 0 0) ->
  TaskManager._parse_date P now "in 3 days"
    = Return (mk_datetime target 23 59 59 (microsecond now))
  /\ TaskManager._parse_date P now (date_isoformat target)
     = Return (mk_datetime target 23 59 59 0).
Proof.
  intros Hv Hmax target HP.
  pose proof (toordinal_bounds _ (proj1 Hv)) as Hb.
  split.
  - rewrite _parse_date_in_3_days, shifted_end_of_day_ok
      by (assumption || lia).
    reflexivity.
  - pose proof (all_plain_date_isoformat target) as Hplain.
    remember (date_isoformat target) as s eqn:Es.
    destruct s as [|c s]; [discriminate Es|].
    rewrite _parse_date_plain by assumption.
    rewrite HP. cbn [bind hour minute Z.eqb andb].
    rewrite replace_end_of_day; cbn [dt_date microsecond].
    + reflexivity.
    + apply fromordinal_valid. lia.
    + lia.
Qed.

Lemma in_3_days_matches_explicit_date_up_to_microsecond_witness :
  TaskManager._parse_date Standin.date_parser_parse Standin.sample_now
    "in 3 days"
    = Return (mk_datetime (mk_date 2024 2 3) 23 59 59 7)
  /\ TaskManager._parse_date Standin.date_parser_parse Standin.sample_now
       "2024-02-03"
     = Return (mk_datetime (mk_date 2024 2 3) 23 59 59 0).
Proof.
  apply (in_3_days_matches_explicit_date_up_to_microsecond
           Standin.date_parser_parse Standin.sample_now).
  - apply sample_now_valid.
  - vm_compute; discriminate.
  - vm_compute; reflexivity.
Defined.

(** C5 as written fails at 2024-01-31 10:30:05.000007: "in 3 days" gives
    2024-02-03 23:59:59.000007 and "2024-02-03" gives 2024-02-03 23:59:59. *)
Lemma in_3_days_differs_from_explicit_date : ~ AsStated.relative_is_explicit.
Proof.
  intros H.
  specialize (H Standin.date_parser_parse Standin.sample_now
                sample_now_valid).
  cbv zeta in H.
  assert (Hmax : toordinal (dt_date Standin.sample_now) + 3 <= _MAXORDINAL)
    by (vm_compute; discriminate).
  specialize (H Hmax eq_refl).
  vm_compute in H. discriminate H.
Qed.

End ExplicitDates.

(** ** The order of the daily plan *)

Section PlanOrder.

(** *** Comparison of due dates *)

Lemma _cmp_app (x1 x2 y1 y2 : list Z) :
  length x1 = length x2 ->
  _cmp (x1 ++ y1) (x2 ++ y2)
  = match _cmp x1 x2 with
    | Eq => _cmp y1 y2
    | c => c
    end.
Proof.
  revert x2. induction x1 as [|a x1 IH]; intros [|b x2] Hlen;
    try discriminate Hlen; [reflexivity|].
  cbn [app _cmp]. destruct (a ?= b); try reflexivity.
  apply IH. now injection Hlen.
Qed.

Lemma datetime_cmp_timestamp (a b : datetime) :
  valid_datetime a -> valid_datetime b ->
  _cmp (datetime_fields a) (datetime_fields b) = (timestamp a ?= timestamp b).
Proof.
  intros (Hda & Ha) (Hdb & Hb). unfold datetime_fields.
  rewrite _cmp_app by reflexivity.
  rewrite date_cmp_toordinal by assumption.
  unfold timestamp. cbn [_cmp].
  destruct (Z.compare_spec (toordinal (dt_date a)) (toordinal (dt_date b)));
    [destruct (Z.compare_spec (hour a) (hour b));
       [destruct (Z.compare_spec (minute a) (minute b));
          [destruct (Z.compare_spec (second a) (second b));
             [destruct (Z.compare_spec (microsecond a) (microsecond b))
             | | ] | | ] | | ] | | ];
    symmetry;
    first [ apply Z.compare_eq_iff; lia
          | apply Z.compare_lt_iff; lia
          | apply Z.compare_gt_iff; lia ].
Qed.

(** On well-formed values that are both aware or both naive, the
    comparison of [datetime] is the comparison of the instants. *)
Lemma datetime_cmp_instant (a b : Task) (da db : datetime) :
  due_date a = Some da -> due_date b = Some db ->
  valid_datetime da -> valid_datetime db ->
  (due_utcoffset a = None <-> due_utcoffset b = None) ->
  datetime_cmp (snd (Workflow.sort_key a)) (snd (Workflow.sort_key b))
  = Some (default 0 (due_instant a) ?= default 0 (due_instant b)).
Proof.
  intros Ha Hb Hva Hvb Hsame.
  unfold Workflow.sort_key, due_instant, datetime_cmp. rewrite Ha, Hb.
  cbn [fst snd default from_option Datatypes.id].
  destruct (due_utcoffset a) as [myoff|], (due_utcoffset b) as [otoff|];
    cbn [default from_option Datatypes.id].
  - destruct (Z.eqb_spec myoff otoff) as [->|Hne].
    + rewrite datetime_cmp_timestamp by assumption. f_equal.
      destruct (Z.compare_spec (timestamp da) (timestamp db)); symmetry;
        [apply Z.compare_eq_iff | apply Z.compare_lt_iff
        | apply Z.compare_gt_iff]; lia.
    + assert (E : total_microseconds (datetime_sub da db)
                  = timestamp da - timestamp db).
      { unfold total_microseconds, datetime_sub, timestamp.
        cbn [days seconds microseconds]. Z.div_mod_to_equations. lia. }
      rewrite E. f_equal.
      destruct (Z.compare_spec (timestamp da - 1000000 * myoff)
                  (timestamp db - 1000000 * otoff));
        [apply Z.compare_eq_iff | apply Z.compare_lt_iff
        | apply Z.compare_gt_iff]; lia.
  - exfalso. destruct Hsame as [_ H]. discriminate (H eq_refl).
  - exfalso. destruct Hsame as [H _]. discriminate (H eq_refl).
  - rewrite datetime_cmp_timestamp by assumption. f_equal.
    destruct (Z.compare_spec (timestamp da) (timestamp db)); symmetry;
      [apply Z.compare_eq_iff | apply Z.compare_lt_iff
      | apply Z.compare_gt_iff]; lia.
Qed.

(** On such tasks the comparison of the keys does not raise, and says
    which task has to come first. *)
Lemma key_ltb_precedes (a b : Task) :
  dated a -> dated b ->
  (forall due, due_date a = Some due -> valid_datetime due) ->
  (forall due, due_date b = Some due -> valid_datetime due) ->
  (due_utcoffset a = None <-> due_utcoffset b = None) ->
  Workflow.key_ltb (Workflow.sort_key a) (Workflow.sort_key b)
  = Return (precedes a b).
Proof.
  intros Hda Hdb Hva Hvb Hsame. unfold dated in *.
  destruct (due_date a) as [da|] eqn:Ea; [|contradiction].
  destruct (due_date b) as [db|] eqn:Eb; [|contradiction].
  pose proof (datetime_cmp_instant a b da db Ea Eb (Hva da eq_refl)
                (Hvb db eq_refl) Hsame) as Hcmp.
  unfold Workflow.key_ltb, zoned_eqb, zoned_ltb, precedes. rewrite Hcmp.
  unfold Workflow.sort_key at 1 2 3 4. cbn [fst].
  replace (if priority a =? 0 then 0 else priority a) with (priority a)
    by (destruct (Z.eqb_spec (priority a) 0); lia).
  replace (if priority b =? 0 then 0 else priority b) with (priority b)
    by (destruct (Z.eqb_spec (priority b) 0); lia).
  destruct (Z.eqb_spec (- priority a) (- priority b)),
    (Z.eqb_spec (priority a) (priority b)); try lia.
  - unfold Z.ltb.
    destruct (default 0 (due_instant a) ?= default 0 (due_instant b));
      reflexivity.
  - f_equal. destruct (Z.ltb_spec (- priority a) (- priority b)),
      (Z.ltb_spec (priority b) (priority a)); (reflexivity || lia).
Qed.

(** *** The order *)

Lemma precedes_asym (a b : Task) :
  precedes a b = true -> precedes b a = false.
Proof.
  unfold precedes.
  destruct (Z.eqb_spec (priority a) (priority b)),
    (Z.eqb_spec (priority b) (priority a)); try lia;
    rewrite Z.ltb_lt, Z.ltb_ge; lia.
Qed.

Lemma precedes_trans (a b c : Task) :
  precedes b a = false -> precedes c b = false -> precedes c a = false.
Proof.
  unfold precedes.
  destruct (Z.eqb_spec (priority b) (priority a)),
    (Z.eqb_spec (priority c) (priority b)),
    (Z.eqb_spec (priority c) (priority a));
    rewrite ?Z.ltb_ge; lia.
Qed.

Lemma insert_sorted (x : Task) (l : list Task) :
  (forall y, In y l ->
     Workflow.key_ltb (Workflow.sort_key y) (Workflow.sort_key x)
     = Return (precedes y x)) ->
  StronglySorted (fun a b => precedes b a = false) l ->
  exists r,
    Workflow.insert x l = Return r
    /\ Permutation r (x :: l)
    /\ StronglySorted (fun a b => precedes b a = false) r.
Proof.
  intros Hcmp Hs. induction Hs as [|y l Hs IH Hy]; cbn [Workflow.insert].
  - exists [x]. repeat split; [reflexivity | repeat constructor].
  - rewrite (Hcmp y (or_introl eq_refl)). cbn [bind].
    destruct (precedes y x) eqn:E.
    + destruct IH as (r & -> & Hperm & Hr).
      { intros z Hz. apply Hcmp. now right. }
      cbn [bind]. exists (y :: r). split; [reflexivity|]. split.
      * rewrite Hperm. apply perm_swap.
      * constructor; [exact Hr|].
        apply List.Forall_forall. intros z Hz.
        apply (Permutation_in _ Hperm) in Hz. destruct Hz as [<- | Hz].
        -- now apply precedes_asym.
        -- rewrite List.Forall_forall in Hy. now apply Hy.
    + exists (x :: y :: l). split; [reflexivity|]. split; [reflexivity|].
      constructor; [now constructor|].
      constructor; [exact E|].
      apply List.Forall_forall. intros z Hz.
      rewrite List.Forall_forall in Hy.
      apply precedes_trans with y; [exact E | now apply Hy].
Qed.

(** On a list whose keys compare, the sort returns, and returns a sorted
    rearrangement. *)
Lemma sort_sorted (l : list Task) :
  (forall a b, In a l -> In b l ->
     Workflow.key_ltb (Workflow.sort_key a) (Workflow.sort_key b)
     = Return (precedes a b)) ->
  exists r,
    Workflow.sort l = Return r
    /\ Permutation r l
    /\ StronglySorted (fun a b => precedes b a = false) r.
Proof.
  induction l as [|x l IH]; intros Hcmp; cbn [Workflow.sort].
  - exists []. repeat split; [reflexivity | constructor].
  - destruct IH as (s & -> & Hperm & Hs).
    { intros a b Ha Hb. apply Hcmp; now right. }
    cbn [bind]. destruct (insert_sorted x s) as (r & Hr & Hp & Hsorted).
    + intros y Hy. apply Hcmp; [right | left; reflexivity].
      now apply (Permutation_in _ Hperm).
    + exact Hs.
    + exists r. split; [exact Hr|]. split; [|exact Hsorted].
      rewrite Hp. now constructor.
Qed.

Lemma StronglySorted_lookup {A : Type} (R : A -> A -> Prop) (l : list A) :
  StronglySorted R l ->
  forall (i j : nat) (a b : A),
    (i < j)%nat -> l !! i = Some a -> l !! j = Some b -> R a b.
Proof.
  induction 1 as [|x l Hs IH Hx]; intros i j a b Hij Hi Hj.
  - destruct i; discriminate.
  - destruct j as [|j]; [lia|]. cbn in Hj.
    destruct i as [|i]; cbn in Hi.
    + injection Hi as <-. rewrite List.Forall_forall in Hx. apply Hx.
      apply list_elem_of_In, list_elem_of_lookup. eauto.
    + apply (IH i j); [lia | assumption | assumption].
Qed.

(** *** The tasks that reach the sort *)

Lemma _filter_loop_dated (due_filter : string) (today : date)
    (tasks filtered selected : list Task) :
  TaskManager._filter_loop due_filter today tasks filtered
    = Return selected ->
  List.Forall dated filtered -> List.Forall dated selected.
Proof.
  revert filtered. induction tasks as [|t tasks IH]; intros filtered;
    cbn [TaskManager._filter_loop].
  - now intros [= <-].
  - destruct (due_date t) as [due|] eqn:Edue; [|apply IH].
    destruct (TaskManager.due_date_selects due_filter today (dt_date due))
      as [[|]|e]; cbn [bind]; [| apply IH | discriminate].
    intros H Hf. apply (IH _ H). apply Forall_app. split; [exact Hf|].
    constructor; [|constructor]. unfold dated. now rewrite Edue.
Qed.

Lemma list_tasks_bucket_dated (client : TaskManager.TickTickClient)
    (now : datetime) (bucket : string) (selected : list Task) :
  bucket <> "" ->
  TaskManager.list_tasks client now None (Some bucket) None None
    = Return selected ->
  List.Forall dated selected.
Proof.
  intros Hb. unfold TaskManager.list_tasks.
  cbn [TaskManager.truthy_str default from_option Datatypes.id].
  destruct (String.eqb_spec bucket ""); [contradiction|]. cbn [negb].
  destruct (let* projects := TaskManager.get_projects client in
            TaskManager.fetch_all client projects []) as [all_tasks|e];
    [|discriminate].
  cbn [bind]. unfold TaskManager._filter_by_due_date.
  destruct (TaskManager._filter_loop bucket (dt_date now) all_tasks [])
    as [filtered|e] eqn:E; [|discriminate].
  cbn [bind]. intros [= <-].
  apply (_filter_loop_dated _ _ _ _ _ E). constructor.
Qed.

(** Only dated tasks reach the sort: every bucket of the plan comes out of
    the due-date filter. *)
Lemma all_tasks_dated (client : TaskManager.TickTickClient)
    (now_overdue now_today now_tomorrow : datetime)
    (include_overdue include_today include_tomorrow : bool)
    (fetched : list Task) :
  Workflow.all_tasks client now_overdue now_today now_tomorrow
    include_overdue include_today include_tomorrow = Return fetched ->
  List.Forall dated fetched.
Proof.
  unfold Workflow.all_tasks.
  destruct (TaskManager.get_projects client) as [projects|e];
    [|discriminate].
  cbn [bind].
  assert (Hfetch : forall (included : bool) now bucket all_tasks selected,
            bucket <> "" ->
            (if included then
               let* tasks :=
                 TaskManager.list_tasks client now None (Some bucket)
                   None None in
               Return (all_tasks ++ tasks)%list
             else Return all_tasks) = Return selected ->
            List.Forall dated all_tasks -> List.Forall dated selected).
  { intros included now bucket all_tasks selected Hb.
    destruct included; [|now intros [= <-]].
    destruct (TaskManager.list_tasks client now None (Some bucket) None None)
      as [tasks|e] eqn:E; [|discriminate].
    cbn [bind]. intros [= <-] Hall. apply Forall_app. split; [exact Hall|].
    now apply (list_tasks_bucket_dated client now bucket). }
  match goal with
  | |- bind ?X _ = _ -> _ => destruct X as [l1|e] eqn:E1; [|discriminate]
  end.
  cbn [bind].
  match goal with
  | |- bind ?X _ = _ -> _ => destruct X as [l2|e] eqn:E2; [|discriminate]
  end.
  cbn [bind]. intros E3.
  apply (Hfetch include_tomorrow now_tomorrow "tomorrow" l2 fetched
           ltac:(discriminate) E3).
  apply (Hfetch include_today now_today "today" l1 l2
           ltac:(discriminate) E2).
  apply (Hfetch include_overdue now_overdue "overdue" [] l1
           ltac:(discriminate) E1).
  constructor.
Qed.

Lemma unique_In (seen_ids : gset (option string)) (all_tasks : list Task)
    (t : Task) :
  In t (Workflow.unique seen_ids all_tasks) -> In t all_tasks.
Proof.
  revert seen_ids. induction all_tasks as [|x l IH]; intros seen_ids;
    cbn [Workflow.unique]; [tauto|].
  destruct (bool_decide _).
  - intros H. right. exact (IH _ H).
  - intros [H|H]; [now left | right; exact (IH _ H)].
Qed.


Lemma plan_tasks_fetched :
  Workflow.all_tasks Standin.plan_client Standin.sample_now
    Standin.sample_now Standin.sample_now true true true
  = Return [Standin.task "C" 1 (Standin.on_day 31);
            Standin.task "B" 5 (Standin.on_day 31);
            Standin.task "A" 5
              (Some (mk_datetime (mk_date 2024 2 1) 9 0 0 0))].
Proof. vm_compute. reflexivity. Qed.


Example daily_plan_sample :
  match
    Workflow.generate_plan Standin.plan_client Standin.sample_now
      Standin.sample_now Standin.sample_now true true true
  with
  | Return plan => map title plan = ["B"; "A"; "C"]
  | Raise _ => False
  end.
Proof. vm_compute. reflexivity. Qed.

(** The sort itself, outside the plan: a task without a due date gets the
    naive [datetime.max] for its key, which does not compare with the
    aware due date of a task of the same priority.  With different
    priorities the due dates are not looked at. *)
Example sort_undated_tasks :
  Workflow.sort [Standin.task "dated" 5 (Standin.on_day 31);
                 Standin.task "undated" 5 None]
  = Raise (TypeError "can't compare offset-naive and offset-aware datetimes")
  /\ Workflow.sort [Standin.task "dated" 1 (Standin.on_day 31);
                    Standin.task "undated" 5 None]
     = Return [Standin.task "undated" 5 None;
               Standin.task "dated" 1 (Standin.on_day 31)].
Proof. vm_compute. split; reflexivity. Qed.

End PlanOrder.

(** ** The age of a token *)

Section TokenAge.

Lemma total_microseconds_sub (a b : datetime) :
  total_microseconds (datetime_sub a b) = timestamp a - timestamp b.
Proof.
  unfold total_microseconds, datetime_sub, timestamp. cbn [days seconds microseconds].
  Z.div_mod_to_equations. lia.
Qed.

Lemma timedelta_gtb_one_hour (a b : datetime) :
  timedelta_gtb (datetime_sub a b) OAuth2Handler.one_hour
  = (hour_us <? timestamp a - timestamp b).
Proof.
  rewrite <- total_microseconds_sub.
  unfold timedelta_gtb, timedelta_fields, total_microseconds, datetime_sub,
    OAuth2Handler.one_hour, hour_us.
  cbn [days seconds microseconds _cmp].
  set (us := microsecond a - microsecond b).
  set (s := second a + minute a * 60 + hour a * 3600
            - (second b + minute b * 60 + hour b * 3600) + us / 1000000).
  set (d := toordinal (dt_date a) - toordinal (dt_date b) + s / 86400).
  pose proof (Z.mod_pos_bound s 86400 ltac:(lia)).
  pose proof (Z.mod_pos_bound us 1000000 ltac:(lia)).
  destruct (Z.compare_spec d 0); cbn [is_gt];
    [destruct (Z.compare_spec (s mod 86400) 3600); cbn [is_gt];
       [destruct (Z.compare_spec (us mod 1000000) 0); cbn [is_gt]| |]| |];
    symmetry; first [apply Z.ltb_lt; lia | apply Z.ltb_ge; lia].
Qed.

End TokenAge.

(** ** [get_access_token] *)

Section GetAccessToken.

Variable L : Lib.

Lemma load_tokens_world (w : World) :
  snd (TokenStorage.load_tokens L w) = w.
Proof.
  unfold TokenStorage.load_tokens, try_except_Exception, bindM, lift, ret.
  destruct (token_file w) as [[blob|e]|]; [|destruct (is_Exception e)|];
    try reflexivity.
  destruct (fernet_decrypt L (fernet_key w) blob) as [p|e];
    [|destruct (is_Exception e); reflexivity].
  destruct (decode L p) as [t|e]; [|destruct (is_Exception e); reflexivity].
  destruct (json_loads L t) as [v|e]; [|destruct (is_Exception e)]; reflexivity.
Qed.

Lemma load_tokens_eq (w : World) (v : pyval) :
  fst (TokenStorage.load_tokens L w) = Return v ->
  TokenStorage.load_tokens L w = (Return v, w).
Proof.
  intros H. pose proof (load_tokens_world w) as Hw.
  destruct (TokenStorage.load_tokens L w) as [r w']. cbn in H, Hw.
  now subst.
Qed.

Lemma save_tokens_requests (tokens : pyval) (w : World) :
  refresh_requests (snd (TokenStorage.save_tokens L tokens w))
  = refresh_requests w.
Proof.
  unfold TokenStorage.save_tokens, bindM, TokenStorage.now, lift, ret, raise,
    TokenStorage.write_token_file.
  destruct tokens; try reflexivity.
  destruct (json_dumps L _); reflexivity.
Qed.

Lemma refresh_token_requests (rt : pyval) (w : World) :
  refresh_requests (snd (OAuth2Handler.refresh_token L rt w))
  = (refresh_requests w ++ [rt])%list.
Proof.
  unfold OAuth2Handler.refresh_token, bindM.
  destruct (token_endpoint L rt); [|reflexivity].
  now rewrite save_tokens_requests.
Qed.

Lemma truthy_dict_with_key (d : gmap string pyval) (k : string) (v : pyval) :
  d !! k = Some v -> truthy (PDict d) = true.
Proof.
  intros H. cbn. destruct (Nat.eqb_spec (size d) 0) as [E|E]; [|reflexivity].
  apply map_size_empty_inv in E. subst d. now rewrite lookup_empty in H.
Qed.

Lemma get_access_token_dated (w : World) (d : gmap string pyval)
    (saved_at : datetime) :
  fst (TokenStorage.load_tokens L w) = Return (PDict d) ->
  truthy (PDict d) = true ->
  match default (PStr (isoformat L (clock L (clock_reads w)))) (d !! "saved_at")
  with
  | PStr s => fromisoformat L s
  | _ => Raise (TypeError "fromisoformat: argument must be str")
  end = Return saved_at ->
  OAuth2Handler.get_access_token L w
  = if hour_us <? timestamp (clock L (S (clock_reads w))) - timestamp saved_at
    then
      match d !! "refresh_token" with
      | Some rt =>
          match OAuth2Handler.refresh_token L rt (after_two_reads w) with
          | (Return (PDict d'), w') =>
              (Return (OAuth2Handler.dict_get d' "access_token"), w')
          | (Return _, w') =>
              (Raise (AttributeError "object has no attribute get"), w')
          | (Raise e, w') =>
              if is_Exception e then (Return PNone, w') else (Raise e, w')
          end
      | None => (Return PNone, after_two_reads w)
      end
    else (Return (OAuth2Handler.dict_get d "access_token"), after_two_reads w).
Proof.
  intros Hload Htruthy Hsaved. apply load_tokens_eq in Hload.
  unfold OAuth2Handler.get_access_token, bindM at 1. rewrite Hload.
  rewrite Htruthy. cbn [negb].
  unfold bindM at 1. unfold TokenStorage.now at 1. cbn [clock_reads].
  unfold bindM at 1. cbn [token_file fernet_key clock_reads refresh_requests].
  unfold lift, raise.
  destruct (default _ _) as [| | |s| |]; try discriminate Hsaved.
  rewrite Hsaved.
  unfold bindM at 1. unfold TokenStorage.now at 1. cbn [clock_reads].
  rewrite timedelta_gtb_one_hour.
  cbn [token_file fernet_key clock_reads refresh_requests].
  fold (after_two_reads w).
  destruct (hour_us <? _); [|reflexivity].
  destruct (d !! "refresh_token") as [rt|]; [|reflexivity].
  unfold bindM, try_except_Exception, ret.
  destruct (OAuth2Handler.refresh_token L rt (after_two_reads w)) as [[t|e] w'].
  - destruct t; reflexivity.
  - destruct (is_Exception e); reflexivity.
Qed.

Lemma get_access_token_falsy (w : World) (v : pyval) :
  fst (TokenStorage.load_tokens L w) = Return v ->
  truthy v = false ->
  OAuth2Handler.get_access_token L w = (Return PNone, w).
Proof.
  intros Hload Hfalsy. apply load_tokens_eq in Hload.
  unfold OAuth2Handler.get_access_token, bindM at 1.
  rewrite Hload, Hfalsy. reflexivity.
Qed.

End GetAccessToken.


(** C1, amended.  A stored record whose age, at the reading of the clock
    that is compared, is at most one hour is answered from the cache: the
    stored access token comes back and no refresh request is sent.  A
    record older than one hour that holds a refresh token sends exactly
    one refresh request with it; one that holds none gives no token and
    sends nothing.  At exactly one hour the cache answers. *)
Theorem get_access_token_one_hour_threshold
    (L : Lib) (w : World) (d : gmap string pyval) (s : string)
    (saved_at : datetime) :
  fst (TokenStorage.load_tokens L w) = Return (PDict d) ->
  d !! "saved_at" = Some (PStr s) ->
  fromisoformat L s = Return saved_at ->
  let age := timestamp (clock L (S (clock_reads w))) - timestamp saved_at in
  (age <= hour_us ->
     exists w',
       OAuth2Handler.get_access_token L w
         = (Return (OAuth2Handler.dict_get d "access_token"), w')
       /\ refresh_requests w' = refresh_requests w)
  /\ (hour_us < age ->
      forall rt, d !! "refresh_token" = Some rt ->
      exists r w',
        OAuth2Handler.get_access_token L w = (r, w')
        /\ refresh_requests w' = (refresh_requests w ++ [rt])%list)
  /\ (hour_us < age -> d !! "refresh_token" = None ->
      exists w',
        OAuth2Handler.get_access_token L w = (Return PNone, w')
        /\ refresh_requests w' = refresh_requests w).
Proof.
  intros Hload Hkey Hiso age.
  pose proof (get_access_token_dated L w d saved_at Hload
                (truthy_dict_with_key _ _ _ Hkey)) as Heq.
  rewrite Hkey in Heq. cbn [default from_option Datatypes.id] in Heq.
  specialize (Heq Hiso). fold age in Heq.
  split; [|split].
  - intros Hage. destruct (Z.ltb_spec hour_us age); [lia|].
    eexists. split; [exact Heq | reflexivity].
  - intros Hage rt Hrt. destruct (Z.ltb_spec hour_us age); [|lia].
    rewrite Hrt in Heq.
    pose proof (refresh_token_requests L rt (after_two_reads w)) as Hreq.
    destruct (OAuth2Handler.refresh_token L rt (after_two_reads w))
      as [[t|e] w'].
    + destruct t; eexists _, _; (split; [exact Heq | exact Hreq]).
    + destruct (is_Exception e); eexists _, _;
        (split; [exact Heq | exact Hreq]).
  - intros Hage Hrt. destruct (Z.ltb_spec hour_us age); [|lia].
    rewrite Hrt in Heq. eexists. split; [exact Heq | reflexivity].
Qed.

(** The clock reads 10:59 and then 11:00:00.000001: the record saved at
    10:00:00 is one microsecond over the hour, and is refreshed. *)
Lemma get_access_token_one_hour_threshold_witness :
  let L := Standin.lib [Standin.at_ 10 59 0 0; Standin.at_ 11 0 0 1]
             Standin.endpoint in
  exists r w',
    OAuth2Handler.get_access_token L Standin.sample_world = (r, w')
    /\ refresh_requests w' = [PStr "R1"].
Proof.
  intros L.
  destruct (get_access_token_one_hour_threshold L Standin.sample_world
              Standin.sample_record "2024-01-31T10:00:00"
              (Standin.at_ 10 0 0 0))
    as (_ & Hold & _).
  - vm_compute; reflexivity.
  - vm_compute; reflexivity.
  - vm_compute; reflexivity.
  - apply (Hold ltac:(vm_compute; reflexivity) (PStr "R1")).
    vm_compute; reflexivity.
Defined.

(** The scenario of the specification: at 59 minutes the cache answers
    "A1" and nothing is sent; at 61 minutes the endpoint is asked once, "A2"
    comes back and the store holds it. *)
Example get_access_token_scenario :
  let young := Standin.lib [Standin.at_ 10 59 0 0; Standin.at_ 10 59 0 0]
                 Standin.endpoint in
  let old := Standin.lib [Standin.at_ 11 1 0 0; Standin.at_ 11 1 0 0;
                          Standin.at_ 11 1 0 0] Standin.endpoint in
  let after := snd (OAuth2Handler.get_access_token old Standin.sample_world) in
  fst (OAuth2Handler.get_access_token young Standin.sample_world)
    = Return (PStr "A1")
  /\ refresh_requests
       (snd (OAuth2Handler.get_access_token young Standin.sample_world)) = []
  /\ fst (OAuth2Handler.get_access_token old Standin.sample_world)
     = Return (PStr "A2")
  /\ refresh_requests after = [PStr "R1"]
  /\ fst (OAuth2Handler.get_access_token young after) = Return (PStr "A2").
Proof. vm_compute. repeat split. Qed.

(** C1 as written fails at exactly one hour: the record saved at 10:00:00
    and read at 11:00:00 is served from the cache, and no refresh request
    is sent. *)
Lemma no_refresh_at_exactly_one_hour : ~ AsStated.token_threshold.
Proof.
  intros H.
  pose (L := Standin.lib [Standin.at_ 10 59 0 0; Standin.at_ 11 0 0 0]
               Standin.endpoint).
  destruct (H L Standin.sample_world Standin.sample_record
              "2024-01-31T10:00:00" (Standin.at_ 10 0 0 0) (PStr "R1"))
    as [_ Hold].
  - vm_compute; reflexivity.
  - vm_compute; reflexivity.
  - vm_compute; reflexivity.
  - vm_compute; reflexivity.
  - destruct Hold as (r & w' & Heq & Hreq); [vm_compute; discriminate|].
    vm_compute in Heq. injection Heq as _ <-.
    vm_compute in Hreq. discriminate Hreq.
Qed.

(** C9.  A record without [saved_at] is dated by the clock itself: as long
    as the two readings of the clock that the call makes are at most an
    hour apart, the stored access token comes back, no refresh request is
    sent and the token file is left alone, however old the file is. *)
Theorem get_access_token_without_saved_at
    (L : Lib) (w : World) (d : gmap string pyval) :
  fst (TokenStorage.load_tokens L w) = Return (PDict d) ->
  d !! "saved_at" = None ->
  let first := clock L (clock_reads w) in
  let current := clock L (S (clock_reads w)) in
  fromisoformat L (isoformat L first) = Return first ->
  timestamp current - timestamp first <= hour_us ->
  exists w',
    OAuth2Handler.get_access_token L w
      = (Return (OAuth2Handler.dict_get d "access_token"), w')
    /\ refresh_requests w' = refresh_requests w
    /\ token_file w' = token_file w.
Proof.
  intros Hload Hkey first current Hiso Hage.
  destruct (truthy (PDict d)) eqn:Htruthy.
  - pose proof (get_access_token_dated L w d first Hload Htruthy) as Heq.
    rewrite Hkey in Heq. cbn [default from_option Datatypes.id] in Heq.
    specialize (Heq Hiso). fold current in Heq.
    destruct (Z.ltb_spec hour_us (timestamp current - timestamp first));
      [lia|].
    eexists. split; [exact Heq | split; reflexivity].
  - (* the empty record is falsy: [None] is returned at once *)
    exists w. rewrite (get_access_token_falsy L w (PDict d) Hload Htruthy).
    cbn [truthy] in Htruthy. apply negb_false_iff, Nat.eqb_eq in Htruthy.
    apply map_size_empty_inv in Htruthy. subst d.
    unfold OAuth2Handler.dict_get. rewrite lookup_empty.
    repeat split; reflexivity.
Qed.

Lemma get_access_token_without_saved_at_witness :
  let L := Standin.lib
             [mk_datetime (mk_date 2030 6 1) 12 0 0 5;
              mk_datetime (mk_date 2030 6 1) 12 0 0 9] Standin.endpoint in
  exists w',
    OAuth2Handler.get_access_token L Standin.undated_world
      = (Return (PStr "A1"), w')
    /\ refresh_requests w' = []
    /\ token_file w' = token_file Standin.undated_world.
Proof.
  intros L.
  apply (get_access_token_without_saved_at L Standin.undated_world
           Standin.undated_record).
  - vm_compute; reflexivity.
  - vm_compute; reflexivity.
  - vm_compute; reflexivity.
  - vm_compute; discriminate.
Defined.

(** ** [load_tokens] *)

Section LoadTokens.

Variable L : Lib.

Lemma load_tokens_read_and_parse (w : World) :
  TokenStorage.load_tokens L w
  = match token_file w with
    | None => (Return PNone, w)
    | Some content =>
        match read_and_parse L (fernet_key w) content with
        | Return v => (Return v, w)
        | Raise e => if is_Exception e then (Return PNone, w) else (Raise e, w)
        end
    end.
Proof.
  unfold TokenStorage.load_tokens, try_except_Exception, bindM, lift, ret,
    read_and_parse.
  destruct (token_file w) as [[blob|e]|]; try reflexivity.
  cbn [bind].
  destruct (fernet_decrypt L (fernet_key w) blob) as [p|e]; [|reflexivity].
  cbn [bind]. destruct (decode L p) as [t|e]; [|reflexivity].
  cbn [bind]. destruct (json_loads L t); reflexivity.
Qed.

(** C7.  Whatever the token file holds, [load_tokens] returns and leaves
    the world as it was; when reading, decrypting, decoding or parsing the
    file fails it returns [None], and so it does on a file written under
    another key, which the cipher rejects.  The failures are [Exception]s,
    as those of the libraries are. *)
Theorem load_tokens_fails_soft (w : World) :
  (forall content, token_file w = Some content ->
     only_Exception (read_and_parse L (fernet_key w) content)) ->
  (exists v, TokenStorage.load_tokens L w = (Return v, w))
  /\ (forall content, token_file w = Some content ->
        raises (read_and_parse L (fernet_key w) content) = true ->
        TokenStorage.load_tokens L w = (Return PNone, w))
  /\ (forall key' data,
        token_file w = Some (Return (fernet_encrypt L key' data)) ->
        raises (fernet_decrypt L (fernet_key w) (fernet_encrypt L key' data))
          = true ->
        TokenStorage.load_tokens L w = (Return PNone, w)).
Proof.
  intros Hexn. rewrite load_tokens_read_and_parse.
  assert (Hsoft : forall content, token_file w = Some content ->
            raises (read_and_parse L (fernet_key w) content) = true ->
            match read_and_parse L (fernet_key w) content with
            | Return v => (Return v, w)
            | Raise e =>
                if is_Exception e then (Return PNone, w) else (Raise e, w)
            end = (Return PNone, w)).
  { intros content Hfile Hraise. specialize (Hexn content Hfile).
    destruct (read_and_parse L (fernet_key w) content) as [v|e];
      [discriminate Hraise|].
    now rewrite (Hexn e eq_refl). }
  split; [|split].
  - destruct (token_file w) as [content|] eqn:Hfile; [|eauto].
    specialize (Hexn content eq_refl).
    destruct (read_and_parse L (fernet_key w) content) as [v|e]; [eauto|].
    rewrite (Hexn e eq_refl). eauto.
  - intros content Hfile Hraise. rewrite Hfile. now apply Hsoft.
  - intros key' data Hfile Hraise. rewrite Hfile. apply Hsoft; [exact Hfile|].
    unfold read_and_parse. cbn [bind].
    destruct (fernet_decrypt L (fernet_key w) (fernet_encrypt L key' data));
      [discriminate Hraise | reflexivity].
Qed.

End LoadTokens.

(** The key file is regenerated between save and load: the file written
    under the old key is rejected, and [load_tokens] returns [None]. *)
Lemma load_tokens_fails_soft_witness :
  let L := Standin.lib [] Standin.endpoint in
  let w := mk_World
             (Standin.stored [Byte.x01] "access_token=A1;refresh_token=R1;")
             [Byte.x02] 0 [] in
  (exists v, TokenStorage.load_tokens L w = (Return v, w))
  /\ TokenStorage.load_tokens L w = (Return PNone, w).
Proof.
  intros L w.
  assert (Hexn : forall content, token_file w = Some content ->
            only_Exception (read_and_parse L (fernet_key w) content)).
  { intros content [= <-] e He. vm_compute in He.
    injection He as <-. reflexivity. }
  destruct (load_tokens_fails_soft L w Hexn) as (Hreturns & _ & Hkey).
  split; [exact Hreturns|].
  apply (Hkey [Byte.x01]
           (list_byte_of_string "access_token=A1;refresh_token=R1;")).
  - reflexivity.
  - vm_compute; reflexivity.
Defined.

(** The round trip, and a file that is not a record. *)
Example load_tokens_samples :
  let L := Standin.lib [] Standin.endpoint in
  fst (TokenStorage.load_tokens L Standin.undated_world)
    = Return (PDict Standin.undated_record)
  /\ fst (TokenStorage.load_tokens L
            (mk_World (Standin.stored Standin.sample_key "garbage")
               Standin.sample_key 0 []))
     = Return PNone
  /\ fst (TokenStorage.load_tokens L
            (mk_World None Standin.sample_key 0 []))
     = Return PNone
  /\ fst (TokenStorage.load_tokens L
            (mk_World (Some (Raise (LibError "OSError" "unreadable")))
               Standin.sample_key 0 []))
     = Return PNone.
Proof. vm_compute. repeat split. Qed.

(** ** The wait for the browser redirect *)

Section WaitForAuthorization.
Import OAuth2Handler.

Lemma _handle_callback_keeps_listener (r : Request) (st : State) :
  port_bound (fst (_handle_callback r st)) = port_bound st
  /\ _server (fst (_handle_callback r st)) = _server st.
Proof.
  unfold _handle_callback.
  destruct (nonempty (q_error r)); [split; reflexivity|].
  destruct (nonempty (q_code r)); split; reflexivity.
Qed.

Lemma sleep_keeps_listener (E : Loop) (st : State) :
  port_bound (sleep E st) = port_bound st /\ _server (sleep E st) = _server st.
Proof.
  unfold sleep. cbn [port_bound _server].
  generalize (arrivals E (sleeps st)). intros l. revert st.
  induction l as [|r l IH]; intros st; cbn [fold_left]; [split; reflexivity|].
  destruct (IH (fst (_handle_callback r st))) as [H1 H2].
  destruct (_handle_callback_keeps_listener r st) as [H3 H4].
  split; congruence.
Qed.

Lemma wait_loop_keeps_listener (E : Loop) (timeout start_time : Z)
    (fuel : nat) (st : State) (r : result unit) (st' : State) :
  wait_loop E timeout start_time fuel st = Some (r, st') ->
  port_bound st' = port_bound st /\ _server st' = _server st.
Proof.
  revert st. induction fuel as [|fuel IH]; intros st; cbn [wait_loop].
  - destruct (_ && _); [discriminate|].
    intros [= <- <-]. split; reflexivity.
  - destruct (_ && _).
    + unfold read_time. cbn [fst snd].
      destruct (_ <? _).
      * intros [= <- <-]. split; reflexivity.
      * intros H. apply IH in H. destruct H as [H1 H2].
        match type of H1 with
        | _ = port_bound (sleep E ?s) =>
            destruct (sleep_keeps_listener E s) as [H3 H4]
        end.
        cbn [port_bound _server] in *. split; congruence.
    + intros [= <- <-]. split; reflexivity.
Qed.

Lemma wait_loop_raises_timeout_only (E : Loop) (timeout start_time : Z)
    (fuel : nat) (st : State) (e : exn) (st' : State) :
  wait_loop E timeout start_time fuel st = Some (Raise e, st') ->
  e = TimeoutError "Authorization timeout".
Proof.
  revert st. induction fuel as [|fuel IH]; intros st; cbn [wait_loop].
  - destruct (_ && _); discriminate.
  - destruct (_ && _); [|discriminate].
    unfold read_time. destruct (_ <? _); [now intros [= <- <-] | apply IH].
Qed.

(** Which exits release the port: a returned code and a provider error do,
    the timeout does not. *)
Lemma wait_for_authorization_listener (E : Loop) (timeout : Z) (fuel : nat)
    (st : State) (r : result (option string)) (st' : State) :
  port_bound st = false ->
  wait_for_authorization E timeout fuel st = Some (r, st') ->
  match r with
  | Return _ => port_bound st' = false
  | Raise (TimeoutError _) => port_bound st' = true
  | Raise _ => port_bound st' = false
  end.
Proof.
  intros Hfree. unfold wait_for_authorization, _run_server. rewrite Hfree.
  unfold read_time, open_browser. cbn [time_reads _server _auth_code _auth_error port_bound sleeps browser_opened].
  destruct (wait_loop _ _ _ _ _) as [[[[]|e] st1]|] eqn:Hloop; [| |discriminate].
  - apply wait_loop_keeps_listener in Hloop as [_ Hs].
    cbn [_server] in Hs. rewrite Hs. unfold cleanup. cbn [_auth_error].
    destruct (nonempty (_auth_error st1)); intros [= <- <-]; reflexivity.
  - pose proof (wait_loop_raises_timeout_only _ _ _ _ _ _ _ Hloop) as ->.
    apply wait_loop_keeps_listener in Hloop as [Hp _].
    intros [= <- <-]. exact Hp.
Qed.


Lemma sleep_time_reads (E : Loop) (st : State) :
  time_reads (sleep E st) = time_reads st.
Proof.
  unfold sleep. cbn [time_reads].
  generalize (arrivals E (sleeps st)). intros l. revert st.
  induction l as [|r l IH]; intros st; cbn [fold_left]; [reflexivity|].
  rewrite IH. unfold _handle_callback.
  destruct (nonempty (q_error r)); [reflexivity|].
  destruct (nonempty (q_code r)); reflexivity.
Qed.

Lemma wait_loop_step (E : Loop) (timeout start_time : Z) (fuel : nat)
    (st : State) :
  wait_loop E timeout start_time (S fuel) st
  = if is_None (_auth_code st) && is_None (_auth_error st) then
      if timeout <? loop_time E (time_reads st) - start_time then
        Some (Raise (TimeoutError "Authorization timeout"),
              snd (read_time E st))
      else wait_loop E timeout start_time fuel
             (sleep E (snd (read_time E st)))
    else Some (Return tt, st).
Proof. reflexivity. Qed.

(** The polling loop ends once the clock is past the timeout: if the
    reading [n] readings from now exceeds it, [S n] iterations suffice. *)
Lemma wait_loop_ends (E : Loop) (timeout start_time : Z) (n : nat)
    (st : State) :
  timeout < loop_time E (time_reads st + n) - start_time ->
  exists res, wait_loop E timeout start_time (S n) st = Some res.
Proof.
  revert st. induction n as [|n IH]; intros st Hlate; rewrite wait_loop_step.
  - destruct (_ && _); [|eauto].
    rewrite Nat.add_0_r in Hlate.
    destruct (Z.ltb_spec timeout (loop_time E (time_reads st) - start_time));
      [eauto | lia].
  - destruct (_ && _); [|eauto].
    destruct (Z.ltb_spec timeout (loop_time E (time_reads st) - start_time));
      [eauto|].
    apply IH. rewrite sleep_time_reads. cbn [read_time snd time_reads].
    now replace (S (time_reads st) + n)%nat with (time_reads st + S n)%nat
      by lia.
Qed.

Lemma sleep_silent (E : Loop) (st : State) :
  arrivals E (sleeps st) = [] ->
  _auth_code (sleep E st) = _auth_code st
  /\ _auth_error (sleep E st) = _auth_error st.
Proof. intros H. unfold sleep. rewrite H. split; reflexivity. Qed.

Lemma wait_loop_silent (E : Loop) (timeout start_time : Z) (fuel : nat)
    (st : State) (r : result unit) (st' : State) :
  (forall k, arrivals E k = []) ->
  _auth_code st = None -> _auth_error st = None ->
  wait_loop E timeout start_time fuel st = Some (r, st') ->
  r = Raise (TimeoutError "Authorization timeout").
Proof.
  intros Hsilent. revert st.
  induction fuel as [|fuel IH]; intros st Hcode Herror.
  - cbn [wait_loop]. rewrite Hcode, Herror. discriminate.
  - rewrite wait_loop_step, Hcode, Herror. cbn [is_None andb].
    destruct (_ <? _); [now intros [= <- <-]|].
    apply IH.
    + now rewrite (proj1 (sleep_silent E _ (Hsilent _))).
    + now rewrite (proj2 (sleep_silent E _ (Hsilent _))).
Qed.

(** On a fresh handler, whenever no request arrives and the clock passes
    the timeout, the operation raises [TimeoutError] with the port still
    bound. *)
Lemma wait_for_authorization_times_out (E : Loop) (timeout : Z) (n : nat)
    (st : State) :
  port_bound st = false ->
  _auth_code st = None -> _auth_error st = None ->
  (forall k, arrivals E k = []) ->
  timeout < loop_time E (S (time_reads st) + n) - loop_time E (time_reads st) ->
  exists st',
    wait_for_authorization E timeout (S n) st
      = Some (Raise (TimeoutError "Authorization timeout"), st')
    /\ port_bound st' = true.
Proof.
  intros Hfree Hcode Herror Hsilent Hlate.
  destruct (wait_for_authorization E timeout (S n) st) as [[r st']|] eqn:Hrun.
  - pose proof (wait_for_authorization_listener _ _ _ _ _ _ Hfree Hrun) as Hl.
    revert Hrun. unfold wait_for_authorization, _run_server. rewrite Hfree.
    unfold read_time, open_browser.
    cbn [time_reads _server _auth_code _auth_error port_bound sleeps
         browser_opened].
    destruct (wait_loop _ _ _ _ _) as [[r1 st1]|] eqn:Hloop; [|discriminate].
    apply wait_loop_silent in Hloop; [|assumption..]. subst r1.
    intros [= <- <-]. eauto.
  - exfalso. revert Hrun.
    unfold wait_for_authorization, _run_server. rewrite Hfree.
    unfold read_time, open_browser.
    cbn [time_reads _server _auth_code _auth_error port_bound sleeps
         browser_opened].
    match goal with
    | |- context [wait_loop E timeout ?t (S n) ?s] =>
        destruct (wait_loop_ends E timeout t n s) as [[r1 st1] Hres];
          [exact Hlate | rewrite Hres]
    end.
    destruct r1; [destruct (nonempty _)|]; discriminate.
Qed.

(** C2.  With no redirect within a timeout of one second, on a clock that
    advances 100 ms per reading, [wait_for_authorization] raises
    [TimeoutError] and leaves the port bound: the listener is not stopped
    on that exit, and while it lives a further call cannot bind the port. *)
Theorem wait_for_authorization_timeout_keeps_port :
  exists st',
    wait_for_authorization Standin.silent 1000 20 Standin.idle
      = Some (Raise (TimeoutError "Authorization timeout"), st')
    /\ port_bound st' = true
    /\ wait_for_authorization Standin.silent 1000 20 st'
       = Some (Raise (LibError "OSError" "address already in use"), st').
Proof. eexists. vm_compute. repeat split. Qed.

(** The two other exits do stop the listener. *)
Example wait_for_authorization_success :
  exists st',
    wait_for_authorization
      (Standin.loop_with [(3%nat, mk_Request (Some "abc") None)]) 1000 20
      Standin.idle
      = Some (Return (Some "abc"), st')
    /\ port_bound st' = false.
Proof. eexists. vm_compute. split; reflexivity. Qed.

Example wait_for_authorization_provider_error :
  exists st',
    wait_for_authorization
      (Standin.loop_with [(2%nat, mk_Request None (Some "access_denied"))])
      1000 20 Standin.idle
      = Some (Raise (Exception "Authorization error: access_denied"), st')
    /\ port_bound st' = false.
Proof. eexists. vm_compute. split; reflexivity. Qed.

End WaitForAuthorization.

(** * Further properties *)

Import OAuth2Handler Props.

(** ** More on the date phrases *)

Section MoreDatePhrases.

Variable P : string -> result datetime.

Lemma lower_char_idempotent (c : ascii) :
  Str.lower_char (Str.lower_char c) = Str.lower_char c.
Proof. destruct c as [[] [] [] [] [] [] [] []]; reflexivity. Qed.

Lemma is_space_lower_char (c : ascii) :
  Str.is_space (Str.lower_char c) = Str.is_space c.
Proof. destruct c as [[] [] [] [] [] [] [] []]; reflexivity. Qed.

Lemma lower_idempotent (s : string) : Str.lower (Str.lower s) = Str.lower s.
Proof.
  induction s as [|c s IH]; cbn; [reflexivity|].
  now rewrite lower_char_idempotent, IH.
Qed.

Lemma lower_lstrip (s : string) :
  Str.lower (Str.lstrip s) = Str.lstrip (Str.lower s).
Proof.
  induction s as [|c s IH]; cbn [Str.lower Str.lstrip]; [reflexivity|].
  rewrite is_space_lower_char. destruct (Str.is_space c); [exact IH|].
  reflexivity.
Qed.

Lemma lower_rstrip (s : string) :
  Str.lower (Str.rstrip s) = Str.rstrip (Str.lower s).
Proof.
  induction s as [|c s IH]; cbn [Str.lower Str.rstrip]; [reflexivity|].
  rewrite <- IH, is_space_lower_char.
  destruct (Str.rstrip s); cbn [Str.lower]; [|reflexivity].
  destruct (Str.is_space c); reflexivity.
Qed.

Lemma rstrip_idempotent (s : string) :
  Str.rstrip (Str.rstrip s) = Str.rstrip s.
Proof.
  induction s as [|c s IH]; cbn [Str.rstrip]; [reflexivity|].
  destruct (Str.rstrip s) as [|a r] eqn:E.
  - destruct (Str.is_space c) eqn:Ec; cbn [Str.rstrip]; [reflexivity|].
    now rewrite Ec.
  - cbn [Str.rstrip] in *. now rewrite IH.
Qed.

Lemma lstrip_rstrip_lstrip (s : string) :
  Str.lstrip (Str.rstrip (Str.lstrip s)) = Str.rstrip (Str.lstrip s).
Proof.
  induction s as [|c s IH]; cbn [Str.lstrip Str.rstrip]; [reflexivity|].
  destruct (Str.is_space c) eqn:Ec; [exact IH|].
  cbn [Str.rstrip]. destruct (Str.rstrip s); rewrite ?Ec; cbn [Str.lstrip];
    now rewrite Ec.
Qed.

Lemma strip_lower_idempotent (s : string) :
  Str.strip (Str.lower (Str.strip (Str.lower s))) = Str.strip (Str.lower s).
Proof.
  unfold Str.strip.
  rewrite lower_rstrip, lower_lstrip, lower_idempotent.
  now rewrite lstrip_rstrip_lstrip, rstrip_idempotent.
Qed.

(** X1.  [_parse_date] does not see letter case or surrounding white
    space: a phrase parses as its lower-case, stripped form does. *)
Theorem _parse_date_normalizes (now : datetime) (s : string) :
  TaskManager._parse_date P now s
  = TaskManager._parse_date P now (Str.strip (Str.lower s)).
Proof.
  unfold TaskManager._parse_date. now rewrite strip_lower_idempotent.
Qed.

Lemma _parse_date_keywords (now : datetime) :
  TaskManager._parse_date P now "today"
    = replace now TaskManager.end_of_day
  /\ TaskManager._parse_date P now "tomorrow"
     = TaskManager.shifted_end_of_day now 0 1
  /\ TaskManager._parse_date P now "yesterday"
     = TaskManager.shifted_end_of_day now 0 (-1)
  /\ TaskManager._parse_date P now "next week"
     = TaskManager.shifted_end_of_day now 1 0.
Proof. repeat split; reflexivity. Qed.

(** X2.  The keywords: "today" is the current date at 23:59:59, and
    "tomorrow", "yesterday" and "next week" are the days 1 after, 1 before
    and 7 after it at 23:59:59, as far as the calendar reaches.  The
    microsecond of the current time is kept. *)
Theorem keyword_phrases (now : datetime) :
  valid_datetime now ->
  TaskManager._parse_date P now "today"
    = Return (mk_datetime (dt_date now) 23 59 59 (microsecond now))
  /\ (toordinal (dt_date now) + 1 <= _MAXORDINAL ->
      TaskManager._parse_date P now "tomorrow"
      = Return (end_of_day_after now 1))
  /\ (2 <= toordinal (dt_date now) ->
      TaskManager._parse_date P now "yesterday"
      = Return (end_of_day_after now (-1)))
  /\ (toordinal (dt_date now) + 7 <= _MAXORDINAL ->
      TaskManager._parse_date P now "next week"
      = Return (end_of_day_after now 7)).
Proof.
  intros Hv. pose proof (toordinal_bounds _ (proj1 Hv)) as Hb.
  destruct (_parse_date_keywords now) as (-> & -> & -> & ->).
  unfold end_of_day_after.
  split; [apply replace_end_of_day; apply Hv|].
  repeat split; intros H; rewrite shifted_end_of_day_ok by (assumption || lia);
    reflexivity.
Qed.

Lemma append_String (c : ascii) (s t : string) :
  String c s ++ t = String c (s ++ t).
Proof. reflexivity. Qed.

Lemma append_nil (t : string) : "" ++ t = t.
Proof. reflexivity. Qed.

Lemma prefix_empty (s : string) : String.prefix "" s = true.
Proof. destruct s; reflexivity. Qed.

Lemma first_alternative_unit (u tail : string) :
  In u ["day"; "week"; "month"] ->
  Str.first_alternative ["day"; "days"; "week"; "weeks"; "month"; "months"]
    (u ++ tail) = Some u.
Proof.
  intros Hu. cbn [In] in Hu. unfold Str.first_alternative.
  destruct Hu as [<-|[<-|[<-|[]]]];
    rewrite !append_String, append_nil; cbn [find];
    simpl String.prefix; rewrite prefix_empty; reflexivity.
Qed.

Lemma int_digits_nonneg (ds : string) (acc : Z) :
  0 <= acc -> 0 <= Str.int_digits acc ds.
Proof.
  revert acc. induction ds as [|c ds IH]; intros acc Hacc;
    cbn [Str.int_digits]; [exact Hacc|].
  apply IH. lia.
Qed.

Lemma int_nonneg (ds : string) : 0 <= Str.int ds.
Proof. apply int_digits_nonneg. lia. Qed.

Lemma span_digits_app (ds rest : string) :
  digits ds = true ->
  Str.span_digits (ds ++ String " " rest) = (ds, String " " rest).
Proof.
  induction ds as [|c ds IH]; cbn [digits].
  - reflexivity.
  - intros H. apply andb_true_iff in H as [Hc Hds].
    rewrite append_String. cbn [Str.span_digits].
    rewrite Hc, (IH Hds). reflexivity.
Qed.

Lemma in_pattern_amount (ds u tail : string) :
  In u ["day"; "week"; "month"] ->
  digits ds = true -> ds <> "" ->
  Str.in_pattern ("in " ++ ds ++ " " ++ u ++ tail) = Some (ds, u).
Proof.
  intros Hu Hds Hne. unfold Str.in_pattern.
  change (Str.drop_prefix "in " ("in " ++ ds ++ " " ++ u ++ tail))
    with (Some (ds ++ String " " (u ++ tail))).
  cbv beta iota. rewrite span_digits_app by assumption.
  destruct ds as [|c ds]; [contradiction|].
  cbn [Str.drop_prefix Ascii.eqb Bool.eqb].
  now rewrite first_alternative_unit.
Qed.

Lemma eqb_in_phrase (r k : string) :
  In k ["today"; "tomorrow"; "yesterday"; "next week"; "next month"] ->
  String.eqb ("in " ++ r) k = false.
Proof.
  intros H. cbn [In] in H.
  destruct H as [<-|[<-|[<-|[<-|[<-|[]]]]]]; reflexivity.
Qed.


Lemma timedelta_new_abs (w d : Z) (td : timedelta) :
  timedelta_new w d 0 = Return td -> td = mk_timedelta (d + w * 7) 0 0.
Proof.
  unfold timedelta_new. cbv zeta.
  change ((0 * 3600) / 86400) with 0. change ((0 * 3600) mod 86400) with 0.
  replace (d + w * 7 + 0) with (d + w * 7) by lia.
  destruct (_ <? _); [discriminate | now intros [= <-]].
Qed.

Lemma datetime_add_overflow (t : datetime) (k : Z) :
  valid_datetime t ->
  ~ 1 <= toordinal (dt_date t) + k <= _MAXORDINAL ->
  datetime_add t (mk_timedelta k 0 0)
  = Raise (OverflowError "date value out of range").
Proof.
  intros (Hd & Hh & Hm & Hs & Hus) Hk. unfold datetime_add.
  cbn [days seconds microseconds].
  replace (microsecond t + 0) with (microsecond t) by lia.
  rewrite (Z.div_small (microsecond t)) by lia.
  set (s := hour t * 3600 + minute t * 60 + second t + 0 + 0).
  assert (Hs' : 0 <= s < 86400) by (unfold s; lia).
  rewrite (Z.div_small s) by lia.
  replace (toordinal (dt_date t) + k + 0) with (toordinal (dt_date t) + k)
    by lia.
  destruct (Z.ltb_spec 0 (toordinal (dt_date t) + k));
    destruct (Z.leb_spec (toordinal (dt_date t) + k) _MAXORDINAL);
    cbn [andb]; try reflexivity; lia.
Qed.

Lemma shifted_end_of_day_overflow (now : datetime) (w d : Z) :
  valid_datetime now ->
  ~ 1 <= toordinal (dt_date now) + (d + w * 7) <= _MAXORDINAL ->
  exists msg,
    TaskManager.shifted_end_of_day now w d = Raise (OverflowError msg).
Proof.
  intros Hv Hk. unfold TaskManager.shifted_end_of_day.
  destruct (timedelta_new w d 0) as [td|e] eqn:Etd.
  - apply timedelta_new_abs in Etd as ->. cbn [bind].
    rewrite datetime_add_overflow by assumption. cbn [bind]. eauto.
  - revert Etd. unfold timedelta_new. cbv zeta.
    destruct (_ <? _); [intros [= <-]; cbn [bind]; eauto | discriminate].
Qed.


Lemma unmatched_parse (now : datetime) (s : string) :
  unmatched (Str.strip (Str.lower s)) ->
  TaskManager._parse_date P now s
  = TaskManager.try_except_all
      (let* parsed := P (Str.strip (Str.lower s)) in
       if (hour parsed =? 0) && (minute parsed =? 0)
       then replace parsed TaskManager.end_of_day
       else Return parsed)
      (ValueError ("Could not parse date: " ++ Str.strip (Str.lower s))).
Proof.
  intros (H1 & H2 & H3 & H4 & H5 & H6 & H7).
  unfold TaskManager._parse_date. cbv zeta.
  rewrite H1, H2, H3, H4, H5, H6, H7. reflexivity.
Qed.


(** X6.  "next month" in December is the same day of January of the
    following year at 23:59:59, for every day of December; in December
    of the last year of the calendar it raises [ValueError]. *)
Theorem next_month_in_december (now : datetime) :
  valid_datetime now ->
  month (dt_date now) = 12 ->
  (year (dt_date now) < MAXYEAR ->
   TaskManager._parse_date P now "next month"
   = Return (mk_datetime
               (mk_date (year (dt_date now) + 1) 1 (day (dt_date now)))
               23 59 59 (microsecond now)))
  /\ (year (dt_date now) = MAXYEAR ->
      exists msg,
        TaskManager._parse_date P now "next month"
        = Raise (ValueError msg)).
Proof.
  intros ((Hy & Hm & Hd) & Hh & Hmi & Hs & Hus) H12.
  rewrite _parse_date_next_month, H12. cbn [Z.eqb Pos.eqb].
  rewrite H12, _days_in_month_dec31 in Hd.
  unfold replace, datetime_new.
  cbn [default from_option Datatypes.id r_year r_month r_day r_hour r_minute
       r_second r_microsecond].
  unfold _check_date_fields, _check_time_fields. split.
  - intros Hlt.
    assert (E : _days_in_month (year (dt_date now) + 1) 1 = 31).
    { unfold _days_in_month. cbn [Z.eqb Pos.eqb andb]. reflexivity. }
    rewrite E, !between_true by (unfold MINYEAR, MAXYEAR in *; lia).
    reflexivity.
  - intros ->. eexists. reflexivity.
Qed.

End MoreDatePhrases.

Lemma keyword_phrases_witness :
  valid_datetime Standin.sample_now
  /\ TaskManager._parse_date Standin.date_parser_parse Standin.sample_now
       "tomorrow"
     = Return (end_of_day_after Standin.sample_now 1).
Proof.
  split; [apply sample_now_valid|].
  apply (keyword_phrases Standin.date_parser_parse Standin.sample_now
           sample_now_valid).
  vm_compute; discriminate.
Defined.


Example in_amount_samples :
  let parse s :=
    TaskManager._parse_date Standin.date_parser_parse Standin.sample_now s in
  parse "in 2 weeks" = Return (mk_datetime (mk_date 2024 2 14) 23 59 59 7)
  /\ parse "in 1 month" = Return (mk_datetime (mk_date 2024 3 1) 23 59 59 7)
  /\ parse "in 10 daystrom"
     = Return (mk_datetime (mk_date 2024 2 10) 23 59 59 7)
  /\ parse "in 0 days" = Return (mk_datetime (mk_date 2024 1 31) 23 59 59 7).
Proof. vm_compute. repeat split. Qed.

Lemma datetime_max_valid : valid_datetime datetime_max.
Proof. repeat split; vm_compute; discriminate. Qed.



Example standard_date_samples :
  let P (s : string) : result datetime :=
    if String.eqb s "noon" then
      Return (mk_datetime (mk_date 2024 2 3) 12 0 0 0)
    else if String.eqb s "half a minute" then
      Return (mk_datetime (mk_date 2024 2 3) 0 0 30 0)
    else Raise (BaseExn "KeyboardInterrupt") in
  TaskManager._parse_date P Standin.sample_now "Noon"
    = Return (mk_datetime (mk_date 2024 2 3) 12 0 0 0)
  /\ TaskManager._parse_date P Standin.sample_now "half a minute"
     = Return (mk_datetime (mk_date 2024 2 3) 23 59 59 0)
  /\ TaskManager._parse_date P Standin.sample_now " Soon"
     = Raise (ValueError "Could not parse date: soon").
Proof. vm_compute. repeat split. Qed.

Lemma next_month_in_december_witness :
  valid_datetime (mk_datetime (mk_date 2024 12 31) 8 0 0 0)
  /\ TaskManager._parse_date Standin.date_parser_parse
       (mk_datetime (mk_date 2024 12 31) 8 0 0 0) "next month"
     = Return (mk_datetime (mk_date 2025 1 31) 23 59 59 0).
Proof.
  assert (Hv : valid_datetime (mk_datetime (mk_date 2024 12 31) 8 0 0 0))
    by (repeat split; vm_compute; discriminate).
  split; [exact Hv|].
  apply (next_month_in_december Standin.date_parser_parse
           (mk_datetime (mk_date 2024 12 31) 8 0 0 0) Hv).
  - reflexivity.
  - reflexivity.
Defined.

(** ** More on the token store *)

Section MoreTokens.

Variable L : Lib.

Lemma save_tokens_dict (d : gmap string pyval) (w : World) (text : string) :
  json_dumps L (PDict (stamped L w d)) = Return text ->
  TokenStorage.save_tokens L (PDict d) w
  = (Return (PDict (stamped L w d)),
     mk_World (file_of L w text) (fernet_key w) (S (clock_reads w))
       (refresh_requests w)).
Proof.
  intros Hd. unfold TokenStorage.save_tokens, bindM, TokenStorage.now, lift.
  cbn [clock_reads]. fold (stamped L w d). rewrite Hd. reflexivity.
Qed.

Lemma save_tokens_raises (tokens : pyval) (w : World) (e : exn) (w' : World) :
  TokenStorage.save_tokens L tokens w = (Raise e, w') ->
  token_file w' = token_file w.
Proof.
  unfold TokenStorage.save_tokens, bindM, TokenStorage.now, lift, raise, ret,
    TokenStorage.write_token_file.
  destruct tokens; try (intros [= <- <-]; reflexivity).
  destruct (json_dumps L _); [discriminate|].
  intros [= <- <-]. reflexivity.
Qed.

Lemma load_tokens_file (w : World) (text : string) (v : pyval) :
  token_file w = file_of L w text ->
  restores L (fernet_key w) text ->
  json_loads L text = Return v ->
  TokenStorage.load_tokens L w = (Return v, w).
Proof.
  intros Hf [Hdec Hcode] Hloads.
  unfold TokenStorage.load_tokens, try_except_Exception, bindM, lift.
  rewrite Hf. unfold file_of. rewrite Hdec, Hcode, Hloads. reflexivity.
Qed.

(** X7.  What [save_tokens] writes, [load_tokens] reads back: the record
    with [saved_at] set to the time of saving, over any [saved_at] it
    had.  Saving reads the clock once and sends nothing.  The cipher, the
    codec and JSON are assumed to invert each other on that record. *)
Theorem save_tokens_load_tokens (d : gmap string pyval) (w : World)
    (text : string) :
  json_dumps L (PDict (stamped L w d)) = Return text ->
  restores L (fernet_key w) text ->
  json_loads L text = Return (PDict (stamped L w d)) ->
  exists w',
    TokenStorage.save_tokens L (PDict d) w
      = (Return (PDict (stamped L w d)), w')
    /\ TokenStorage.load_tokens L w' = (Return (PDict (stamped L w d)), w')
    /\ stamped L w d !! "saved_at"
       = Some (PStr (isoformat L (clock L (clock_reads w))))
    /\ clock_reads w' = S (clock_reads w)
    /\ refresh_requests w' = refresh_requests w.
Proof.
  intros Hd Hr Hl. eexists. split; [apply save_tokens_dict; eassumption|].
  split; [|split; [apply lookup_insert_eq | split; reflexivity]].
  apply (load_tokens_file _ text); [reflexivity | exact Hr | exact Hl].
Qed.

Lemma refresh_token_raises (rt : pyval) (w : World) (e : exn) (w' : World) :
  OAuth2Handler.refresh_token L rt w = (Raise e, w') ->
  token_file w' = token_file w.
Proof.
  unfold OAuth2Handler.refresh_token, bindM.
  destruct (token_endpoint L rt) as [tokens|e0].
  - intros H. now apply save_tokens_raises in H.
  - intros [= <- <-]. reflexivity.
Qed.

(** X8.  A record older than one hour is replaced by the answer of the
    token endpoint: the new access token is returned, and the token file
    then holds the answer with its own [saved_at] and nothing of the old
    record, so a refresh token that the answer does not repeat is gone.
    One request is sent and the clock is read three times. *)
Theorem refresh_replaces_record (w : World) (d d' : gmap string pyval)
    (s text : string) (saved_at : datetime) (rt : pyval) :
  fst (TokenStorage.load_tokens L w) = Return (PDict d) ->
  d !! "saved_at" = Some (PStr s) ->
  fromisoformat L s = Return saved_at ->
  hour_us < timestamp (clock L (S (clock_reads w))) - timestamp saved_at ->
  d !! "refresh_token" = Some rt ->
  token_endpoint L rt = Return (PDict d') ->
  json_dumps L (PDict (stamped L (after_two_reads w) d')) = Return text ->
  exists w',
    OAuth2Handler.get_access_token L w
      = (Return (OAuth2Handler.dict_get d' "access_token"), w')
    /\ token_file w' = file_of L w text
    /\ refresh_requests w' = (refresh_requests w ++ [rt])%list
    /\ clock_reads w' = (3 + clock_reads w)%nat.
Proof.
  intros Hload Hkey Hiso Hage Hrt Hend Hd.
  pose proof (get_access_token_dated L w d saved_at Hload
                (truthy_dict_with_key _ _ _ Hkey)) as Heq.
  rewrite Hkey in Heq. cbn [default from_option Datatypes.id] in Heq.
  specialize (Heq Hiso).
  destruct (Z.ltb_spec hour_us
              (timestamp (clock L (S (clock_reads w))) - timestamp saved_at));
    [|lia].
  rewrite Hrt in Heq. revert Heq.
  unfold OAuth2Handler.refresh_token, bindM at 1. rewrite Hend.
  rewrite (save_tokens_dict d' _ text) by exact Hd.
  intros ->. eexists. split.
  - unfold OAuth2Handler.dict_get, stamped.
    rewrite lookup_insert_ne by discriminate. reflexivity.
  - repeat split.
Qed.


(** X10.  [get_access_token] does not fail soft on a record it can read
    but not use: a [saved_at] that is not a string or that
    [fromisoformat] rejects, and a record that is not a dictionary, make
    it raise, with nothing sent and the file untouched. *)
Theorem get_access_token_raises_on_bad_record (w : World) (v : pyval) :
  fst (TokenStorage.load_tokens L w) = Return v ->
  truthy v = true ->
  match v with
  | PDict d =>
      match d !! "saved_at" with
      | Some (PStr s) => exists e, fromisoformat L s = Raise e
      | Some _ => True
      | None => False
      end
  | _ => True
  end ->
  exists e w',
    OAuth2Handler.get_access_token L w = (Raise e, w')
    /\ token_file w' = token_file w
    /\ refresh_requests w' = refresh_requests w
    /\ match v with
       | PDict d =>
           match d !! "saved_at" with
           | Some (PStr s) => fromisoformat L s = Raise e
           | _ => exists msg, e = TypeError msg
           end
       | _ => exists msg, e = AttributeError msg
       end.
Proof.
  intros Hload Htruthy Hbad. apply load_tokens_eq in Hload.
  unfold OAuth2Handler.get_access_token, bindM at 1.
  rewrite Hload, Htruthy. cbn [negb].
  destruct v as [|b|z|s|l|d]; try discriminate Htruthy;
    try (eexists _, _; split; [reflexivity|]; repeat split; eauto; fail).
  unfold bindM at 1. unfold TokenStorage.now at 1.
  unfold bindM at 1. unfold lift, raise.
  destruct (d !! "saved_at") as [[|b|z|s|l|d0]|];
    cbn [default from_option Datatypes.id]; try contradiction;
    try (eexists _, _; split; [reflexivity|]; repeat split; eauto; fail).
  destruct Hbad as [e He]. rewrite He.
  eexists _, _. split; [reflexivity|]. repeat split.
Qed.

End MoreTokens.

Lemma save_tokens_load_tokens_witness :
  let L := Standin.lib [Standin.at_ 10 0 0 0] Standin.endpoint in
  let w := mk_World None Standin.sample_key 0 [] in
  exists w',
    TokenStorage.save_tokens L (PDict Standin.undated_record) w
      = (Return (PDict Standin.sample_record), w')
    /\ TokenStorage.load_tokens L w'
       = (Return (PDict Standin.sample_record), w').
Proof.
  intros L w.
  destruct (save_tokens_load_tokens L Standin.undated_record w
              "saved_at=2024-01-31T10:00:00;access_token=A1;refresh_token=R1;")
    as (w' & Hsave & Hload & _).
  - vm_compute; reflexivity.
  - split; vm_compute; reflexivity.
  - vm_compute; reflexivity.
  - exists w'. split; [exact Hsave | exact Hload].
Defined.

(** The record saved at 10:00:00 is refreshed at 11:01: the answer holds
    no refresh token, and neither does the file afterwards. *)
Lemma refresh_replaces_record_witness :
  let L := Standin.lib [Standin.at_ 11 1 0 0; Standin.at_ 11 1 0 0;
                        Standin.at_ 11 1 0 0] Standin.endpoint in
  exists w',
    OAuth2Handler.get_access_token L Standin.sample_world
      = (Return (PStr "A2"), w')
    /\ token_file w'
       = Standin.stored Standin.sample_key
           "saved_at=2024-01-31T11:01:00;access_token=A2;".
Proof.
  intros L.
  destruct (refresh_replaces_record L Standin.sample_world
              Standin.sample_record
              (<["access_token" := PStr "A2"]> empty)
              "2024-01-31T10:00:00"
              "saved_at=2024-01-31T11:01:00;access_token=A2;"
              (Standin.at_ 10 0 0 0) (PStr "R1"))
    as (w' & Hget & Hfile & _).
  - vm_compute; reflexivity.
  - vm_compute; reflexivity.
  - vm_compute; reflexivity.
  - vm_compute; reflexivity.
  - vm_compute; reflexivity.
  - vm_compute; reflexivity.
  - vm_compute; reflexivity.
  - exists w'. split; [exact Hget | exact Hfile].
Defined.


(** A record whose [saved_at] is not a timestamp. *)
Lemma get_access_token_raises_on_bad_record_witness :
  let L := Standin.lib [Standin.at_ 11 1 0 0] Standin.endpoint in
  let w := mk_World
             (Standin.stored Standin.sample_key
                "access_token=A1;saved_at=yesterday;")
             Standin.sample_key 0 [] in
  exists e w',
    OAuth2Handler.get_access_token L w = (Raise e, w')
    /\ token_file w' = token_file w
    /\ refresh_requests w' = refresh_requests w.
Proof.
  intros L w.
  destruct (get_access_token_raises_on_bad_record L w
              (PDict (list_to_map [("access_token", PStr "A1");
                                   ("saved_at", PStr "yesterday")])))
    as (e & w' & Hget & Hfile & Hreq & _).
  - vm_compute; reflexivity.
  - vm_compute; reflexivity.
  - vm_compute. eexists. reflexivity.
  - exists e, w'. split; [exact Hget|]. split; [exact Hfile | exact Hreq].
Defined.

(** ** More on the wait for the browser redirect *)

Section MoreAuthorization.
Import OAuth2Handler.

Lemma nonempty_Some (s : option string) :
  nonempty s = true -> exists c, s = Some c /\ c <> "".
Proof.
  destruct s as [c|]; [|discriminate]. cbn.
  destruct (String.eqb_spec c ""); [discriminate|]. eauto.
Qed.

Lemma redirect_mono (E : Loop) (lo hi hi' : nat) (q : Request) :
  (hi <= hi')%nat -> redirect E lo hi q -> redirect E lo hi' q.
Proof. intros Hle (k & Hk & Hq). exists k. split; [lia | exact Hq]. Qed.

Lemma from_redirects_mono (E : Loop) (lo hi hi' : nat) (st st' : State) :
  (hi <= hi')%nat ->
  _auth_code st' = _auth_code st -> _auth_error st' = _auth_error st ->
  from_redirects E lo hi st -> from_redirects E lo hi' st'.
Proof.
  intros Hle Hc He [H1 H2]. unfold from_redirects. rewrite Hc, He. split.
  - destruct (_auth_code st); [|exact I].
    destruct H1 as (Hne & q & Hq & Hrest).
    split; [exact Hne|]. exists q. split; [|exact Hrest].
    now apply (redirect_mono E lo hi).
  - destruct (_auth_error st); [|exact I].
    destruct H2 as (Hne & q & Hq & Hrest).
    split; [exact Hne|]. exists q. split; [|exact Hrest].
    now apply (redirect_mono E lo hi).
Qed.

Lemma _handle_callback_from_redirects (E : Loop) (lo hi : nat) (q : Request)
    (st : State) :
  redirect E lo hi q ->
  from_redirects E lo hi st ->
  from_redirects E lo hi (fst (_handle_callback q st)).
Proof.
  intros Hq [H1 H2]. unfold _handle_callback.
  destruct (nonempty (q_error q)) eqn:Eerr.
  - split; cbn [fst _auth_code _auth_error]; [exact H1|].
    apply nonempty_Some in Eerr as (e & He & Hne). rewrite He.
    split; [exact Hne|]. exists q. split; [exact Hq | exact He].
  - destruct (nonempty (q_code q)) eqn:Ecode; [|split; assumption].
    split; cbn [fst _auth_code _auth_error]; [|exact H2].
    apply nonempty_Some in Ecode as (c & Hc & Hne). rewrite Hc.
    split; [exact Hne|]. exists q. repeat split; assumption.
Qed.

Lemma fold_from_redirects (E : Loop) (lo hi : nat) (l : list Request)
    (st : State) :
  (forall q, In q l -> redirect E lo hi q) ->
  from_redirects E lo hi st ->
  from_redirects E lo hi
    (fold_left (fun s r => fst (_handle_callback r s)) l st).
Proof.
  revert st. induction l as [|q l IH]; intros st Hl Hst; cbn [fold_left].
  - exact Hst.
  - apply IH; [intros q' Hq'; apply Hl; now right|].
    apply _handle_callback_from_redirects; [apply Hl; now left | exact Hst].
Qed.

Lemma _handle_callback_sleeps (q : Request) (st : State) :
  sleeps (fst (_handle_callback q st)) = sleeps st.
Proof.
  unfold _handle_callback.
  destruct (nonempty (q_error q)); [reflexivity|].
  destruct (nonempty (q_code q)); reflexivity.
Qed.

Lemma sleep_sleeps (E : Loop) (st : State) :
  sleeps (sleep E st) = S (sleeps st).
Proof.
  unfold sleep. cbn [sleeps]. f_equal.
  generalize (arrivals E (sleeps st)). intros l. revert st.
  induction l as [|q l IH]; intros st; cbn [fold_left]; [reflexivity|].
  now rewrite IH, _handle_callback_sleeps.
Qed.

Lemma sleep_from_redirects (E : Loop) (lo : nat) (st : State) :
  (lo <= sleeps st)%nat ->
  from_redirects E lo (sleeps st) st ->
  from_redirects E lo (S (sleeps st)) (sleep E st).
Proof.
  intros Hlo Hst.
  apply (from_redirects_mono E lo (S (sleeps st)) (S (sleeps st))
           (fold_left (fun s r => fst (_handle_callback r s))
              (arrivals E (sleeps st)) st));
    [lia | reflexivity | reflexivity |].
  apply fold_from_redirects.
  - intros q Hq. exists (sleeps st). split; [lia | exact Hq].
  - apply (from_redirects_mono E lo (sleeps st)) with (st := st);
      [lia | reflexivity | reflexivity | exact Hst].
Qed.

Lemma wait_loop_from_redirects (E : Loop) (timeout start_time : Z)
    (lo : nat) (fuel : nat) (st : State) (r : result unit) (st' : State) :
  (lo <= sleeps st)%nat ->
  from_redirects E lo (sleeps st) st ->
  wait_loop E timeout start_time fuel st = Some (r, st') ->
  from_redirects E lo (sleeps st') st'
  /\ match r with
     | Return _ =>
         is_None (_auth_code st') && is_None (_auth_error st') = false
     | Raise _ => _auth_code st' = None /\ _auth_error st' = None
     end.
Proof.
  revert st. induction fuel as [|fuel IH]; intros st Hlo Hst.
  - cbn [wait_loop].
    destruct (is_None (_auth_code st) && is_None (_auth_error st)) eqn:Ec;
      [discriminate|].
    intros [= <- <-]. split; assumption.
  - rewrite wait_loop_step.
    destruct (is_None (_auth_code st) && is_None (_auth_error st)) eqn:Ec.
    + destruct (_ <? _).
      * intros [= <- <-]. cbn [read_time snd sleeps _auth_code _auth_error].
        split; [exact Hst|].
        apply andb_true_iff in Ec as [Hc He].
        destruct (_auth_code st); [discriminate|].
        destruct (_auth_error st); [discriminate|]. split; reflexivity.
      * intros H. apply IH in H; [exact H | |].
        -- rewrite sleep_sleeps. cbn [read_time snd sleeps]. lia.
        -- rewrite sleep_sleeps.
           apply (sleep_from_redirects E lo (snd (read_time E st))).
           ++ cbn [read_time snd sleeps]. exact Hlo.
           ++ exact Hst.
    + intros [= <- <-]. split; assumption.
Qed.

(** X11.  On a handler that has received nothing, a returned code is
    never absent or empty: it is the code of a redirect served while the
    operation waited, one that carried no error.  A provider error is the
    error of such a redirect, and it wins over any code received.  The
    only other outcome is the timeout, with nothing received. *)
Theorem wait_for_authorization_outcomes (E : Loop) (timeout : Z)
    (fuel : nat) (st : State) (r : result (option string)) (st' : State) :
  nothing_received st ->
  wait_for_authorization E timeout fuel st = Some (r, st') ->
  match r with
  | Return c =>
      exists code q,
        c = Some code /\ code <> ""
        /\ redirect E (sleeps st) (sleeps st') q
        /\ q_code q = Some code /\ nonempty (q_error q) = false
        /\ _auth_error st' = None
  | Raise (Exception msg) =>
      exists e q,
        msg = "Authorization error: " ++ e /\ e <> ""
        /\ redirect E (sleeps st) (sleeps st') q /\ q_error q = Some e
  | Raise (TimeoutError _) => _auth_code st' = None /\ _auth_error st' = None
  | Raise _ => False
  end.
Proof.
  intros (Hcode & Herror & Hfree).
  unfold wait_for_authorization, _run_server. rewrite Hfree.
  unfold read_time, open_browser.
  cbn [time_reads _server _auth_code _auth_error port_bound sleeps
       browser_opened].
  destruct (wait_loop _ _ _ _ _) as [[r1 st1]|] eqn:Hloop; [|discriminate].
  pose proof (wait_loop_keeps_listener _ _ _ _ _ _ _ Hloop) as [_ Hs].
  assert (Honly : forall e, r1 = Raise e ->
            e = TimeoutError "Authorization timeout").
  { intros e ->. exact (wait_loop_raises_timeout_only _ _ _ _ _ _ _ Hloop). }
  apply (wait_loop_from_redirects E _ _ (sleeps st)) in Hloop;
    [|cbn [sleeps]; lia
     |split; cbn [_auth_code _auth_error]; rewrite ?Hcode, ?Herror; exact I].
  cbn [_server] in Hs. destruct Hloop as [[H1 H2] Hexit].
  destruct r1 as [[]|e].
  - rewrite Hs. unfold cleanup. cbn [_auth_error _auth_code].
    destruct (nonempty (_auth_error st1)) eqn:Eerr.
    + intros [= <- <-]. cbn [sleeps].
      apply nonempty_Some in Eerr as (e & He & Hne).
      rewrite He in H2 |- *. destruct H2 as (_ & q & Hq & Hqe).
      exists e, q. repeat split; assumption.
    + intros [= <- <-]. cbn [sleeps _auth_error].
      destruct (_auth_error st1) as [e|] eqn:Ee.
      { destruct H2 as [Hne _]. cbn in Eerr.
        destruct (String.eqb_spec e ""); [contradiction | discriminate]. }
      destruct (_auth_code st1) as [code|]; [|discriminate Hexit].
      destruct H1 as (Hne & q & Hq & Hqc & Hqe).
      exists code, q. repeat split; assumption.
  - rewrite (Honly e eq_refl). intros [= <- <-]. exact Hexit.
Qed.

Lemma wait_loop_exit (E : Loop) (timeout start_time : Z) (fuel : nat)
    (st : State) :
  is_None (_auth_code st) && is_None (_auth_error st) = false ->
  wait_loop E timeout start_time fuel st = Some (Return tt, st).
Proof. intros H. destruct fuel; cbn [wait_loop]; now rewrite H. Qed.

Lemma wait_loop_returns (E : Loop) (timeout start_time : Z) (fuel : nat)
    (st st' : State) (u : unit) :
  wait_loop E timeout start_time fuel st = Some (Return u, st') ->
  is_None (_auth_code st') && is_None (_auth_error st') = false.
Proof.
  destruct u. revert st. induction fuel as [|fuel IH]; intros st.
  - cbn [wait_loop].
    destruct (is_None (_auth_code st) && is_None (_auth_error st)) eqn:Ec;
      [discriminate|].
    intros [= <-]. exact Ec.
  - rewrite wait_loop_step.
    destruct (is_None (_auth_code st) && is_None (_auth_error st)) eqn:Ec.
    + destruct (_ <? _); [discriminate | apply IH].
    + intros [= <-]. exact Ec.
Qed.

(** X12.  The handler keeps what it received.  Once a call has ended
    with a code or with a provider error, every later call on the same
    handler ends in the same way at once, without waiting for a new
    redirect: it opens the browser, reads the clock once and does not
    sleep. *)
Theorem wait_for_authorization_repeats (E1 E2 : Loop) (timeout1 timeout2 : Z)
    (fuel1 fuel2 : nat) (st st1 : State) (r : result (option string)) :
  port_bound st = false ->
  wait_for_authorization E1 timeout1 fuel1 st = Some (r, st1) ->
  r <> Raise (TimeoutError "Authorization timeout") ->
  exists st2,
    wait_for_authorization E2 timeout2 fuel2 st1 = Some (r, st2)
    /\ sleeps st2 = sleeps st1
    /\ time_reads st2 = S (time_reads st1)
    /\ browser_opened st2 = S (browser_opened st1).
Proof.
  intros Hfree Hrun Hr.
  assert (Hst1 : port_bound st1 = false
                 /\ is_None (_auth_code st1) && is_None (_auth_error st1)
                    = false
                 /\ r = if nonempty (_auth_error st1)
                        then Raise (Exception ("Authorization error: "
                                     ++ default "" (_auth_error st1)))
                        else Return (_auth_code st1)).
  { revert Hrun. unfold wait_for_authorization, _run_server. rewrite Hfree.
    unfold read_time, open_browser.
    cbn [time_reads _server _auth_code _auth_error port_bound sleeps
         browser_opened].
    destruct (wait_loop _ _ _ _ _) as [[[u|e] stl]|] eqn:Hloop;
      [| |discriminate].
    - pose proof (wait_loop_keeps_listener _ _ _ _ _ _ _ Hloop) as [_ Hs].
      apply wait_loop_returns in Hloop.
      cbn [_server] in Hs. rewrite Hs. unfold cleanup.
      cbn [_auth_error _auth_code].
      destruct (nonempty (_auth_error stl)) eqn:Ee; intros [= <- <-];
        cbn [port_bound _auth_code _auth_error]; rewrite ?Ee; auto.
    - apply wait_loop_raises_timeout_only in Hloop. subst e.
      intros [= <- <-]. contradiction. }
  destruct Hst1 as (Hfree1 & Hexit & ->).
  unfold wait_for_authorization, _run_server. rewrite Hfree1.
  unfold read_time, open_browser.
  cbn [time_reads _server _auth_code _auth_error port_bound sleeps
       browser_opened].
  rewrite wait_loop_exit by exact Hexit.
  cbn [_server cleanup _auth_error _auth_code].
  destruct (nonempty (_auth_error st1)); eexists; repeat split.
Qed.

End MoreAuthorization.

Lemma idle_nothing_received : nothing_received Standin.idle.
Proof. repeat split. Qed.

(** The code "abc" arrives during the fourth sleep. *)
Lemma wait_for_authorization_outcomes_witness :
  let E := Standin.loop_with [(3%nat, mk_Request (Some "abc") None)] in
  nothing_received Standin.idle
  /\ exists st',
       wait_for_authorization E 1000 20 Standin.idle
         = Some (Return (Some "abc"), st')
       /\ exists code q,
            Some "abc" = Some code /\ code <> ""
            /\ redirect E (sleeps Standin.idle) (sleeps st') q
            /\ q_code q = Some code /\ nonempty (q_error q) = false
            /\ _auth_error st' = None.
Proof.
  intros E. split; [exact idle_nothing_received|].
  eexists. split; [vm_compute; reflexivity|].
  apply (wait_for_authorization_outcomes E 1000 20 Standin.idle
           (Return (Some "abc")) _ idle_nothing_received).
  vm_compute; reflexivity.
Defined.

(** A second call on the same handler, on a loop where nothing arrives
    and with no time to wait, returns "abc" again. *)
Lemma wait_for_authorization_repeats_witness :
  let E := Standin.loop_with [(3%nat, mk_Request (Some "abc") None)] in
  exists st1 st2,
    wait_for_authorization E 1000 20 Standin.idle
      = Some (Return (Some "abc"), st1)
    /\ wait_for_authorization Standin.silent 0 0 st1
       = Some (Return (Some "abc"), st2)
    /\ sleeps st2 = sleeps st1.
Proof.
  intros E. eexists.
  assert (Hrun : wait_for_authorization E 1000 20 Standin.idle
                 = Some (Return (Some "abc"),
                         mk_State true (Some "abc") None false 5 4 1))
    by (vm_compute; reflexivity).
  destruct (wait_for_authorization_repeats E Standin.silent 1000 0 20 0
              Standin.idle _ (Return (Some "abc")) eq_refl Hrun)
    as (st2 & H2 & Hs & _); [discriminate|].
  exists st2. split; [exact Hrun | split; [exact H2 | exact Hs]].
Defined.

(** ** Login, the key file and the connection *)

Section Login.
Import OAuth2Handler OAuth2Login TokenStorageInit.

Variable L : Lib.
Variable endpoint : option string -> result pyval.

(** X13.  A login that times out posts no code and leaves the token
    store as it was; its listener stays, so that every further login on
    the same handler fails to bind the port. *)
Theorem login_timeout_saves_nothing (E : Loop) (n : nat) (s : Session) :
  nothing_received (handler s) ->
  (forall k, arrivals E k = []) ->
  300000 < loop_time E (S (time_reads (handler s)) + n)
           - loop_time E (time_reads (handler s)) ->
  exists s',
    login E (S n) L endpoint s
      = Some (Raise (TimeoutError "Authorization timeout"), s')
    /\ store s' = store s
    /\ exchanges s' = exchanges s
    /\ forall (E' : Loop) (fuel' : nat),
         login E' fuel' L endpoint s'
         = Some (Raise (LibError "OSError" "address already in use"), s').
Proof.
  intros (Hcode & Herror & Hfree) Hsilent Hlate.
  destruct (wait_for_authorization_times_out E 300000 n (handler s)
              Hfree Hcode Herror Hsilent Hlate) as (st' & Hrun & Hbound).
  unfold login. rewrite Hrun. eexists. split; [reflexivity|].
  cbn [store exchanges handler]. split; [reflexivity|].
  split; [reflexivity|]. intros E' fuel'.
  unfold wait_for_authorization, _run_server. now rewrite Hbound.
Qed.

(** X14.  A login that receives a code posts exactly that code and saves
    the answer before it reads the access token out of it: when the
    answer holds no access token, [KeyError] comes out of [login] with
    the answer already in the token file. *)
Theorem login_saves_then_answers (E : Loop) (fuel : nat) (s : Session)
    (code : option string) (st : State) (d : gmap string pyval)
    (text : string) :
  wait_for_authorization E 300000 fuel (handler s) = Some (Return code, st) ->
  endpoint code = Return (PDict d) ->
  json_dumps L (PDict (stamped L (store s) d)) = Return text ->
  exists s',
    login E fuel L endpoint s
      = Some (match d !! "access_token" with
              | Some a => Return a
              | None => Raise (KeyError "access_token")
              end, s')
    /\ token_file (store s') = file_of L (store s) text
    /\ exchanges s' = (exchanges s ++ [code])%list
    /\ handler s' = st.
Proof.
  intros Hrun Hend Hd. unfold login. rewrite Hrun.
  unfold exchange_code_for_token. cbn [store exchanges handler].
  rewrite Hend, (save_tokens_dict L d (store s) text Hd).
  eexists. split.
  - unfold subscript_access_token, stamped.
    rewrite lookup_insert_ne by discriminate. reflexivity.
  - repeat split.
Qed.

(** X15.  [connect] ends with an access token that is not empty, or
    raises: a stored token that is [None] or empty sends it to [login],
    and an empty token out of [login] is [ValueError]. *)
Theorem connect_token_is_truthy (E : Loop) (fuel : nat)
    (access_token : pyval) (has_handler : bool) (s s' : Session)
    (token : pyval) :
  connect E fuel L endpoint access_token has_handler s
    = Some (Return token, s') ->
  truthy token = true
  /\ (truthy access_token = true -> token = access_token /\ s' = s).
Proof.
  unfold connect.
  destruct (truthy access_token) eqn:Ha; cbn [negb andb].
  - intros [= <- <-]. auto.
  - destruct has_handler; [|discriminate].
    destruct (get_access_token L (store s)) as [[t|e] w]; [|discriminate].
    destruct (truthy t) eqn:Ht; cbn [negb].
    + intros [= <- <-]. split; [exact Ht | discriminate].
    + destruct (login E fuel L endpoint _) as [[[t'|e] s1]|];
        [|discriminate..].
      destruct (truthy t') eqn:Ht'; cbn [negb]; [|discriminate].
      intros [= <- <-]. split; [exact Ht' | discriminate].
Qed.

End Login.

Section KeyFile.
Import TokenStorageInit.

(** X16.  The key file is written once and never replaced: a later
    instance takes the key of the file, whatever a new key would be, so
    it holds the key of the earlier instance.  A key that [Fernet]
    rejects is written all the same, and every later instance fails on
    it. *)
Theorem key_file_is_kept (fernet_new : bytes -> result unit)
    (new_key1 new_key2 : bytes) (key_file : option bytes) (w1 w2 : World) :
  let '(r1, key_file1) := init fernet_new new_key1 key_file w1 in
  let '(r2, key_file2) := init fernet_new new_key2 key_file1 w2 in
  key_file2 = key_file1
  /\ key_file1 = Some (default new_key1 key_file)
  /\ match r1, r2 with
     | Return w1', Return w2' =>
         fernet_key w2' = fernet_key w1'
         /\ fernet_key w1' = default new_key1 key_file
         /\ token_file w2' = token_file w2
     | Raise e1, Raise e2 => e1 = e2
     | _, _ => False
     end.
Proof.
  unfold init, _get_or_create_key.
  destruct key_file as [key|]; cbn [default from_option Datatypes.id].
  - destruct (fernet_new key) eqn:Ek; cbn; rewrite Ek; repeat split.
  - destruct (fernet_new new_key1) eqn:Ek; cbn; rewrite Ek; repeat split.
Qed.

End KeyFile.

Lemma login_timeout_saves_nothing_witness :
  let L := Standin.lib [] Standin.endpoint in
  let s := OAuth2Login.mk_Session Standin.idle
             (mk_World None Standin.sample_key 0 []) [] in
  exists s',
    OAuth2Login.login Standin.silent 3001 L
      (fun _ => Raise (LibError "HTTPStatusError" "400")) s
      = Some (Raise (TimeoutError "Authorization timeout"), s')
    /\ OAuth2Login.store s' = OAuth2Login.store s
    /\ OAuth2Login.exchanges s' = OAuth2Login.exchanges s.
Proof.
  intros L s.
  destruct (login_timeout_saves_nothing L
              (fun _ => Raise (LibError "HTTPStatusError" "400"))
              Standin.silent 3000 s)
    as (s' & Hrun & Hstore & Hposted & _).
  - exact idle_nothing_received.
  - intros k. reflexivity.
  - vm_compute; reflexivity.
  - exists s'. split; [exact Hrun|]. split; [exact Hstore | exact Hposted].
Defined.

(** The endpoint answers without an access token: the answer is saved
    and [KeyError] is raised. *)
Lemma login_saves_then_answers_witness :
  let L := Standin.lib [Standin.at_ 10 0 0 0] Standin.endpoint in
  let E := Standin.loop_with [(3%nat, mk_Request (Some "abc") None)] in
  let s := OAuth2Login.mk_Session Standin.idle
             (mk_World None Standin.sample_key 0 []) [] in
  let answer (_ : option string) : result pyval :=
    Return (PDict (<["token_type" := PStr "bearer"]> empty)) in
  exists s',
    OAuth2Login.login E 20 L answer s
      = Some (Raise (KeyError "access_token"), s')
    /\ token_file (OAuth2Login.store s')
       = Standin.stored Standin.sample_key
           "saved_at=2024-01-31T10:00:00;token_type=bearer;"
    /\ OAuth2Login.exchanges s' = [Some "abc"].
Proof.
  intros L E s answer.
  destruct (login_saves_then_answers L answer E 20 s (Some "abc")
              (mk_State true (Some "abc") None false 5 4 1)
              (<["token_type" := PStr "bearer"]> empty)
              "saved_at=2024-01-31T10:00:00;token_type=bearer;")
    as (s' & Hrun & Hfile & Hposted & _).
  - vm_compute; reflexivity.
  - reflexivity.
  - vm_compute; reflexivity.
  - exists s'. split; [exact Hrun | split; [exact Hfile | exact Hposted]].
Defined.

Lemma connect_token_is_truthy_witness :
  let L := Standin.lib [] Standin.endpoint in
  let s := OAuth2Login.mk_Session Standin.idle
             (mk_World None Standin.sample_key 0 []) [] in
  OAuth2Login.connect Standin.silent 0 L (fun _ => Return PNone)
    (PStr "token") false s
    = Some (Return (PStr "token"), s)
  /\ truthy (PStr "token") = true.
Proof.
  intros L s. split; [reflexivity|].
  apply (connect_token_is_truthy L (fun _ => Return PNone) Standin.silent 0
           (PStr "token") false s s (PStr "token")).
  reflexivity.
Defined.

Example connect_samples :
  let L := Standin.lib [Standin.at_ 10 30 0 0; Standin.at_ 10 30 0 0]
             Standin.endpoint in
  let s (w : World) := OAuth2Login.mk_Session Standin.idle w [] in
  let refused (_ : option string) : result pyval :=
    Raise (LibError "HTTPStatusError" "400") in
  (* a cached record of half an hour: no browser *)
  OAuth2Login.connect Standin.silent 20 L refused PNone true
    (s Standin.sample_world)
    = Some (Return (PStr "A1"),
            s (mk_World (token_file Standin.sample_world)
                 Standin.sample_key 2 []))
  (* no token and no handler *)
  /\ OAuth2Login.connect Standin.silent 20 L refused (PStr "") false
       (s Standin.sample_world)
     = Some (Raise (ValueError "No access token available"),
             s Standin.sample_world).
Proof. vm_compute. split; reflexivity. Qed.

(** ** The task payloads *)

Section Payloads.
Import Client.

Lemma copy_field_lookup_ne (kwargs : gmap string pyobj) (key name : string)
    (f : pyobj -> pyobj) (data : gmap string pyobj) (k : string) :
  name <> k -> copy_field kwargs key name f data !! k = data !! k.
Proof.
  intros H. unfold copy_field.
  destruct (kwargs !! key); [apply lookup_insert_ne; exact H | reflexivity].
Qed.

Lemma copy_field_lookup (kwargs : gmap string pyobj) (key name : string)
    (f : pyobj -> pyobj) (data : gmap string pyobj) :
  copy_field kwargs key name f data !! name
  = match kwargs !! key with
    | Some v => Some (f v)
    | None => data !! name
    end.
Proof.
  unfold copy_field.
  destruct (kwargs !! key); [apply lookup_insert_eq | reflexivity].
Qed.

Lemma optional_fields_other (kwargs data data' : gmap string pyobj)
    (k : string) :
  optional_fields kwargs data = Return data' ->
  ~ In k optional_keys -> data' !! k = data !! k.
Proof.
  unfold optional_fields, optional_keys. cbv zeta. intros H Hk.
  cbn [In] in Hk.
  destruct (kwargs !! "items") as [v|].
  - destruct (items_value v) as [items|e]; [|discriminate].
    cbn [bind] in H. injection H as <-.
    rewrite lookup_insert_ne by tauto.
    rewrite !copy_field_lookup_ne by tauto. reflexivity.
  - injection H as <-.
    rewrite !copy_field_lookup_ne by tauto. reflexivity.
Qed.

Lemma optional_fields_key (kwargs data data' : gmap string pyobj)
    (k : string) :
  optional_fields kwargs data = Return data' ->
  is_Some (data' !! k) -> In k optional_keys \/ is_Some (data !! k).
Proof.
  intros H Hk.
  destruct (in_dec string_dec k optional_keys) as [Hin|Hout]; [now left|].
  right. now rewrite <- (optional_fields_other _ _ _ k H Hout).
Qed.

(** X17.  A task payload holds the title and the project of the call (an
    update, the task id and the project), which no keyword argument can
    replace, and beside them only keys of the task schema: keyword
    arguments reach it under their wire names or not at all. *)
Theorem task_payload_fields (title task_id : string) (project_id : pyobj)
    (kwargs data : gmap string pyobj) :
  (create_task_data title project_id kwargs = Return data ->
   data !! "title" = Some (OStr title)
   /\ data !! "projectId" = Some project_id
   /\ data !! "id" = None
   /\ forall k, is_Some (data !! k) -> In k payload_keys)
  /\ (update_task_data task_id project_id kwargs = Return data ->
      data !! "id" = Some (OStr task_id)
      /\ data !! "projectId" = Some project_id
      /\ data !! "title" = kwargs !! "title"
      /\ forall k, is_Some (data !! k) -> In k payload_keys).
Proof.
  split; intros H.
  - unfold create_task_data in H. cbv zeta in H.
    pose proof (fun k => optional_fields_other _ _ _ k H) as Ho.
    pose proof (fun k => optional_fields_key _ _ _ k H) as Hk.
    rewrite !Ho by (cbn; intuition discriminate).
    repeat split; try reflexivity.
    intros k Hs. destruct (Hk k Hs) as [Hin|Hin].
    + unfold payload_keys. cbn [In] in *. tauto.
    + destruct (string_dec k "projectId") as [->|N1]; [cbn; tauto|].
      rewrite lookup_insert_ne in Hin by congruence.
      destruct (string_dec k "title") as [->|N2]; [cbn; tauto|].
      rewrite lookup_insert_ne in Hin by congruence.
      rewrite lookup_empty in Hin. now destruct Hin.
  - unfold update_task_data in H. cbv zeta in H.
    pose proof (fun k => optional_fields_other _ _ _ k H) as Ho.
    pose proof (fun k => optional_fields_key _ _ _ k H) as Hk.
    rewrite !Ho by (cbn; intuition discriminate).
    rewrite !copy_field_lookup_ne by discriminate.
    rewrite copy_field_lookup.
    repeat split; try reflexivity.
    + destruct (kwargs !! "title"); reflexivity.
    + intros k Hs. destruct (Hk k Hs) as [Hin|Hin].
      * unfold payload_keys. cbn [In] in *. tauto.
      * destruct (string_dec k "title") as [->|N0]; [cbn; tauto|].
        rewrite copy_field_lookup_ne in Hin by congruence.
        destruct (string_dec k "projectId") as [->|N1]; [cbn; tauto|].
        rewrite lookup_insert_ne in Hin by congruence.
        destruct (string_dec k "id") as [->|N2]; [cbn; tauto|].
        rewrite lookup_insert_ne in Hin by congruence.
        rewrite lookup_empty in Hin. now destruct Hin.
Qed.

Lemma copy_field_insert_ne (kwargs : gmap string pyobj) (key name k : string)
    (v : pyobj) (f : pyobj -> pyobj) (data : gmap string pyobj) :
  k <> key ->
  copy_field (<[k := v]> kwargs) key name f data
  = copy_field kwargs key name f data.
Proof. intros H. unfold copy_field. now rewrite lookup_insert_ne. Qed.

(** X18.  A keyword argument that the client does not know is dropped
    without a word: the payload of a creation and of an update is the
    same with it and without it. *)
Theorem unknown_kwargs_are_dropped (title task_id k : string)
    (project_id v : pyobj) (kwargs : gmap string pyobj) :
  ~ In k read_kwargs ->
  create_task_data title project_id (<[k := v]> kwargs)
    = create_task_data title project_id kwargs
  /\ update_task_data task_id project_id (<[k := v]> kwargs)
     = update_task_data task_id project_id kwargs.
Proof.
  intros Hk. unfold read_kwargs in Hk. cbn [In] in Hk.
  unfold create_task_data, update_task_data, optional_fields. cbv zeta.
  rewrite !copy_field_insert_ne by (intros ->; tauto).
  rewrite (lookup_insert_ne kwargs k "items") by (intros ->; tauto).
  split; reflexivity.
Qed.

End Payloads.

(** ** Creating, updating and completing tasks *)

Section TaskOperations.
Import Client TaskOps.

Variable P : string -> result datetime.

Lemma optional_fields_returns (kwargs data : gmap string pyobj) :
  match kwargs !! "items" with
  | Some (OList _) | None => True
  | Some _ => False
  end ->
  exists data', optional_fields kwargs data = Return data'.
Proof.
  unfold optional_fields. cbv zeta.
  destruct (kwargs !! "items") as [[| | | | |l| |]|]; try contradiction;
    intros _; cbn [items_value bind]; eauto.
Qed.

Lemma optional_fields_dueDate (kwargs data data' : gmap string pyobj) :
  optional_fields kwargs data = Return data' ->
  data' !! "dueDate"
  = match kwargs !! "due_date" with
    | Some v => Some (date_value v)
    | None => data !! "dueDate"
    end.
Proof.
  unfold optional_fields. cbv zeta. intros H.
  assert (E : forall d : gmap string pyobj,
            (match kwargs !! "items" with
             | Some v =>
                 let* items := items_value v in
                 Return (<["items" := items]> d)
             | None => Return d
             end) = Return data' ->
            data' !! "dueDate" = d !! "dueDate").
  { intros d Hd. destruct (kwargs !! "items") as [v|].
    - destruct (items_value v); [|discriminate]. cbn [bind] in Hd.
      injection Hd as <-. now rewrite lookup_insert_ne by discriminate.
    - now injection Hd as <-. }
  rewrite (E _ H). rewrite !copy_field_lookup_ne by discriminate.
  rewrite copy_field_lookup.
  destruct (kwargs !! "due_date"); [reflexivity|].
  now rewrite !copy_field_lookup_ne by discriminate.
Qed.

Lemma copy_field_ext (K1 K2 : gmap string pyobj) (key name : string)
    (f : pyobj -> pyobj) (data : gmap string pyobj) :
  f <$> (K1 !! key) = f <$> (K2 !! key) ->
  copy_field K1 key name f data = copy_field K2 key name f data.
Proof.
  unfold copy_field.
  destruct (K1 !! key), (K2 !! key); cbn; intros [=]; congruence.
Qed.

Lemma optional_fields_ext (K1 K2 data : gmap string pyobj) :
  (forall key, key <> "due_date" -> K1 !! key = K2 !! key) ->
  date_value <$> (K1 !! "due_date") = date_value <$> (K2 !! "due_date") ->
  optional_fields K1 data = optional_fields K2 data.
Proof.
  intros H Hd.
  assert (Hc : forall key name (f : pyobj -> pyobj) d,
            key <> "due_date" ->
            copy_field K1 key name f d = copy_field K2 key name f d).
  { intros key name f d Hkey. apply copy_field_ext. now rewrite (H key Hkey). }
  unfold optional_fields. cbv zeta.
  rewrite (H "items") by discriminate.
  rewrite (Hc "content"), (Hc "desc"), (Hc "is_all_day"), (Hc "start_date")
    by discriminate.
  rewrite (copy_field_ext K1 K2 "due_date" "dueDate" date_value) by exact Hd.
  rewrite (Hc "time_zone"), (Hc "reminders"), (Hc "repeat_flag"),
    (Hc "priority"), (Hc "sort_order") by discriminate.
  reflexivity.
Qed.

Lemma insert_lookup_congr (m1 m2 : gmap string pyobj) (j k : string)
    (v : pyobj) :
  m1 !! k = m2 !! k -> <[j := v]> m1 !! k = <[j := v]> m2 !! k.
Proof.
  intros H. destruct (string_dec j k) as [->|N].
  - now rewrite !lookup_insert_eq.
  - now rewrite !lookup_insert_ne.
Qed.

Lemma strftime_same_second (t1 t2 : datetime) :
  same_second t1 t2 -> strftime t1 = strftime t2.
Proof. intros (Hd & Hh & Hm & Hs). unfold strftime. congruence. Qed.


(** X20.  Only the second of a due instant counts: two phrases whose
    instants agree to the second, such as "in 3 days" and the explicit
    date three days ahead, create the task by one and the same request,
    whatever the other arguments are. *)
Theorem create_task_due_to_the_second (client : TaskClient) (now : datetime)
    (title : string) (project_id : option string) (due1 due2 : string)
    (priority_ : option Z) (content : option string)
    (subtasks : option (list string)) (reminder : option string)
    (kwargs : gmap string pyobj) (t1 t2 : datetime) :
  due1 <> "" -> due2 <> "" ->
  TaskManager._parse_date P now due1 = Return t1 ->
  TaskManager._parse_date P now due2 = Return t2 ->
  same_second t1 t2 ->
  TaskOps.create_task client P now title project_id (Some due1) priority_
    content subtasks reminder kwargs
  = TaskOps.create_task client P now title project_id (Some due2) priority_
      content subtasks reminder kwargs.
Proof.
  intros Hd1 Hd2 Hp1 Hp2 Hsame.
  unfold TaskOps.create_task, task_data.
  match goal with
  | |- bind (bind ?X _) _ = _ => destruct X as [pobj|e]; [|reflexivity]
  end.
  cbn [bind TaskManager.truthy_str default from_option Datatypes.id].
  destruct (String.eqb_spec due1 ""); [contradiction|].
  destruct (String.eqb_spec due2 ""); [contradiction|].
  cbn [negb]. rewrite Hp1, Hp2. cbn [bind].
  match goal with
  | |- Client.create_task _ _ (default _ (union kwargs ?D1 !! _)) _
       = Client.create_task _ _ (default _ (union kwargs ?D2 !! _)) _ =>
      set (built1 := D1); set (built2 := D2)
  end.
  assert (Hne : forall key, key <> "due_date" ->
            built1 !! key = built2 !! key).
  { intros key Hkey. unfold built1, built2.
    destruct (TaskManager.truthy_str reminder), subtasks as [[|s l]|],
      (TaskManager.truthy_str content);
      repeat (apply insert_lookup_congr);
      rewrite ?(lookup_insert_ne _ "due_date" key) by congruence;
      reflexivity. }
  assert (Hb1 : built1 !! "due_date" = Some (ODatetime t1)).
  { unfold built1.
    destruct (TaskManager.truthy_str reminder), subtasks as [[|s l]|],
      (TaskManager.truthy_str content);
      rewrite ?lookup_insert_ne by discriminate;
      rewrite ?lookup_insert_eq; reflexivity. }
  assert (Hb2 : built2 !! "due_date" = Some (ODatetime t2)).
  { unfold built2.
    destruct (TaskManager.truthy_str reminder), subtasks as [[|s l]|],
      (TaskManager.truthy_str content);
      rewrite ?lookup_insert_ne by discriminate;
      rewrite ?lookup_insert_eq; reflexivity. }
  clearbody built1 built2.
  assert (Hu : forall key, key <> "due_date" ->
            (kwargs ∪ built1) !! key = (kwargs ∪ built2) !! key).
  { intros key Hkey. now rewrite !lookup_union, (Hne key Hkey). }
  rewrite (Hu "project_id") by discriminate.
  unfold Client.create_task, create_task_data. cbv zeta.
  rewrite (optional_fields_ext (delete "project_id" (kwargs ∪ built1))
             (delete "project_id" (kwargs ∪ built2))); [reflexivity| |].
  - intros key Hkey. destruct (string_dec key "project_id") as [->|N].
    + now rewrite !lookup_delete_eq.
    + rewrite !lookup_delete_ne by congruence. now apply Hu.
  - rewrite !lookup_delete_ne by discriminate.
    rewrite !lookup_union, Hb1, Hb2.
    destruct (kwargs !! "due_date"); cbn; [reflexivity|].
    now rewrite (strftime_same_second t1 t2 Hsame).
Qed.

Lemma find_split (f : Project -> bool) (l : list Project) :
  match List.find f l with
  | Some p =>
      exists l1 l2, l = (l1 ++ p :: l2)%list /\ f p = true
                    /\ List.Forall (fun q => f q = false) l1
  | None => List.Forall (fun q => f q = false) l
  end.
Proof.
  induction l as [|q l IH]; cbn [List.find]; [constructor|].
  destruct (f q) eqn:E.
  - exists [], l. repeat split; [exact E | constructor].
  - destruct (List.find f l) as [p|].
    + destruct IH as (l1 & l2 & -> & Hp & Hl1).
      exists (q :: l1), l2. repeat split; [exact Hp | now constructor].
    + now constructor.
Qed.

(** X21.  Without a project, a new task goes to the first project named
    Inbox in any letter case, closed or not, and to the first project of
    the account when none is; with no project at all [ValueError] is
    raised before the due phrase is looked at, and a failure of the
    project listing comes out as it is. *)
Theorem create_task_default_project (now : datetime)
    (projects : result (list Project)) (project_id due : option string)
    (priority_ : option Z) (content : option string)
    (subtasks : option (list string)) (reminder : option string)
    (kwargs : gmap string pyobj) :
  TaskManager.truthy_str project_id = false ->
  extra_kwargs kwargs ->
  match projects with
  | Raise e =>
      task_data P now projects project_id due priority_ content subtasks
        reminder kwargs = Raise e
  | Return [] =>
      task_data P now projects project_id due priority_ content subtasks
        reminder kwargs = Raise (ValueError "No projects found")
  | Return l =>
      forall data,
        task_data P now projects project_id due priority_ content subtasks
          reminder kwargs = Return data ->
        exists l1 p l2,
          l = (l1 ++ p :: l2)%list
          /\ data !! "project_id" = Some (option_to_obj OStr (p_id p))
          /\ List.Forall (fun q => is_inbox q = false) l1
          /\ (is_inbox p = true
              \/ l1 = [] /\ List.Forall (fun q => is_inbox q = false) l2)
  end.
Proof.
  intros Hpid Hextra. unfold task_data. rewrite Hpid.
  destruct projects as [[|p0 l]|e]; [reflexivity | | reflexivity].
  intros data. cbn [bind]. unfold default_project.
  fold is_inbox. change (fun p => String.eqb (Str.lower (name p)) "inbox")
    with is_inbox.
  pose proof (find_split is_inbox (p0 :: l)) as Hfind.
  assert (Hchoice : exists l1 p l2,
            (match List.find is_inbox (p0 :: l) with
             | Some inbox => Return (option_to_obj OStr (p_id inbox))
             | None => Return (option_to_obj OStr (p_id p0))
             end : result pyobj) = Return (option_to_obj OStr (p_id p))
            /\ p0 :: l = (l1 ++ p :: l2)%list
            /\ List.Forall (fun q => is_inbox q = false) l1
            /\ (is_inbox p = true
                \/ l1 = []
                   /\ List.Forall (fun q => is_inbox q = false) l2)).
  { destruct (List.find is_inbox (p0 :: l)) as [inbox|].
    - destruct Hfind as (l1 & l2 & E & Hin & Hl1).
      exists l1, inbox, l2. repeat split; auto.
    - exists [], p0, l. repeat split; [constructor|].
      right. split; [reflexivity|]. now apply Forall_cons in Hfind as []. }
  destruct Hchoice as (l1 & p & l2 & -> & E & Hl1 & Hp).
  cbn [bind]. intros Hdata. exists l1, p, l2.
  split; [exact E|]. split; [|split; assumption].
  unfold extra_kwargs in Hextra.
  repeat match goal with
         | H : Forall _ (_ :: _) |- _ =>
             apply Forall_cons in H; destruct H as [? H]
         end.
  revert Hdata.
  destruct (if TaskManager.truthy_str due then _ else _) as [due_date|e];
    [|discriminate].
  cbn [bind]. intros [= <-].
  rewrite lookup_union.
  match goal with
  | H : kwargs !! "project_id" = None |- _ => rewrite H
  end.
  destruct (TaskManager.truthy_str reminder), subtasks as [[|s l']|],
    due_date as [t|], (TaskManager.truthy_str content);
    rewrite ?lookup_insert_ne by discriminate;
    rewrite ?lookup_insert_eq; reflexivity.
Qed.

Lemma batch_complete_from_spec
    (respond : Calls -> string -> string -> result unit)
    (task_ids : list (string * string)) (completed : Z) (calls : Calls) :
  (forall c p t e, respond c p t = Raise e -> is_Exception e = true) ->
  exists m,
    batch_complete_from respond task_ids completed calls
      = (Return (completed + m), (calls ++ task_ids)%list)
    /\ 0 <= m <= Z.of_nat (length task_ids)
    /\ forall answer,
         (forall c p t, respond c p t = answer p t) ->
         m = Z.of_nat (length (List.filter (completes answer) task_ids)).
Proof.
  intros Hexn. revert completed calls.
  induction task_ids as [|[p t] ids IH]; intros completed calls.
  - exists 0. cbn. rewrite app_nil_r, Z.add_0_r. repeat split; lia.
  - cbn [batch_complete_from]. unfold complete_task.
    destruct (respond calls p t) as [u|e] eqn:Er.
    + destruct (IH (completed + 1) (calls ++ [(p, t)])%list)
        as (m & -> & Hm & Hcount).
      exists (1 + m). rewrite <- app_assoc. cbn [app length].
      split; [f_equal; f_equal; lia|]. split; [lia|].
      intros answer Ha. cbn [List.filter]. unfold completes at 1.
      cbn [fst snd]. rewrite <- (Ha calls), Er. cbn [length].
      rewrite (Hcount answer Ha). lia.
    + rewrite (Hexn _ _ _ _ Er).
      destruct (IH completed (calls ++ [(p, t)])%list)
        as (m & -> & Hm & Hcount).
      exists m. rewrite <- app_assoc. cbn [app length].
      split; [reflexivity|]. split; [lia|].
      intros answer Ha. cbn [List.filter]. unfold completes at 1.
      cbn [fst snd]. rewrite <- (Ha calls), Er. exact (Hcount answer Ha).
Qed.

(** X22.  [batch_complete] asks for every task of the list, once and in
    order, failed ones included, and returns the number of requests that
    did not fail, between 0 and the length of the list; a failure is
    never raised, as long as it is an [Exception]. *)
Theorem batch_complete_counts
    (respond : Calls -> string -> string -> result unit)
    (task_ids : list (string * string)) (calls : Calls) :
  (forall c p t e, respond c p t = Raise e -> is_Exception e = true) ->
  exists completed,
    batch_complete respond task_ids calls
      = (Return completed, (calls ++ task_ids)%list)
    /\ 0 <= completed <= Z.of_nat (length task_ids)
    /\ forall answer,
         (forall c p t, respond c p t = answer p t) ->
         completed
         = Z.of_nat (length (List.filter (completes answer) task_ids)).
Proof.
  intros Hexn. unfold batch_complete.
  destruct (batch_complete_from_spec respond task_ids 0 calls Hexn)
    as (m & Hrun & Hm & Hcount).
  exists m. rewrite Z.add_0_l in Hrun. auto.
Qed.


End TaskOperations.

(** ** Listing, the daily plan and the daily log *)

Section Plans.

Lemma fetch_all_open (client client' : TaskManager.TickTickClient)
    (projects : list Project) (all_tasks : list Task) :
  (forall p, In p projects -> closed p = false ->
     TaskManager.get_project_data client' (p_id p)
     = TaskManager.get_project_data client (p_id p)) ->
  TaskManager.fetch_all client projects all_tasks
  = TaskManager.fetch_all client'
      (List.filter (fun p => negb (closed p)) projects) all_tasks.
Proof.
  revert all_tasks. induction projects as [|p projects IH];
    intros all_tasks Hsame; [reflexivity|].
  cbn [TaskManager.fetch_all List.filter].
  destruct (closed p) eqn:Ec; cbn [negb].
  - apply IH. intros q Hq. apply Hsame. now right.
  - cbn [TaskManager.fetch_all]. rewrite Ec. cbn [negb].
    rewrite (Hsame p (or_introl eq_refl) Ec).
    destruct (TaskManager.get_project_data client (p_id p)); [|reflexivity].
    cbn [bind]. apply IH. intros q Hq. apply Hsame. now right.
Qed.

(** X24.  Without a project, [list_tasks] sees the open projects only:
    it gives the same result, or the same error, when the closed
    projects are taken out of the account and the data of every project
    but the open ones is replaced by anything. *)
Theorem list_tasks_skips_closed_projects
    (client : TaskManager.TickTickClient) (now : datetime)
    (projects : list Project)
    (other_data : option string -> result ProjectData)
    (project_id due_filter : option string) (priority_ : option Z)
    (status_ : option string) :
  TaskManager.truthy_str project_id = false ->
  TaskManager.get_projects client = Return projects ->
  (forall p, In p projects -> closed p = false ->
     other_data (p_id p) = TaskManager.get_project_data client (p_id p)) ->
  TaskManager.list_tasks client now project_id due_filter priority_ status_
  = TaskManager.list_tasks
      (TaskManager.mk_client
         (Return (List.filter (fun p => negb (closed p)) projects))
         other_data)
      now project_id due_filter priority_ status_.
Proof.
  intros Hpid Hprojects Hsame. unfold TaskManager.list_tasks.
  rewrite Hpid, Hprojects.
  cbn [TaskManager.get_projects bind].
  rewrite (fetch_all_open client
             (TaskManager.mk_client
                (Return (List.filter (fun p => negb (closed p)) projects))
                other_data) projects []) by exact Hsame.
  assert (Hidem : List.filter (fun p => negb (closed p))
                    (List.filter (fun p => negb (closed p)) projects)
                  = List.filter (fun p => negb (closed p)) projects).
  { clear. induction projects as [|p l IH]; [reflexivity|].
    cbn [List.filter]. destruct (closed p) eqn:E; cbn [negb List.filter];
      [exact IH|]. rewrite E. cbn [negb]. now rewrite IH. }
  rewrite (fetch_all_open
             (TaskManager.mk_client
                (Return (List.filter (fun p => negb (closed p)) projects))
                other_data)
             (TaskManager.mk_client
                (Return (List.filter (fun p => negb (closed p)) projects))
                other_data)
             (List.filter (fun p => negb (closed p)) projects) [])
    by reflexivity.
  now rewrite Hidem.
Qed.

Lemma unique_spec (seen_ids : gset (option string)) (all_tasks : list Task) :
  NoDup (map id (Workflow.unique seen_ids all_tasks))
  /\ sublist (Workflow.unique seen_ids all_tasks) all_tasks
  /\ (forall t, In t (Workflow.unique seen_ids all_tasks) ->
        id t ∉ seen_ids)
  /\ (forall l1 t l2,
        all_tasks = (l1 ++ t :: l2)%list -> id t ∉ seen_ids ->
        ~ In (id t) (map id l1) ->
        In t (Workflow.unique seen_ids all_tasks)).
Proof.
  revert seen_ids. induction all_tasks as [|x l IH]; intros seen_ids.
  - cbn. repeat split; [constructor | constructor | contradiction |].
    intros [|] ? ? [=].
  - cbn [Workflow.unique].
    destruct (bool_decide_reflect (id x ∈ seen_ids)) as [Hseen|Hnew].
    + destruct (IH seen_ids) as (Hnd & Hsub & Hout & Hfirst).
      repeat split; [exact Hnd | now apply sublist_cons | exact Hout|].
      intros l1 t l2 E Ht Hl1. destruct l1 as [|y l1].
      * injection E as -> ->. contradiction.
      * injection E as -> ->. apply (Hfirst l1 t l2 eq_refl Ht).
        intros Hin. apply Hl1. now right.
    + destruct (IH ({[id x]} ∪ seen_ids)) as (Hnd & Hsub & Hout & Hfirst).
      repeat split.
      * cbn [map]. apply NoDup_cons. split; [|exact Hnd].
        intros Hin. apply list_elem_of_In, in_map_iff in Hin
          as (t & Hid & Ht).
        apply Hout in Ht. apply Ht. rewrite Hid.
        apply elem_of_union. left. now apply elem_of_singleton.
      * now apply sublist_skip.
      * intros t [<- | Ht]; [exact Hnew|].
        apply Hout in Ht. intros Hin. apply Ht, elem_of_union. now right.
      * intros l1 t l2 E Ht Hl1. destruct l1 as [|y l1].
        -- injection E as -> ->. now left.
        -- injection E as -> ->. right.
           apply (Hfirst l1 t l2 eq_refl).
           ++ intros Hin. apply elem_of_union in Hin as [Hin|Hin];
                [|contradiction].
              apply elem_of_singleton in Hin. apply Hl1. left. congruence.
           ++ intros Hin. apply Hl1. now right.
Qed.

(** X25.  The duplicate removal of the daily plan keeps, in their
    order, exactly the first task of every id: no id is left twice, no
    id is lost, and tasks without an id count as one id. *)
Theorem unique_keeps_first_occurrences (all_tasks : list Task) :
  NoDup (map id (Workflow.unique empty all_tasks))
  /\ sublist (Workflow.unique empty all_tasks) all_tasks
  /\ (forall t, In t all_tasks ->
        In (id t) (map id (Workflow.unique empty all_tasks)))
  /\ (forall l1 t l2,
        all_tasks = (l1 ++ t :: l2)%list -> ~ In (id t) (map id l1) ->
        In t (Workflow.unique empty all_tasks)).
Proof.
  destruct (unique_spec empty all_tasks) as (Hnd & Hsub & _ & Hfirst).
  assert (Hfirst' : forall l1 t l2,
            all_tasks = (l1 ++ t :: l2)%list -> ~ In (id t) (map id l1) ->
            In t (Workflow.unique empty all_tasks)).
  { intros l1 t l2 E Hl1. apply (Hfirst l1 t l2 E); [apply not_elem_of_empty | exact Hl1]. }
  assert (Hdec : forall (i : option string) l, {In i l} + {~ In i l}).
  { intros i l. apply in_dec. intros a b. destruct (decide (a = b)); auto. }
  split; [exact Hnd|]. split; [exact Hsub|]. split.
  - intros t. revert all_tasks Hnd Hsub Hfirst Hfirst'.
    intros l _ _ _ Hf Ht.
    assert (Hgen : forall l1 l2, l = (l1 ++ l2)%list -> In t l2 ->
              In (id t) (map id (Workflow.unique empty l))
              \/ In (id t) (map id l1)).
    { intros l1 l2 E Hin. generalize dependent l1.
      induction l2 as [|y l2 IH2]; [contradiction|]. intros l1 E.
      destruct Hin as [-> | Hin].
      - destruct (Hdec (id t) (map id l1)) as [Hi|Hi]; [now right|].
        left. apply in_map. apply (Hf l1 t l2 E Hi).
      - destruct (IH2 Hin (l1 ++ [y])%list) as [H|H].
        + now rewrite <- app_assoc.
        + now left.
        + rewrite map_app in H. apply in_app_or in H as [H|H];
            [now right|]. cbn in H. destruct H as [H|[]].
          destruct (Hdec (id y) (map id l1)) as [Hi|Hi];
            [right; congruence|].
          left. rewrite <- H. apply in_map. apply (Hf l1 y l2 E Hi). }
    destruct (Hgen [] l eq_refl Ht) as [H|[]]. exact H.
  - exact Hfirst'.
Qed.

Lemma filter_filter {A : Type} (f g : A -> bool) (l : list A) :
  List.filter f (List.filter g l) = List.filter (fun x => g x && f x) l.
Proof.
  induction l as [|x l IH]; [reflexivity|]. cbn [List.filter].
  destruct (g x); cbn [andb List.filter]; [|exact IH].
  destruct (f x); now rewrite IH.
Qed.

Lemma group_pending_spec (today : date) (pending overdue_tasks today_tasks
    future_tasks : list Task) :
  valid_date today -> due_dates_valid pending ->
  Obsidian.group_pending today pending overdue_tasks today_tasks future_tasks
  = ((overdue_tasks
      ++ List.filter (due_in (fun o => o <? 0) today) pending)%list,
     (today_tasks
      ++ List.filter (due_in (fun o => o =? 0) today) pending)%list,
     (future_tasks
      ++ List.filter (due_in (fun o => 0 <? o) today) pending)%list).
Proof.
  intros Ht Hv. revert overdue_tasks today_tasks future_tasks.
  induction Hv as [|t pending Hd Hv IH];
    intros overdue_tasks today_tasks future_tasks;
    cbn [Obsidian.group_pending List.filter].
  - now rewrite !app_nil_r.
  - assert (Hin : forall test,
              due_in test today t
              = match due_date t with
                | Some due =>
                    test (toordinal (dt_date due) - toordinal today)
                | None => false
                end).
    { intros test. unfold due_in, due_offset.
      destruct (due_date t); reflexivity. }
    rewrite !Hin. clear Hin.
    destruct (due_date t) as [due|] eqn:Edue; [|apply IH].
    rewrite (date_ltb_toordinal (dt_date due) today),
      (date_eqb_toordinal (dt_date due) today) by auto.
    destruct (Z.ltb_spec (toordinal (dt_date due)) (toordinal today)).
    + rewrite IH, <- app_assoc.
      destruct (Z.eqb_spec (toordinal (dt_date due) - toordinal today) 0);
        [lia|].
      destruct (Z.ltb_spec 0 (toordinal (dt_date due) - toordinal today));
        [lia|].
      destruct (Z.ltb_spec (toordinal (dt_date due) - toordinal today) 0);
        [reflexivity | lia].
    + destruct (Z.ltb_spec (toordinal (dt_date due) - toordinal today) 0);
        [lia|].
      destruct (Z.eqb_spec (toordinal (dt_date due)) (toordinal today)).
      * rewrite IH, <- app_assoc.
        destruct (Z.eqb_spec (toordinal (dt_date due) - toordinal today) 0);
          [|lia].
        destruct (Z.ltb_spec 0 (toordinal (dt_date due) - toordinal today));
          [lia | reflexivity].
      * rewrite IH, <- app_assoc.
        destruct (Z.eqb_spec (toordinal (dt_date due) - toordinal today) 0);
          [lia|].
        destruct (Z.ltb_spec 0 (toordinal (dt_date due) - toordinal today));
          [reflexivity | lia].
Qed.

(** X26.  The four groups of the daily log, each in the order of the
    input: the completed tasks, and the pending tasks due before today,
    today and after today, by the calendar day of the due instant.  No
    task is in two groups; a pending task without a due date and a task
    whose status is neither pending nor completed are in none. *)
Theorem daily_log_groups (now : datetime) (tasks : list Task) :
  valid_date (dt_date now) -> due_dates_valid tasks ->
  let completed :=
    List.filter (fun t => status t =? TaskStatus.COMPLETED) tasks in
  let overdue := List.filter (in_group (fun o => o <? 0) (dt_date now)) tasks in
  let today := List.filter (in_group (fun o => o =? 0) (dt_date now)) tasks in
  let future := List.filter (in_group (fun o => 0 <? o) (dt_date now)) tasks in
  Obsidian.groups now tasks = (completed, overdue, today, future)
  /\ (length tasks
      = length completed + length overdue + length today + length future
        + length (List.filter ungrouped tasks))%nat.
Proof.
  intros Ht Hv. cbv zeta. split.
  - unfold Obsidian.groups. cbv zeta.
    rewrite group_pending_spec; [|exact Ht|].
    + cbn [app]. rewrite !filter_filter. reflexivity.
    + unfold due_dates_valid in *. rewrite List.Forall_forall in *.
      intros t Hin. apply filter_In in Hin as [Hin _]. now apply Hv.
  - clear Hv. induction tasks as [|t tasks IH]; [reflexivity|].
    cbn [List.filter length].
    assert (Hin : forall test,
              in_group test (dt_date now) t
              = (status t =? 0)%Z
                && match due_date t with
                   | Some due =>
                       test (toordinal (dt_date due)
                             - toordinal (dt_date now))
                   | None => false
                   end).
    { intros test. unfold in_group, due_in, due_offset.
      destruct (due_date t); reflexivity. }
    rewrite !Hin. clear Hin. unfold ungrouped at 1.
    unfold TaskStatus.COMPLETED, TaskStatus.NORMAL in *.
    destruct (Z.eqb_spec (status t) 2) as [E2|E2];
      destruct (Z.eqb_spec (status t) 0) as [E0|E0]; try lia;
      cbn [andb orb negb length];
      try (rewrite IH; lia).
    destruct (due_date t) as [due|]; [|cbn [length]; rewrite IH; lia].
    destruct (Z.ltb_spec (toordinal (dt_date due) - toordinal (dt_date now)) 0);
      destruct (Z.eqb_spec (toordinal (dt_date due)
                            - toordinal (dt_date now)) 0);
      destruct (Z.ltb_spec 0 (toordinal (dt_date due)
                              - toordinal (dt_date now)));
      try lia; cbn [length]; rewrite IH; lia.
Qed.

End Plans.

(** ** Instances of the further properties on tasks *)

Lemma task_payload_fields_witness :
  let kwargs : gmap string Client.pyobj :=
    <["tags" := Client.OStr "x"]> (<["priority" := Client.OInt 5]> empty) in
  let data : gmap string Client.pyobj :=
    list_to_map [("title", Client.OStr "T"); ("projectId", Client.OStr "p1");
                 ("priority", Client.OInt 5)] in
  Client.create_task_data "T" (Client.OStr "p1") kwargs = Return data
  /\ data !! "title" = Some (Client.OStr "T")
  /\ forall k, is_Some (data !! k) -> In k payload_keys.
Proof.
  intros kwargs data.
  assert (E : Client.create_task_data "T" (Client.OStr "p1") kwargs
              = Return data) by (vm_compute; reflexivity).
  split; [exact E|].
  destruct (proj1 (task_payload_fields "T" "" (Client.OStr "p1") kwargs data)
              E) as (Ht & _ & _ & Hk).
  split; [exact Ht | exact Hk].
Defined.

Lemma unknown_kwargs_are_dropped_witness :
  Client.create_task_data "T" (Client.OStr "p1")
    (<["tags" := Client.OStr "x"]> empty)
  = Client.create_task_data "T" (Client.OStr "p1") empty.
Proof.
  refine (proj1 (unknown_kwargs_are_dropped "T" "" "tags" (Client.OStr "p1")
                   (Client.OStr "x") empty _)).
  unfold read_kwargs. simpl. intuition discriminate.
Defined.


(** "in 3 days" and the explicit date, which differ in the microsecond. *)
Lemma create_task_due_to_the_second_witness :
  TaskOps.create_task Sample.task_client Standin.date_parser_parse
    Standin.sample_now "T" None (Some "in 3 days") (Some 5) None None None
    empty
  = TaskOps.create_task Sample.task_client Standin.date_parser_parse
      Standin.sample_now "T" None (Some "2024-02-03") (Some 5) None None
      None empty.
Proof.
  apply (create_task_due_to_the_second Standin.date_parser_parse
           Sample.task_client Standin.sample_now "T" None "in 3 days"
           "2024-02-03" (Some 5) None None None empty
           (mk_datetime (mk_date 2024 2 3) 23 59 59 7)
           (mk_datetime (mk_date 2024 2 3) 23 59 59 0)).
  - discriminate.
  - discriminate.
  - vm_compute; reflexivity.
  - vm_compute; reflexivity.
  - repeat split.
Defined.

(** The closed project INBOX is taken before the open project Work. *)
Lemma create_task_default_project_witness :
  exists data l1 p l2,
    TaskOps.task_data Standin.date_parser_parse Standin.sample_now
      (Return Sample.projects) None None None None None None empty
    = Return data
    /\ Sample.projects = (l1 ++ p :: l2)%list
    /\ data !! "project_id"
       = Some (Client.option_to_obj Client.OStr (p_id p))
    /\ is_inbox p = true.
Proof.
  destruct (TaskOps.task_data Standin.date_parser_parse Standin.sample_now
              (Return Sample.projects) None None None None None None empty)
    as [data|e] eqn:E; [|vm_compute in E; discriminate].
  assert (Hextra : extra_kwargs (empty : gmap string Client.pyobj))
    by (repeat constructor).
  destruct (create_task_default_project Standin.date_parser_parse
              Standin.sample_now (Return Sample.projects) None None None
              None None None empty eq_refl Hextra data E)
    as (l1 & p & l2 & Hsplit & Hid & Hl1 & Hp).
  exists data, l1, p, l2. split; [reflexivity|].
  split; [exact Hsplit|]. split; [exact Hid|].
  destruct Hp as [Hp | [-> Hl2]]; [exact Hp|].
  exfalso. cbn [app] in Hsplit. injection Hsplit as <- <-.
  apply Forall_cons in Hl2 as [_ Hl2]. apply Forall_cons in Hl2 as [Hi _].
  discriminate Hi.
Defined.

Example default_project_samples :
  let project_of (projects : list Project) :=
    match
      TaskOps.task_data Standin.date_parser_parse Standin.sample_now
        (Return projects) (Some "") (Some "no date") None None None None
        empty
    with
    | Return data => Return (data !! "project_id")
    | Raise e => Raise e
    end in
  project_of [] = Raise (ValueError "No projects found")
  /\ project_of [mk_Project (Some "w") "Work" false]
     = Raise (ValueError "Could not parse date: no date").
Proof. vm_compute. split; reflexivity. Qed.

Lemma batch_complete_counts_witness :
  exists completed,
    TaskOps.batch_complete (fun _ => Sample.answer)
      [("p", "a"); ("p", "gone"); ("q", "b")] []
    = (Return completed, [("p", "a"); ("p", "gone"); ("q", "b")])
    /\ 0 <= completed <= 3.
Proof.
  destruct (batch_complete_counts (fun _ => Sample.answer)
              [("p", "a"); ("p", "gone"); ("q", "b")] [])
    as (completed & Hrun & Hbound & _).
  - intros c p t e. unfold Sample.answer.
    destruct (String.eqb t "gone"); [|discriminate].
    intros [= <-]. reflexivity.
  - exists completed. split; [exact Hrun | exact Hbound].
Defined.

Example batch_complete_sample :
  TaskOps.batch_complete (fun _ => Sample.answer)
    [("p", "a"); ("p", "gone"); ("q", "b")] []
  = (Return 2, [("p", "a"); ("p", "gone"); ("q", "b")]).
Proof. reflexivity. Qed.


Lemma list_tasks_skips_closed_projects_witness :
  TaskManager.list_tasks Sample.account Standin.sample_now None
    (Some "today") None None
  = TaskManager.list_tasks
      (TaskManager.mk_client
         (Return [mk_Project (Some "w") "Work" false])
         (TaskManager.get_project_data Sample.account))
      Standin.sample_now None (Some "today") None None.
Proof.
  apply (list_tasks_skips_closed_projects Sample.account Standin.sample_now
           Sample.projects (TaskManager.get_project_data Sample.account)
           None (Some "today") None None).
  - reflexivity.
  - reflexivity.
  - intros p _ _. reflexivity.
Defined.

Lemma daily_log_groups_witness :
  valid_date (dt_date Standin.sample_now)
  /\ due_dates_valid Standin.sample_tasks
  /\ Obsidian.groups Standin.sample_now Standin.sample_tasks
     = ([],
        [Standin.task "yesterday" 1 (Standin.on_day 30)],
        [Standin.task "today" 5 (Standin.on_day 31)],
        [Standin.task "tomorrow" 0
           (Some (mk_datetime (mk_date 2024 2 1) 9 0 0 0));
         Standin.task "in a week" 1
           (Some (mk_datetime (mk_date 2024 2 7) 9 0 0 0));
         Standin.task "later" 1
           (Some (mk_datetime (mk_date 2024 2 8) 9 0 0 0))]).
Proof.
  split; [apply sample_now_valid|]. split; [apply sample_tasks_valid|].
  rewrite (proj1 (daily_log_groups Standin.sample_now Standin.sample_tasks
                    (proj1 sample_now_valid) sample_tasks_valid)).
  vm_compute; reflexivity.
Defined.
